(** * PMO-Tool: the task table of [Gannt.py] and the views computed from it

    A shallow embedding of the data-handling code of [src/Gannt.py]: the
    pandas frame kept in [st.session_state.df], file ingestion
    ([load_data]) and its caller, the default-value block, the recurrence
    expander ([add_recurring_task_advanced]), the chart and dashboard
    functions, the delay check and the CSV export.

    Conventions of the embedding.
    - A frame is the list of its rows in index order; the thirteen columns
      of the seed data are the fields of a row.
    - A cell of an [object] or numeric column is a [value]; a cell of a
      [datetime64[ns]] column is an [option Z], nanoseconds since the Unix
      epoch, [None] being [NaT].
    - Numbers are whole numbers, as in the seed data; a column of them is
      a 64-bit integer column, or a float column once a cell is missing.
      Their sums are written exact: the statements about the value of a
      sum are made within [exact_range], where no sum of the code wraps
      around or is rounded. Decimal fractions and the binary rounding of a
      quotient are not modelled; the non-finite results of a division
      are.
    - A table without rows has object columns, as the table read from a
      file that holds only its header line.
    - Left out of the embedding: decimal fractions (the reader takes a
      column that holds one for text), the sum of a column that holds
      text, the layout in which [to_csv] writes the numbers of a float
      column, and the widgets of the sidebar. The statements below are
      about tables and files without them.
    - A Python exception is [Raise cls], [cls] being the name of its class;
      a state change made before the exception stays made.
    - Streamlit output is a list of events, oldest first. *)

From Stdlib Require Import ZArith List String Ascii Bool Lia.
From Stdlib Require Import Sorting.Sorted DecimalString.
From Stdlib Require DecimalPos.
Import ListNotations.
Local Open Scope string_scope.
Local Open Scope Z_scope.

Set Implicit Arguments.

(** ** Results and the state monad of the script *)

Inductive outcome (A : Type) : Type :=
| Ok (a : A)
| Raise (cls : string).
Arguments Ok {A} a.
Arguments Raise {A} cls.

(** [M S A]: a computation over a state [S] that returns an [A] or raises. *)
Definition M (S A : Type) : Type := S -> outcome A * S.

Definition ret {S A} (a : A) : M S A := fun s => (Ok a, s).

Definition bind {S A B} (m : M S A) (k : A -> M S B) : M S B :=
  fun s => match m s with
           | (Ok a, s') => k a s'
           | (Raise cls, s') => (Raise cls, s')
           end.

Definition raise {S A} (cls : string) : M S A := fun s => (Raise cls, s).
Definition get {S} : M S S := fun s => (Ok s, s).
Definition put {S} (s : S) : M S unit := fun _ => (Ok tt, s).

Declare Scope script_scope.
Delimit Scope script_scope with script.
Notation "x <- m ;; k" := (bind m (fun x => k))
  (at level 61, m at next level, right associativity) : script_scope.
Notation "m ;; k" := (bind m (fun _ => k))
  (at level 61, right associativity) : script_scope.
Local Open Scope script_scope.

(** ** Cells *)

Inductive value : Type :=
| NaN                      (* a missing cell *)
| Str (s : string)
| Int (n : Z)
| Ts (t : Z).              (* a datetime held in an object column *)

Definition datetime64 : Type := option Z.
Definition NaT : datetime64 := None.

Definition value_eqb (a b : value) : bool :=
  match a, b with
  | NaN, NaN => false                 (* NaN == NaN is False *)
  | Str s, Str t => String.eqb s t
  | Int n, Int m => Z.eqb n m
  | Ts s, Ts t => Z.eqb s t
  | _, _ => false
  end.

Definition isna (v : value) : bool :=
  match v with NaN => true | _ => false end.

(** [Series.fillna(x)] on one cell. *)
Definition fillna (x : value) (v : value) : value :=
  if isna v then x else v.

(** [Series.replace(a, b)] on one cell. *)
Definition replace (a b : value) (v : value) : value :=
  if value_eqb v a then b else v.

(** ** Rows and frames *)

Record Row (V D : Type) : Type := mkRow {
  Task : V;
  Subtask : V;
  Start_Date : D;
  End_Date : D;
  Assignee : V;
  Status : V;
  Progress : V;
  Priority : V;
  Time_Spent : V;
  Comments : V;
  Dependencies : V;
  Budget : V;
  Cost : V
}.

Definition DataFrame (D : Type) : Type := list (Row value D).

Definition map_row {V V' D D'} (f : V -> V') (g : D -> D') (r : Row V D)
  : Row V' D' :=
  {| Task := f (Task r); Subtask := f (Subtask r);
     Start_Date := g (Start_Date r); End_Date := g (End_Date r);
     Assignee := f (Assignee r); Status := f (Status r);
     Progress := f (Progress r); Priority := f (Priority r);
     Time_Spent := f (Time_Spent r); Comments := f (Comments r);
     Dependencies := f (Dependencies r); Budget := f (Budget r);
     Cost := f (Cost r) |}.

(** Column assignment [df[col] = f(df[col])], one definition per column
    the program assigns to. *)
Definition on_Subtask {D} (f : value -> value) (r : Row value D) :=
  {| Task := Task r; Subtask := f (Subtask r);
     Start_Date := Start_Date r; End_Date := End_Date r;
     Assignee := Assignee r; Status := Status r;
     Progress := Progress r; Priority := Priority r;
     Time_Spent := Time_Spent r; Comments := Comments r;
     Dependencies := Dependencies r; Budget := Budget r; Cost := Cost r |}.

Definition on_Priority {D} (f : value -> value) (r : Row value D) :=
  {| Task := Task r; Subtask := Subtask r;
     Start_Date := Start_Date r; End_Date := End_Date r;
     Assignee := Assignee r; Status := Status r;
     Progress := Progress r; Priority := f (Priority r);
     Time_Spent := Time_Spent r; Comments := Comments r;
     Dependencies := Dependencies r; Budget := Budget r; Cost := Cost r |}.

Definition on_Progress {D} (f : value -> value) (r : Row value D) :=
  {| Task := Task r; Subtask := Subtask r;
     Start_Date := Start_Date r; End_Date := End_Date r;
     Assignee := Assignee r; Status := Status r;
     Progress := f (Progress r); Priority := Priority r;
     Time_Spent := Time_Spent r; Comments := Comments r;
     Dependencies := Dependencies r; Budget := Budget r; Cost := Cost r |}.

Definition on_Time_Spent {D} (f : value -> value) (r : Row value D) :=
  {| Task := Task r; Subtask := Subtask r;
     Start_Date := Start_Date r; End_Date := End_Date r;
     Assignee := Assignee r; Status := Status r;
     Progress := Progress r; Priority := Priority r;
     Time_Spent := f (Time_Spent r); Comments := Comments r;
     Dependencies := Dependencies r; Budget := Budget r; Cost := Cost r |}.

Definition on_Dependencies {D} (f : value -> value) (r : Row value D) :=
  {| Task := Task r; Subtask := Subtask r;
     Start_Date := Start_Date r; End_Date := End_Date r;
     Assignee := Assignee r; Status := Status r;
     Progress := Progress r; Priority := Priority r;
     Time_Spent := Time_Spent r; Comments := Comments r;
     Dependencies := f (Dependencies r); Budget := Budget r; Cost := Cost r |}.

Definition on_End_Date {D} (f : D -> D) (r : Row value D) :=
  {| Task := Task r; Subtask := Subtask r;
     Start_Date := Start_Date r; End_Date := f (End_Date r);
     Assignee := Assignee r; Status := Status r;
     Progress := Progress r; Priority := Priority r;
     Time_Spent := Time_Spent r; Comments := Comments r;
     Dependencies := Dependencies r; Budget := Budget r; Cost := Cost r |}.

(** ** The calendar (Python's [datetime] module) *)

Module Calendar.

Definition ns_per_day : Z := 86400000000000.

Definition is_leap (year : Z) : bool :=
  (year mod 4 =? 0) && (negb (year mod 100 =? 0) || (year mod 400 =? 0)).

Definition days_before_year (year : Z) : Z :=
  let y := year - 1 in y * 365 + y / 4 - y / 100 + y / 400.

Definition DAYS_IN_MONTH (month : Z) : Z :=
  match month with
  | 1 => 31 | 2 => 28 | 3 => 31 | 4 => 30 | 5 => 31 | 6 => 30
  | 7 => 31 | 8 => 31 | 9 => 30 | 10 => 31 | 11 => 30 | 12 => 31
  | _ => -1
  end.

Definition DAYS_BEFORE_MONTH (month : Z) : Z :=
  match month with
  | 1 => 0 | 2 => 31 | 3 => 59 | 4 => 90 | 5 => 120 | 6 => 151
  | 7 => 181 | 8 => 212 | 9 => 243 | 10 => 273 | 11 => 304 | 12 => 334
  | _ => -1
  end.

Definition days_in_month (year month : Z) : Z :=
  if (month =? 2) && is_leap year then 29 else DAYS_IN_MONTH month.

Definition days_before_month (year month : Z) : Z :=
  DAYS_BEFORE_MONTH month
  + (if (2 <? month) && is_leap year then 1 else 0).

(** [date(year, month, day).toordinal()]: 0001-01-01 is day 1. *)
Definition ymd2ord (year month day : Z) : Z :=
  days_before_year year + days_before_month year month + day.

Definition DI400Y : Z := 146097.
Definition DI100Y : Z := 36524.
Definition DI4Y : Z := 1461.

(** [date.fromordinal(n)] as (year, month, day). *)
Definition ord2ymd (n0 : Z) : Z * Z * Z :=
  let n := n0 - 1 in
  let n400 := n / DI400Y in
  let n := n mod DI400Y in
  let year := n400 * 400 + 1 in
  let n100 := n / DI100Y in
  let n := n mod DI100Y in
  let n4 := n / DI4Y in
  let n := n mod DI4Y in
  let n1 := n / 365 in
  let n := n mod 365 in
  let year := year + n100 * 100 + n4 * 4 + n1 in
  if (n1 =? 4) || (n100 =? 4) then (year - 1, 12, 31)
  else
    let leapyear := (n1 =? 3) && (negb (n4 =? 24) || (n100 =? 3)) in
    let month := Z.shiftr (n + 50) 5 in
    let preceding :=
      DAYS_BEFORE_MONTH month
      + (if (2 <? month) && leapyear then 1 else 0) in
    if n <? preceding then
      let month := month - 1 in
      let preceding :=
        preceding
        - (DAYS_IN_MONTH month
           + (if (month =? 2) && leapyear then 1 else 0)) in
      (year, month, n - preceding + 1)
    else (year, month, n - preceding + 1).

(** [date.weekday()]: Monday is 0, Sunday is 6. *)
Definition weekday (ordinal : Z) : Z := (ordinal + 6) mod 7.

Definition month_of (ordinal : Z) : Z := snd (fst (ord2ymd ordinal)).

(** The ordinal of 1970-01-01. *)
Definition epoch_ordinal : Z := 719163.

(** [datetime.fromordinal(n)] as a timestamp: midnight of that day. *)
Definition fromordinal (ordinal : Z) : Z :=
  (ordinal - epoch_ordinal) * ns_per_day.

(** [datetime(year, month, day)]. *)
Definition datetime (year month day : Z) : Z :=
  fromordinal (ymd2ord year month day).

(** The calendar day a timestamp falls on, as an ordinal. *)
Definition toordinal (t : Z) : Z := t / ns_per_day + epoch_ordinal.

(** [Timestamp.normalize()]: the time of day set to midnight. *)
Definition normalize (t : Z) : Z := t - t mod ns_per_day.

(** [dt + timedelta(days=n)]. *)
Definition add_days (t n : Z) : Z := t + n * ns_per_day.

End Calendar.

(** ** Text: the string methods and date layouts the program uses *)

Module Text.

Import Calendar.

(** [s.endswith(suffix)]. *)
Definition endswith (s suffix : string) : bool :=
  let n := String.length s in
  let m := String.length suffix in
  (m <=? n)%nat && String.eqb (substring (n - m) m s) suffix.

Definition digit (d : Z) : ascii := ascii_of_N (48 + Z.to_N d).

(** [n] in decimal on exactly [width] digits, zero-padded ([%02d], [%04d]). *)
Fixpoint zpad (width : nat) (n : Z) : string :=
  match width with
  | O => EmptyString
  | S w => zpad w (n / 10) ++ String (digit (n mod 10)) EmptyString
  end.

(** [str(n)] for an integer. *)
Definition str_of_int (n : Z) : string := NilZero.string_of_int (Z.to_int n).

Definition digit_val (c : ascii) : option Z :=
  let k := Z.of_N (N_of_ascii c) in
  if (48 <=? k) && (k <=? 57) then Some (k - 48) else None.

Fixpoint digits_acc (acc : Z) (s : string) : option Z :=
  match s with
  | EmptyString => Some acc
  | String c rest =>
      match digit_val c with
      | Some d => digits_acc (acc * 10 + d) rest
      | None => None
      end
  end.

(** A non-empty run of decimal digits, read as a number. *)
Definition digits (s : string) : option Z :=
  match s with
  | EmptyString => None
  | _ => digits_acc 0 s
  end.

(** An integer literal as the CSV reader takes it: an optional sign and
    digits. *)
Definition int_literal (s : string) : option Z :=
  match s with
  | String "-"%char rest => option_map Z.opp (digits rest)
  | String "+"%char rest => digits rest
  | _ => digits s
  end.

(** [s.split(sep)] for a one-character separator. *)
Fixpoint split (sep : ascii) (s : string) : list string :=
  match s with
  | EmptyString => [EmptyString]
  | String c rest =>
      match split sep rest with
      | [] => [EmptyString]                    (* not reached *)
      | hd :: tl =>
          if Ascii.eqb c sep then EmptyString :: hd :: tl
          else String c hd :: tl
      end
  end.

Definition is_space (c : ascii) : bool :=
  let k := N_of_ascii c in
  ((9 <=? k) && (k <=? 13))%N || (k =? 32)%N || ((28 <=? k) && (k <=? 31))%N.

Fixpoint lstrip (s : string) : string :=
  match s with
  | String c rest => if is_space c then lstrip rest else s
  | EmptyString => EmptyString
  end.

Fixpoint rev_string (acc s : string) : string :=
  match s with
  | EmptyString => acc
  | String c rest => rev_string (String c acc) rest
  end.

(** [s.strip()]. *)
Definition strip (s : string) : string :=
  rev_string EmptyString (lstrip (rev_string EmptyString (lstrip s))).

(** [strftime('%m/%d/%Y')]. *)
Definition strftime_mdY (t : Z) : string :=
  let '(y, m, d) := ord2ymd (toordinal t) in
  zpad 2 m ++ "/" ++ zpad 2 d ++ "/" ++ zpad 4 y.

(** The layout pandas writes a midnight-only datetime column in:
    [%Y-%m-%d]. *)
Definition isoformat_date (t : Z) : string :=
  let '(y, m, d) := ord2ymd (toordinal t) in
  zpad 4 y ++ "-" ++ zpad 2 m ++ "-" ++ zpad 2 d.

(** [%Y-%m-%d %H:%M:%S], the layout of a column that holds a time of day
    (fractions of a second are not printed by the model). *)
Definition isoformat_datetime (t : Z) : string :=
  let secs := (t mod ns_per_day) / 1000000000 in
  isoformat_date t ++ " " ++ zpad 2 (secs / 3600) ++ ":"
    ++ zpad 2 ((secs / 60) mod 60) ++ ":" ++ zpad 2 (secs mod 60).

Definition int64_min : Z := - 2 ^ 63.
Definition int64_max : Z := 2 ^ 63 - 1.

(** One or two digits, as the directives [%m] and [%d] read them. *)
Definition one_or_two_digits (s : string) : option Z :=
  if (String.length s <=? 2)%nat then digits s else None.

(** The directive [%d]: the day on one or two digits, or on one digit
    after a blank. *)
Definition day_digits (s : string) : option Z :=
  match s with
  | String " "%char (String c EmptyString) => digit_val c
  | _ => one_or_two_digits s
  end.

(** The date a text holds under [format='%m/%d/%Y']: month and day on one
    or two digits, the year on four, the whole string consumed, and the
    date one of the calendar, from the year 1 on. [None] is a text that
    does not match the format; a text without two slashes never does. *)
Definition strptime_date (s : string) : option (Z * Z * Z) :=
  match split "/"%char s with
  | [ms; ds; ys] =>
      match one_or_two_digits ms, day_digits ds, digits ys with
      | Some m, Some d, Some y =>
          if (String.length ys =? 4)%nat
             && (1 <=? m) && (m <=? 12)
             && (1 <=? d) && (d <=? days_in_month y m)
             && (1 <=? y)
          then Some (y, m, d)
          else None
      | _, _, _ => None
      end
  | _ => None
  end.

(** The range of a nanosecond timestamp. *)
Definition in_bounds (t : Z) : bool := (int64_min <? t) && (t <=? int64_max).

(** Parsing under [format='%m/%d/%Y'], [None] being a parse failure: the
    text does not hold a date, or the date is outside the range of a
    nanosecond timestamp. *)
Definition strptime_mdY (s : string) : option Z :=
  match strptime_date s with
  | Some (y, m, d) =>
      let t := datetime y m d in
      if in_bounds t then Some t else None
  | None => None
  end.

End Text.

(** ** pandas: sums, means, grouping, CSV text *)

Module Pandas.

Import Calendar Text.

Definition obind {A B} (o : outcome A) (k : A -> outcome B) : outcome B :=
  match o with Ok a => k a | Raise cls => Raise cls end.

Fixpoint sequence {A} (l : list (outcome A)) : outcome (list A) :=
  match l with
  | [] => Ok []
  | o :: rest =>
      obind o (fun a => obind (sequence rest) (fun r => Ok (a :: r)))
  end.

(** The result of a float64 division: the exact quotient [num / den]
    ([den] not zero), or one of the three non-finite floats. *)
Inductive float64 : Type :=
| Quot (num den : Z)
| PosInf
| NegInf
| NaNf.

(** numpy's true division of two numbers: a zero divisor gives a
    non-finite float (and a warning), it does not raise. *)
Definition true_divide (a b : Z) : float64 :=
  if b =? 0 then
    if 0 <? a then PosInf else if a <? 0 then NegInf else NaNf
  else Quot a b.

Definition is_finite (x : float64) : bool :=
  match x with Quot _ _ => true | _ => false end.

(** A cell read as a number: [None] for a missing cell, which sums and
    means skip; adding a string or a datetime to a number is a
    [TypeError]. *)
Definition number (v : value) : outcome (option Z) :=
  match v with
  | Int n => Ok (Some n)
  | NaN => Ok None
  | Str _ | Ts _ => Raise "TypeError"
  end.

Definition or_zero (o : option Z) : Z :=
  match o with Some n => n | None => 0 end.

Definition total (l : list Z) : Z := fold_right Z.add 0 l.

(** [Series.sum()], missing cells skipped. *)
Definition series_sum (col : list value) : outcome Z :=
  obind (sequence (map number col)) (fun ns => Ok (total (map or_zero ns))).

Definition present (o : option Z) : bool :=
  match o with Some _ => true | None => false end.

(** [Series.mean()]: the sum over the count of the cells that are not
    missing; of no cell at all it is NaN. *)
Definition series_mean (col : list value) : outcome float64 :=
  obind (sequence (map number col)) (fun ns =>
    Ok (true_divide (total (map or_zero ns))
                    (Z.of_nat (List.length (filter present ns))))).

(** Grouping: the groups are kept in ascending key order, a key that is
    already there has the new value merged into its group. *)
Section GroupBy.
Variables (K A : Type).
Variable cmp : K -> K -> comparison.
Variable merge : A -> A -> A.

Fixpoint group_add (k : K) (a : A) (gs : list (K * A)) : list (K * A) :=
  match gs with
  | [] => [(k, a)]
  | (k', a') :: rest =>
      match cmp k k' with
      | Lt => (k, a) :: gs
      | Eq => (k', merge a' a) :: rest
      | Gt => (k', a') :: group_add k a rest
      end
  end.

Definition groupby (kvs : list (K * A)) : list (K * A) :=
  fold_left (fun gs ka => group_add (fst ka) (snd ka) gs) kvs [].
End GroupBy.

(** The order of the keys of an object column: numbers and datetimes
    before strings, each kind in its own order. *)
Definition key_compare (a b : value) : comparison :=
  match a, b with
  | Int n, Int m => Z.compare n m
  | Int _, _ => Lt
  | Ts _, Int _ => Gt
  | Ts s, Ts t => Z.compare s t
  | Ts _, _ => Lt
  | Str s, Str t => String.compare s t
  | Str _, NaN => Lt
  | Str _, _ => Gt
  | NaN, NaN => Eq
  | NaN, _ => Gt
  end.

(** The rows that take part in a grouping: [groupby] drops the rows
    whose key is missing ([dropna=True]). *)
Definition keyed {R K} (key : R -> option K) (l : list R) : list (K * R) :=
  flat_map (fun r => match key r with Some k => [(k, r)] | None => [] end) l.

Definition object_key (v : value) : option value :=
  if isna v then None else Some v.

(** [df.groupby(key)[col].sum()] on a datetime key: one point per date,
    dates ascending. *)
Definition groupby_date_sum {D} (key : Row value D -> option Z)
    (col : Row value D -> value) (df : list (Row value D))
  : outcome (list (Z * Z)) :=
  obind
    (sequence (map (fun kr => obind (number (col (snd kr)))
                                (fun n => Ok (fst kr, or_zero n)))
                   (keyed key df)))
    (fun kvs => Ok (groupby Z.compare Z.add kvs)).

(** [Series.cumsum()] over the values of a keyed series. *)
Fixpoint cumsum_from {K} (acc : Z) (s : list (K * Z)) : list (K * Z) :=
  match s with
  | [] => []
  | (k, v) :: rest => (k, acc + v) :: cumsum_from (acc + v) rest
  end.

Definition cumsum {K} (s : list (K * Z)) : list (K * Z) := cumsum_from 0 s.

(** *** CSV text, by field *)

(** The records of a CSV file below its header line, each field as
    text; quoting and separators are not modelled. *)
Definition Table : Type := list (Row string string).

(** The texts the reader takes for a missing value. *)
Definition na_values : list string :=
  [""; "#N/A"; "#N/A N/A"; "#NA"; "-1.#IND"; "-1.#QNAN"; "-NaN"; "-nan";
   "1.#IND"; "1.#QNAN"; "<NA>"; "N/A"; "NA"; "NULL"; "NaN"; "n/a"; "nan";
   "null"].

Definition is_na_text (s : string) : bool :=
  existsb (String.eqb s) na_values.

Definition is_int_text (s : string) : bool :=
  match int_literal s with Some _ => true | None => false end.

(** A column is read as numbers when each of its fields is missing or an
    integer literal, as text otherwise (decimal fractions are outside the
    model: a column that holds one is read as text). *)
Definition int_column (col : list string) : bool :=
  forallb (fun s => is_na_text s || is_int_text s) col.

Definition read_cell (as_int : bool) (s : string) : value :=
  if is_na_text s then NaN
  else if as_int then
    match int_literal s with Some n => Int n | None => Str s end
  else Str s.

Definition read_csv (t : Table) : list (Row value value) :=
  let ty (f : Row string string -> string) := int_column (map f t) in
  let c_task := ty (@Task _ _) in
  let c_subtask := ty (@Subtask _ _) in
  let c_start := ty (@Start_Date _ _) in
  let c_end := ty (@End_Date _ _) in
  let c_assignee := ty (@Assignee _ _) in
  let c_status := ty (@Status _ _) in
  let c_progress := ty (@Progress _ _) in
  let c_priority := ty (@Priority _ _) in
  let c_time := ty (@Time_Spent _ _) in
  let c_comments := ty (@Comments _ _) in
  let c_deps := ty (@Dependencies _ _) in
  let c_budget := ty (@Budget _ _) in
  let c_cost := ty (@Cost _ _) in
  map (fun r =>
    {| Task := read_cell c_task (Task r);
       Subtask := read_cell c_subtask (Subtask r);
       Start_Date := read_cell c_start (Start_Date r);
       End_Date := read_cell c_end (End_Date r);
       Assignee := read_cell c_assignee (Assignee r);
       Status := read_cell c_status (Status r);
       Progress := read_cell c_progress (Progress r);
       Priority := read_cell c_priority (Priority r);
       Time_Spent := read_cell c_time (Time_Spent r);
       Comments := read_cell c_comments (Comments r);
       Dependencies := read_cell c_deps (Dependencies r);
       Budget := read_cell c_budget (Budget r);
       Cost := read_cell c_cost (Cost r) |}) t.

(** [pd.to_datetime(col, format='%m/%d/%Y', errors='coerce')] on one
    cell: what does not parse becomes NaT. *)
Definition to_datetime_coerce (v : value) : datetime64 :=
  match v with
  | Str s => strptime_mdY s
  | Ts t => Some t
  | NaN | Int _ => NaT
  end.

(** The texts the date parser takes for a missing date. *)
Definition nat_strings : list string :=
  ["NaT"; "nat"; "NAT"; "nan"; "NaN"; "NAN"].

Definition is_nat_string (s : string) : bool :=
  existsb (String.eqb s) nat_strings.

(** [pd.to_datetime(col, format='%m/%d/%Y')] on one cell: a text that
    does not match the format raises [ValueError], a date outside the
    range of a timestamp [OutOfBoundsDatetime] (a [ValueError] too). *)
Definition to_datetime_strict (v : value) : outcome datetime64 :=
  match v with
  | Str s =>
      if is_nat_string s then Ok NaT
      else
        match strptime_date s with
        | Some (y, m, d) =>
            let t := datetime y m d in
            if in_bounds t then Ok (Some t)
            else Raise "OutOfBoundsDatetime"
        | None => Raise "ValueError"
        end
  | Ts t => Ok (Some t)
  | NaN => Ok NaT
  | Int _ => Raise "ValueError"
  end.

(** How [to_csv] writes a cell of an object or numeric column. *)
Definition csv_field (v : value) : string :=
  match v with
  | NaN => ""
  | Str s => s
  | Int n => str_of_int n
  | Ts t => isoformat_datetime t
  end.

Definition is_midnight (d : datetime64) : bool :=
  match d with Some t => t mod ns_per_day =? 0 | None => true end.

(** How [to_csv] writes a datetime column: dates alone when no cell
    holds a time of day, NaT as the empty field. *)
Definition csv_date_field (dates_only : bool) (d : datetime64) : string :=
  match d with
  | None => ""
  | Some t => if dates_only then isoformat_date t else isoformat_datetime t
  end.

Definition to_csv (df : DataFrame datetime64) : Table :=
  let starts := forallb is_midnight (map (@Start_Date _ _) df) in
  let ends := forallb is_midnight (map (@End_Date _ _) df) in
  map (fun r =>
    {| Task := csv_field (Task r); Subtask := csv_field (Subtask r);
       Start_Date := csv_date_field starts (Start_Date r);
       End_Date := csv_date_field ends (End_Date r);
       Assignee := csv_field (Assignee r); Status := csv_field (Status r);
       Progress := csv_field (Progress r);
       Priority := csv_field (Priority r);
       Time_Spent := csv_field (Time_Spent r);
       Comments := csv_field (Comments r);
       Dependencies := csv_field (Dependencies r);
       Budget := csv_field (Budget r); Cost := csv_field (Cost r) |}) df.

End Pandas.

(** ** The program *)

Module Gannt.

Import Calendar Text Pandas.

(** *** What the script runs in *)

(** A dependency line of the Gantt chart: [(x0, y0, x1, y1)]. *)
Definition Shape : Type := (datetime64 * Z * datetime64 * Z)%type.

Inductive Figure : Type :=
| Timeline (title : string) (bars : DataFrame datetime64)
           (shapes : list Shape)
| Line (title : string) (points : list (Z * Z))
| Bar (title : string) (bars : list (value * (Z * Z))).

Inductive event : Type :=
| st_error (msg : string)
| st_warning (msg : string)
| st_success (msg : string)
| st_subheader (text : string)
| st_metric (label : string) (shown : float64)
| st_bar_chart (groups : list (value * (Z * Z)))
| st_dataframe (rows : list (value * value * datetime64 * value))
| st_plotly_chart (fig : Figure).

(** What [st.session_state.df] holds: nothing yet, [None], or a frame
    whose two date columns are datetimes or objects (strings, after
    lines 284-285). *)
Inductive store : Type :=
| Missing
| PyNone
| FrameDt (df : DataFrame datetime64)
| FrameObj (df : DataFrame value).

(** The world of a run: the session's table (of type [F]), what has been
    shown, the files written, and the reading of the wall clock. *)
Record World (F : Type) : Type := mkWorld {
  session_df : F;
  screen : list event;
  disk : list (string * Table);
  clock : Z
}.

Definition set_df {F G} (x : G) (w : World F) : World G :=
  {| session_df := x; screen := screen w; disk := disk w;
     clock := clock w |}.

Definition show {F} (e : event) : M (World F) unit :=
  fun w => (Ok tt, {| session_df := session_df w;
                      screen := (screen w ++ [e])%list;
                      disk := disk w; clock := clock w |}).

Definition write_file {F} (path : string) (t : Table) : M (World F) unit :=
  fun w => (Ok tt, {| session_df := session_df w; screen := screen w;
                      disk := (path, t) :: disk w; clock := clock w |}).

Definition assign_df {F} (x : F) : M (World F) unit :=
  fun w => (Ok tt, set_df x w).

Definition the_df {F} : M (World F) F := fun w => (Ok (session_df w), w).

(** [datetime.now()]. *)
Definition datetime_now {F} : M (World F) Z := fun w => (Ok (clock w), w).

Definition lift {F A} (o : outcome A) : M (World F) A :=
  match o with Ok a => ret a | Raise cls => raise cls end.

Fixpoint for_each {S A} (l : list A) (body : A -> M S unit) : M S unit :=
  match l with
  | [] => ret tt
  | a :: rest => body a ;; for_each rest body
  end.

(** *** Ingestion: [load_data] and its caller (lines 40-141) *)

Record UploadedFile : Type := mkFile {
  name : string;
  records : Table            (* the table the file holds, as text *)
}.

(** A workbook is modelled by the text of its cells and read like the
    records of a CSV file. *)
Definition read_excel (t : Table) : list (Row value value) := read_csv t.

Definition parse_dates (df : list (Row value value)) : DataFrame datetime64 :=
  map (map_row (fun v => v) to_datetime_coerce) df.

Definition load_data {F} (uploaded_file : UploadedFile)
  : M (World F) (option (DataFrame datetime64)) :=
  if endswith (name uploaded_file) ".csv" then
    ret (Some (parse_dates (read_csv (records uploaded_file))))
  else if endswith (name uploaded_file) ".xlsx" then
    ret (Some (parse_dates (read_excel (records uploaded_file))))
  else
    show (st_error
      "Unsupported file format. Please upload a CSV or Excel file.") ;;
    ret None.

Definition seed_row (task subtask : string) (s e : Z)
    (assignee status : string) (progress : Z) (priority : string)
    (time_spent : Z) (comments dependencies : string) (budget cost : Z)
  : Row value datetime64 :=
  {| Task := Str task; Subtask := Str subtask;
     Start_Date := Some s; End_Date := Some e;
     Assignee := Str assignee; Status := Str status;
     Progress := Int progress; Priority := Str priority;
     Time_Spent := Int time_spent; Comments := Str comments;
     Dependencies := Str dependencies;
     Budget := Int budget; Cost := Int cost |}.

Definition dummy_data : DataFrame datetime64 :=
  [ seed_row "Design" "Requirement Gathering"
      (datetime 2024 8 1) (datetime 2024 8 2) "Alice" "Completed" 100
      "High" 16 "Requirements finalized" "" 5000 4800;
    seed_row "Design" "UI/UX Design"
      (datetime 2024 8 3) (datetime 2024 8 6) "Bob" "In Progress" 60
      "Medium" 24 "UI/UX in progress" "Requirement Gathering" 8000 4000;
    seed_row "Design" "Approval"
      (datetime 2024 8 7) (datetime 2024 8 9) "Charlie" "Not Started" 0
      "Medium" 0 "" "UI/UX Design" 2000 0;
    seed_row "Development" "Backend Development"
      (datetime 2024 8 10) (datetime 2024 8 14) "David" "In Progress" 50
      "High" 40 "Backend API development ongoing" "Approval" 15000 6000;
    seed_row "Development" "Frontend Development"
      (datetime 2024 8 15) (datetime 2024 8 20) "Eve" "Not Started" 0
      "Medium" 0 "" "Backend Development" 12000 0;
    seed_row "Testing" "Unit Testing"
      (datetime 2024 8 20) (datetime 2024 8 24) "Frank" "Not Started" 0
      "High" 0 "" "Frontend Development" 5000 0;
    seed_row "Testing" "Integration Testing"
      (datetime 2024 8 25) (datetime 2024 8 30) "Grace" "Not Started" 0
      "Medium" 0 "" "Unit Testing" 8000 0;
    seed_row "Deployment" "Go Live"
      (datetime 2024 9 1) (datetime 2024 9 5) "Heidi" "Not Started" 0
      "High" 0 "" "Integration Testing" 10000 0 ].

Definition as_store (r : option (DataFrame datetime64)) : store :=
  match r with Some df => FrameDt df | None => PyNone end.

(** Lines 58-141: with a file in the uploader the session's table is
    assigned whatever [load_data] returned; with none, the seed data
    the first time. *)
Definition upload_step (uploaded_file : option UploadedFile)
  : M (World store) unit :=
  match uploaded_file with
  | Some f =>
      df <- load_data f ;;
      assign_df (as_store df)
  | None =>
      s <- the_df ;;
      match s with
      | Missing => assign_df (FrameDt dummy_data)
      | _ => ret tt
      end
  end.

(** *** The default values (lines 274-277) *)

Definition default_row {D} (r : Row value D) : Row value D :=
  on_Time_Spent (replace (Str "") (Int 0))
    (on_Progress (replace (Str "") (Int 0))
      (on_Priority (replace (Str "") (Str "Medium"))
        (on_Subtask (fillna (Str "")) r))).

Definition apply_defaults : M (World store) unit :=
  s <- the_df ;;
  match s with
  | FrameDt df => assign_df (FrameDt (map default_row df))
  | FrameObj df => assign_df (FrameObj (map default_row df))
  | PyNone => raise "TypeError"      (* None is not subscriptable *)
  | Missing => raise "AttributeError"
  end.

(** Ingestion of a file as the script performs it: lines 58-60, then the
    default values. *)
Definition ingest (f : UploadedFile) : M (World store) unit :=
  upload_step (Some f) ;; apply_defaults.

(** *** The recurrence expander (lines 177-193) *)

(** The dates [rrule] yields: the days from [dtstart] to [until], both
    included, that the rule selects, in ascending order. Days are
    ordinals. *)
Fixpoint occurrences (selects : Z -> bool) (d : Z) (n : nat) : list Z :=
  match n with
  | O => []
  | S n' =>
      if selects d then d :: occurrences selects (d + 1) n'
      else occurrences selects (d + 1) n'
  end.

Definition rrule (selects : Z -> bool) (dtstart until : Z) : list Z :=
  map fromordinal
      (occurrences selects dtstart (Z.to_nat (until - dtstart + 1))).

(** [freq=WEEKLY, byweekday=wd]. *)
Definition WEEKLY_on (wd : Z) (d : Z) : bool := weekday d =? wd.

(** [freq=MONTHLY, byweekday=wd(-1)]: the last such weekday of a month. *)
Definition MONTHLY_last (wd : Z) (d : Z) : bool :=
  (weekday d =? wd) && negb (month_of (d + 7) =? month_of d).

Definition FR : Z := 4.

(** The dict appended for one occurrence; the columns it does not name
    are missing in the new row. *)
Definition recurring_row {D} (date : Z -> D) (task_name : string) (dt : Z)
  : Row value D :=
  {| Task := Str task_name; Subtask := NaN;
     Start_Date := date dt; End_Date := date (add_days dt 1);
     Assignee := NaN; Status := Str "Not Started";
     Progress := Int 0; Priority := NaN;
     Time_Spent := NaN; Comments := NaN; Dependencies := NaN;
     Budget := NaN; Cost := NaN |}.

(** [st.session_state.df = st.session_state.df.append(row)]. *)
Definition append_recurring (task_name : string) (dt : Z)
  : M (World store) unit :=
  s <- the_df ;;
  match s with
  | FrameDt df =>
      assign_df (FrameDt (df ++ [recurring_row (@Some Z) task_name dt])%list)
  | FrameObj df =>
      assign_df (FrameObj (df ++ [recurring_row Ts task_name dt])%list)
  | PyNone | Missing => raise "AttributeError"
  end.

(** [st.experimental_rerun()]: the run is abandoned and the script
    starts again; nothing after the call is executed. *)
Definition st_experimental_rerun {F A} : M (World F) A :=
  raise "RerunException".

(** [start_date] and [end_date] are the [date]s of the two date inputs,
    as ordinals. With a recurrence type that is neither of the two
    tested ones no branch binds [rule], and reading it raises. *)
Definition add_recurring_task_advanced (task_name recurrence_type : string)
    (start_date end_date : Z) : M (World store) unit :=
  rule <-
    (if String.eqb recurrence_type "Weekly on Monday" then
       ret (rrule (WEEKLY_on 0) start_date end_date)
     else if String.eqb recurrence_type "Last Friday of the Month" then
       ret (rrule (MONTHLY_last FR) start_date end_date)
     else raise "UnboundLocalError") ;;
  for_each rule (append_recurring task_name) ;;
  st_experimental_rerun.

Definition recurrence_options : list string :=
  ["Weekly on Monday"; "Last Friday of the Month"].

(** *** The views (lines 144-236 and 331-350)

    Each function below is called with [st.session_state.df] itself,
    after lines 328-329 have made both date columns datetimes: it runs
    over a world whose table is that frame, and an assignment to a
    column of [df] is an assignment to the session's table. *)

Definition View (A : Type) : Type := M (World (DataFrame datetime64)) A.

(** Python's truth value of a cell. *)
Definition truthy (v : value) : bool :=
  match v with
  | Str s => negb (String.eqb s "")
  | Int n => negb (n =? 0)
  | NaN | Ts _ => true
  end.

(** The dependency lines of one row: for each name of its comma
    separated list that is the [Task] of some row, a line from the end
    date of the first such row to the start date of this row. *)
Definition row_shapes (df : DataFrame datetime64) (i : Z)
    (row : Row value datetime64) : outcome (list Shape) :=
  if truthy (Dependencies row) then
    match Dependencies row with
    | Str deps =>
        Ok (flat_map
              (fun dep =>
                 match filter (fun r => value_eqb (Task r) (Str (strip dep)))
                              df with
                 | [] => []
                 | dep_task :: _ =>
                     [(End_Date dep_task, i, Start_Date row, i)]
                 end)
              (split ","%char deps))
    | _ => Raise "AttributeError"      (* no [split] on a number *)
    end
  else Ok [].

Fixpoint shapes_from (df : DataFrame datetime64) (i : Z)
    (rows : DataFrame datetime64) : outcome (list Shape) :=
  match rows with
  | [] => Ok []
  | row :: rest =>
      obind (row_shapes df i row) (fun here =>
      obind (shapes_from df (i + 1) rest) (fun later =>
      Ok (here ++ later)%list))
  end.

Definition create_gantt_chart_with_dependencies : View Figure :=
  df <- the_df ;;
  let df := map (on_Dependencies (fillna (Str ""))) df in
  assign_df df ;;
  shapes <- lift (shapes_from df 0 df) ;;
  ret (Timeline "Gantt Chart with Dependencies" df shapes).

(** Line 207. The columns of a table without rows are object columns (a
    file that holds only its header line): their sums are Python's integer
    0, and [0 / 0] raises where the division of two NumPy numbers returns
    a float. *)
Definition burn_rate_of (df : DataFrame datetime64) : outcome float64 :=
  match df with
  | [] => Raise "ZeroDivisionError"
  | _ :: _ =>
      obind (series_sum (map (@Cost _ _) df)) (fun cost =>
      obind (series_sum (map (@Budget _ _) df)) (fun budget =>
      Ok (true_divide cost budget)))
  end.

Definition pair_add (a b : Z * Z) : Z * Z :=
  (fst a + fst b, snd a + snd b).

(** [df.groupby('Task').agg({'Budget': 'sum', 'Cost': 'sum'})]. *)
Definition budget_vs_actuals_of (df : DataFrame datetime64)
  : outcome (list (value * (Z * Z))) :=
  obind
    (sequence
       (map (fun kr =>
               obind (number (Budget (snd kr))) (fun b =>
               obind (number (Cost (snd kr))) (fun c =>
               Ok (fst kr, (or_zero b, or_zero c)))))
            (keyed (fun r => object_key (Task r)) df)))
    (fun kvs => Ok (groupby key_compare pair_add kvs)).

Definition create_project_health_dashboard : View unit :=
  df <- the_df ;;
  burn_rate <- lift (burn_rate_of df) ;;
  budget_vs_actuals <- lift (budget_vs_actuals_of df) ;;
  overall_progress <- lift (series_mean (map (@Progress _ _) df)) ;;
  show (st_subheader "Project Health Dashboard") ;;
  show (st_metric "Burn Rate" burn_rate) ;;
  show (st_metric "Overall Progress" overall_progress) ;;
  show (st_subheader "Budget vs. Actuals") ;;
  show (st_bar_chart budget_vs_actuals).

Definition count_present (v : value) : Z := if isna v then 0 else 1.

(** [df.groupby('Assignee').agg({'Time Spent': 'sum', 'Task': 'count'})]. *)
Definition resource_load_of (df : DataFrame datetime64)
  : outcome (list (value * (Z * Z))) :=
  obind
    (sequence
       (map (fun kr =>
               obind (number (Time_Spent (snd kr))) (fun t =>
               Ok (fst kr, (or_zero t, count_present (Task (snd kr))))))
            (keyed (fun r => object_key (Assignee r)) df)))
    (fun kvs => Ok (groupby key_compare pair_add kvs)).

Definition create_resource_load_chart : View Figure :=
  df <- the_df ;;
  load_df <- lift (resource_load_of df) ;;
  ret (Bar "Resource Load Balancing" load_df).

Definition delay_columns (r : Row value datetime64)
  : value * value * datetime64 * value :=
  (Task r, Subtask r, End_Date r, Assignee r).

(** [End Date < today_pd] on one row; a comparison with NaT is False. *)
Definition is_delayed (today_pd : Z) (r : Row value datetime64) : bool :=
  match End_Date r with
  | Some e => e <? today_pd
  | None => false
  end.

Definition check_project_delay : View unit :=
  now <- datetime_now ;;
  let today_pd := normalize now in
  df <- the_df ;;
  let df := map (on_End_Date (option_map normalize)) df in
  assign_df df ;;
  let delayed_tasks := filter (is_delayed today_pd) df in
  match delayed_tasks with
  | _ :: _ =>
      show (st_warning "Warning: The following tasks are delayed:") ;;
      show (st_dataframe (map delay_columns delayed_tasks))
  | [] => show (st_success "All tasks are on schedule!")
  end.

(** Line 335: [df.groupby('End Date')['Progress'].sum().cumsum()]. *)
Definition burn_down_df (df : DataFrame datetime64)
  : outcome (list (Z * Z)) :=
  obind (groupby_date_sum (@End_Date _ _) (@Progress _ _) df)
        (fun s => Ok (cumsum s)).

(** Line 347: [df.groupby('End Date')['Progress'].sum()]. *)
Definition completion_df (df : DataFrame datetime64)
  : outcome (list (Z * Z)) :=
  groupby_date_sum (@End_Date _ _) (@Progress _ _) df.

Definition burn_down_chart : View Figure :=
  df <- the_df ;;
  s <- lift (burn_down_df df) ;;
  ret (Line "Burn-Down Chart" s).

Definition progress_chart : View Figure :=
  df <- the_df ;;
  s <- lift (completion_df df) ;;
  ret (Line "Task Progress Over Time" s).

(** Lines 331-373, the calls in the order of the script. *)
Definition visualizations : View unit :=
  fig_gantt <- create_gantt_chart_with_dependencies ;;
  show (st_plotly_chart fig_gantt) ;;
  fig_burndown <- burn_down_chart ;;
  show (st_plotly_chart fig_burndown) ;;
  fig_resource_load <- create_resource_load_chart ;;
  show (st_plotly_chart fig_resource_load) ;;
  fig_progress <- progress_chart ;;
  show (st_plotly_chart fig_progress) ;;
  create_project_health_dashboard ;;
  check_project_delay.

(** *** Export (lines 392-395) *)

Definition export_current_view : View unit :=
  df <- the_df ;;
  write_file "current_project_view.csv" (to_csv df) ;;
  show (st_success
    "Current data view downloaded as 'current_project_view.csv'").

End Gannt.

(** ** The rest of the script: dates as text and back *)

Module Script.

Import Calendar Text Pandas Gannt.

(** Lines 280-285 on a table whose date columns are datetimes: lines
    280-281 leave such a column as it is, lines 284-285 write each date
    as month/day/year text and NaT as a missing cell. *)
Definition date_text (d : datetime64) : value :=
  match d with
  | Some t => Str (strftime_mdY t)
  | None => NaN
  end.

Definition dates_as_text (df : DataFrame datetime64) : DataFrame value :=
  map (map_row (fun v => v) date_text) df.

Definition with_dates {V D D'} (r : Row V D) (s e : D') : Row V D' :=
  {| Task := Task r; Subtask := Subtask r;
     Start_Date := s; End_Date := e;
     Assignee := Assignee r; Status := Status r;
     Progress := Progress r; Priority := Priority r;
     Time_Spent := Time_Spent r; Comments := Comments r;
     Dependencies := Dependencies r; Budget := Budget r; Cost := Cost r |}.

Fixpoint set_dates {V D D'} (df : list (Row V D)) (starts ends : list D')
  : list (Row V D') :=
  match df, starts, ends with
  | r :: df', s :: starts', e :: ends' =>
      with_dates r s e :: set_dates df' starts' ends'
  | _, _, _ => []
  end.

(** Lines 328-329: the Start Date column is parsed as a whole, then the
    End Date column; the first cell that does not parse raises. *)
Definition dates_from_text (df : DataFrame value)
  : outcome (DataFrame datetime64) :=
  obind (sequence (map (fun r => to_datetime_strict (Start_Date r)) df))
    (fun starts =>
  obind (sequence (map (fun r => to_datetime_strict (End_Date r)) df))
    (fun ends =>
  Ok (set_dates df starts ends))).

(** *** One pass of the script over the table (lines 274-373) *)

(** A datetime as the cell of an object column. *)
Definition as_cell (d : datetime64) : value :=
  match d with Some t => Ts t | None => NaN end.

(** [df['Start Date'] = starts] on a table whose dates are text. *)
Fixpoint start_assigned (df : DataFrame value) (starts : list datetime64)
  : DataFrame value :=
  match df, starts with
  | r :: df', s :: starts' =>
      with_dates r (as_cell s) (End_Date r) :: start_assigned df' starts'
  | _, _ => []
  end.

(** A view run on the datetime frame [df]; the session holds the frame
    the view leaves behind. *)
Definition framed {A} (df : DataFrame datetime64) (v : View A)
  : M (World store) A :=
  fun w =>
    let '(o, w') := v (set_df df w) in
    (o, set_df (FrameDt (session_df w')) w').

(** The script from the default values to the delay check, run over a
    session that holds the datetime frame [df], nothing being edited in
    the data editor and no button pressed: the defaults (274-277), the
    dates written as text (280-285), the editor (288-289), the dates
    parsed again, one column after the other (328-329), and the views
    (331-373). *)
Definition script_pass (df : DataFrame datetime64) : M (World store) unit :=
  let df := map default_row df in
  let shown := dates_as_text df in
  let edited_df := shown in
  assign_df (FrameObj edited_df) ;;
  starts <- lift (sequence (map (fun r => to_datetime_strict (Start_Date r))
                                edited_df)) ;;
  assign_df (FrameObj (start_assigned edited_df starts)) ;;
  ends <- lift (sequence (map (fun r => to_datetime_strict (End_Date r))
                              edited_df)) ;;
  framed (set_dates edited_df starts ends) visualizations.

End Script.

(** * Properties *)

Import Calendar Text Pandas Gannt.
Local Open Scope list_scope.

(** ** Vocabulary of the statements

    The definitions below are not part of the program: they name what the
    statements speak of (a numeric column, the delayed rows in the words
    of the specification, the table a round trip builds) and the sample
    tables and files the examples run on. *)

(** *** Sums and the burn rate *)

(** A numeric column: each cell a number or missing. *)
Definition numeric_cell (v : value) : Prop :=
  v = NaN \/ exists n, v = Int n.

(** The amount a cell adds to the sum of its column. *)
Definition amount (v : value) : Z :=
  match v with Int n => n | _ => 0 end.

Definition column_sum (col : list value) : Z := total (map amount col).

(** The range in which the sums of the code are exact whatever the type
    of the column (64-bit integers, or floats once a cell is missing): the
    magnitudes of the cells add up to at most 2^53, so no partial sum
    wraps around or is rounded. *)
Definition magnitude (col : list value) : Z :=
  total (map (fun v => Z.abs (amount v)) col).

Definition exact_range (col : list value) : Prop := magnitude col <= 2 ^ 53.

Definition costs (df : DataFrame datetime64) : list value :=
  map (@Cost _ _) df.
Definition budgets (df : DataFrame datetime64) : list value :=
  map (@Budget _ _) df.


Definition at_clock (now : Z) (df : DataFrame datetime64)
  : World (DataFrame datetime64) :=
  {| session_df := df; screen := []; disk := []; clock := now |}.

(** *** Delay detection *)

(** The delayed rows in the words of the specification: the end date is
    set and falls on a calendar day before [today]; the rows are kept in
    the order of the table. *)
Definition delayed_on (today : Z) (r : Row value datetime64) : bool :=
  match End_Date r with
  | Some e => toordinal e <? toordinal today
  | None => false
  end.

Definition delayed_rows (today : Z) (df : DataFrame datetime64)
  : DataFrame datetime64 :=
  filter (delayed_on today) df.

(** What the check puts on the screen for a list of delayed rows. *)
Definition delay_report (rows : list (value * value * datetime64 * value))
  : list event :=
  match rows with
  | [] => [st_success "All tasks are on schedule!"]
  | _ :: _ => [st_warning "Warning: The following tasks are delayed:";
               st_dataframe rows]
  end.

Definition midnight : Row value datetime64 -> Row value datetime64 :=
  on_End_Date (option_map normalize).

Definition late_row : Row value datetime64 :=
  seed_row "Design" "Approval" (datetime 2024 8 7) (datetime 2024 8 9)
    "Charlie" "Not Started" 0 "Medium" 0 "" "UI/UX Design" 2000 0.

Definition late_df : DataFrame datetime64 := [late_row].

(** *** Recurrence *)

(** The days the weekly rule yields between two dates. *)
Definition mondays_between (range_start range_end : Z) : list Z :=
  occurrences (WEEKLY_on 0) range_start
              (Z.to_nat (range_end - range_start + 1)).

(** The row generated for the day [d]. *)
Definition monday_row (task_name : string) (d : Z) : Row value value :=
  recurring_row Ts task_name (fromordinal d).

Definition empty_session : World store :=
  {| session_df := FrameObj []; screen := []; disk := []; clock := 0 |}.

Definition tuesday_rows : DataFrame value :=
  map (fun day => monday_row "Review" (ymd2ord 2024 8 day)) [6; 13; 20; 27].

(** *** Ingestion and export *)

Definition seeded_session : World store :=
  {| session_df := FrameDt dummy_data; screen := []; disk := [];
     clock := datetime 2024 9 10 |}.

Definition unsupported_message : string :=
  "Unsupported file format. Please upload a CSV or Excel file.".

Definition upper_case_file : UploadedFile :=
  {| name := "TASKS.CSV"; records := to_csv dummy_data |}.

Fixpoint has_char (c : ascii) (s : string) : bool :=
  match s with
  | EmptyString => false
  | String c' rest => Ascii.eqb c' c || has_char c rest
  end.

(** The table ingestion builds from the file the export wrote. *)
Definition reingest (df : DataFrame datetime64) : DataFrame datetime64 :=
  parse_dates (read_csv (to_csv df)).

Definition exported_file (df : DataFrame datetime64) : UploadedFile :=
  {| name := "current_project_view.csv"; records := to_csv df |}.

Definition without_dates (r : Row value datetime64) : Row value datetime64 :=
  {| Task := Task r; Subtask := Subtask r;
     Start_Date := NaT; End_Date := NaT;
     Assignee := Assignee r; Status := Status r;
     Progress := Progress r; Priority := Priority r;
     Time_Spent := Time_Spent r; Comments := Comments r;
     Dependencies := Dependencies r; Budget := Budget r; Cost := Cost r |}.

Definition design_row : Row value datetime64 :=
  seed_row "Design" "UI/UX Design" (datetime 2024 8 3) (datetime 2024 8 6)
    "Bob" "In Progress" 60 "Medium" 24 "UI/UX in progress"
    "Requirement Gathering" 8000 4000.

(** *** Views and the table *)

(** A view that does not assign to the table it is given. *)
Definition keeps_table {A} (m : View A) : Prop :=
  forall w, session_df (snd (m w)) = session_df w.

(** The assignment the Gantt chart makes to the Dependencies column. *)
Definition filled : Row value datetime64 -> Row value datetime64 :=
  on_Dependencies (fillna (Str "")).

Definition recurring_df : DataFrame datetime64 :=
  [recurring_row (@Some Z) "Standup" (datetime 2024 8 5)].

(** *** The series by end date *)

Definition nonnegative_progress (r : Row value datetime64) : Prop :=
  Progress r = NaN \/ exists n, Progress r = Int n /\ 0 <= n.

Definition end_key : Row value datetime64 -> option Z := @End_Date _ _.
Definition progress_of : Row value datetime64 -> value := @Progress _ _.

Definition regress_df : DataFrame datetime64 :=
  [ seed_row "Design" "Requirement Gathering"
      (datetime 2024 8 1) (datetime 2024 8 2) "Alice" "Completed" 50
      "High" 16 "Requirements finalized" "" 5000 4800;
    seed_row "Design" "UI/UX Design"
      (datetime 2024 8 3) (datetime 2024 8 6) "Bob" "In Progress" (-20)
      "Medium" 24 "UI/UX in progress" "Requirement Gathering" 8000 4000 ].

Definition end_date_set (r : Row value datetime64) : bool :=
  match End_Date r with Some _ => true | None => false end.

(** What it is for every date of a series to be the end date of a row. *)
Definition dated_by (df : DataFrame datetime64)
    (series : outcome (list (Z * Z))) : Prop :=
  match series with
  | Ok s => Forall (fun d => exists r, In r df /\ End_Date r = Some d)
                   (map fst s)
  | Raise _ => True
  end.

(** *** Default values *)








(** *** Dates as text *)

Import Script.

(** Both dates of a row moved to midnight. *)
Definition at_midnight (r : Row value datetime64) : Row value datetime64 :=
  with_dates r (option_map normalize (Start_Date r))
               (option_map normalize (End_Date r)).

(** The first day whose midnight is a timestamp, 1677-09-22, and the
    dates a nanosecond timestamp can hold from there on. *)
Definition first_midnight : Z := datetime 1677 9 22.

Definition in_timestamp_range (d : datetime64) : Prop :=
  match d with
  | Some t => first_midnight <= t <= int64_max
  | None => True
  end.

Definition iso_typed_row : Row value value :=
  {| Task := Str "Design"; Subtask := Str "Approval";
       Start_Date := Str "08/07/2024"; End_Date := Str "2024-08-09";
       Assignee := Str "Charlie"; Status := Str "Not Started";
       Progress := Int 0; Priority := Str "Medium"; Time_Spent := Int 0;
       Comments := Str ""; Dependencies := Str "UI/UX Design";
       Budget := Int 2000; Cost := Int 0 |}.

Definition iso_typed_df : DataFrame value := [iso_typed_row].

(** *** The calendar *)

(** A date of the calendar: a month of the year and a day of that month. *)
Definition valid_date (y m d : Z) : Prop :=
  1 <= m <= 12 /\ 1 <= d <= days_in_month y m.

(** *** More on recurrence *)

(** The days the monthly rule yields between two dates. *)
Definition last_fridays_between (range_start range_end : Z) : list Z :=
  occurrences (MONTHLY_last FR) range_start
              (Z.to_nat (range_end - range_start + 1)).

Definition friday_row (task_name : string) (d : Z) : Row value value :=
  recurring_row Ts task_name (fromordinal d).

(** The day of the month of a day, and the days its month has. *)
Definition day_of_month (ordinal : Z) : Z := snd (ord2ymd ordinal).

Definition month_length (ordinal : Z) : Z :=
  let '(y, m, _) := ord2ymd ordinal in days_in_month y m.

(** The year and month of a day. *)
Definition year_month (ordinal : Z) : Z * Z := fst (ord2ymd ordinal).

(** The distances between the neighbours of a list of days. *)
Fixpoint gaps (l : list Z) : list Z :=
  match l with
  | a :: (b :: _) as rest => (b - a) :: gaps rest
  | _ => []
  end.

(** No day that [selects] picks lies strictly between two neighbours of
    the list. *)
Fixpoint no_skips (selects : Z -> bool) (l : list Z) : Prop :=
  match l with
  | a :: (b :: _) as rest =>
      (forall x, a < x < b -> selects x = false) /\ no_skips selects rest
  | _ => True
  end.

(** *** The dependency lines of the Gantt chart *)

(** A Dependencies cell that holds text or nothing. *)
Definition textual (v : value) : Prop :=
  v = NaN \/ exists s, v = Str s.

(** What a dependency line of the chart says about the table [df]: it is
    horizontal, at the height of the index of some row, it ends at the
    start date of that row, and it starts at the end date of a row whose
    Task is one of the names the row's dependencies list, blanks around
    the name aside. *)
Definition draws (df : DataFrame datetime64) (line : Shape) : Prop :=
  let '(x0, y0, x1, y1) := line in
  y0 = y1 /\ 0 <= y0
  /\ exists row deps,
       nth_error df (Z.to_nat y0) = Some row
       /\ Dependencies row = Str deps /\ x1 = Start_Date row
       /\ exists piece dep_task,
            In piece (split ","%char deps) /\ In dep_task df
            /\ Task dep_task = Str (strip piece) /\ x0 = End_Date dep_task.

Definition numbered_deps_df : DataFrame datetime64 :=
  [ seed_row "1" "Requirement Gathering" (datetime 2024 8 1)
      (datetime 2024 8 2) "Alice" "Completed" 100 "High" 16 "" "" 5000 4800;
    on_Dependencies (fun _ => Int 1)
      (seed_row "2" "UI/UX Design" (datetime 2024 8 3) (datetime 2024 8 6)
         "Bob" "In Progress" 60 "Medium" 24 "" "" 8000 4000) ].

(** *** Sums by end date *)

(** The sum of the values whose key satisfies [p]. *)
Definition total_where {K} (p : K -> bool) (kvs : list (K * Z)) : Z :=
  total (map snd (filter (fun kv => p (fst kv)) kvs)).

(** The dated rows of a table as (end date, progress) pairs. *)
Definition dated_progress (df : DataFrame datetime64) : list (Z * Z) :=
  map (fun kr => (fst kr, amount (progress_of (snd kr)))) (keyed end_key df).

(** The rows whose end date satisfies [p]. *)
Definition ending (p : Z -> bool) (r : Row value datetime64) : bool :=
  match End_Date r with Some e => p e | None => false end.

(** The progress of a list of rows, summed. *)
Definition progress_sum (rows : DataFrame datetime64) : Z :=
  total (map (fun r => amount (Progress r)) rows).

(** *** Sums by task and by assignee *)

(** The order of the groups of an object column. *)
Definition key_lt (a b : value) : Prop := key_compare a b = Lt.

Definition same_key (a b : value) : bool :=
  match key_compare a b with Eq => true | _ => false end.

(** The rows of a table whose [column] holds [key]. *)
Definition rows_of (column : Row value datetime64 -> value) (key : value)
    (df : DataFrame datetime64) : DataFrame datetime64 :=
  filter (fun r => same_key (column r) key) df.

(** A table as (key, amount) pairs, the rows without a key left out. *)
Definition keyed_amounts (column : Row value datetime64 -> value)
    (amount_of : Row value datetime64 -> Z) (df : DataFrame datetime64)
  : list (value * Z) :=
  map (fun kr => (fst kr, amount_of (snd kr)))
      (keyed (fun r => object_key (column r)) df).

Definition row_total (amount_of : Row value datetime64 -> Z)
    (rows : DataFrame datetime64) : Z :=
  total (map amount_of rows).

Definition firsts {K} (gs : list (K * (Z * Z))) : list (K * Z) :=
  map (fun g => (fst g, fst (snd g))) gs.

Definition seconds {K} (gs : list (K * (Z * Z))) : list (K * Z) :=
  map (fun g => (fst g, snd (snd g))) gs.

(** A table as (key, (first amount, second amount)) triples. *)
Definition keyed_pairs (column : Row value datetime64 -> value)
    (f g : Row value datetime64 -> Z) (df : DataFrame datetime64)
  : list (value * (Z * Z)) :=
  map (fun kr => (fst kr, (f (snd kr), g (snd kr))))
      (keyed (fun r => object_key (column r)) df).

Definition task_of (r : Row value datetime64) : value := Task r.
Definition assignee_of (r : Row value datetime64) : value := Assignee r.

Definition times (df : DataFrame datetime64) : list value :=
  map (@Time_Spent _ _) df.

(** The rows that have a task. *)
Definition with_task (df : DataFrame datetime64) : DataFrame datetime64 :=
  filter (fun r => negb (isna (Task r))) df.

Definition tasks_counted (df : DataFrame datetime64) : Z :=
  Z.of_nat (List.length (with_task df)).

(** *** What an export followed by an ingestion keeps *)

Definition is_letter (c : ascii) : bool :=
  let k := N_of_ascii c in
  (((65 <=? k) && (k <=? 90)) || ((97 <=? k) && (k <=? 122)))%N.

Definition lower (c : ascii) : ascii :=
  let k := N_of_ascii c in
  if ((65 <=? k) && (k <=? 90))%N then ascii_of_N (k + 32) else c.

Fixpoint lowercase (s : string) : string :=
  match s with
  | EmptyString => EmptyString
  | String c rest => String (lower c) (lowercase rest)
  end.

(** Words that a CSV reader may take for a truth value, an infinity or
    nothing, in whatever case they are written. *)
Definition reader_words : list string :=
  ["true"; "false"; "inf"; "infinity"; "nan"; "none"].

(** A text that starts with a letter and is neither a marker of a missing
    value nor one of the [reader_words]: no reader takes it for anything
    but text. *)
Definition worded (s : string) : bool :=
  match s with
  | String c _ =>
      is_letter c && negb (is_na_text s)
      && negb (existsb (String.eqb (lowercase s)) reader_words)
  | EmptyString => false
  end.

Definition plain_text (v : value) : Prop :=
  v = NaN \/ exists s, v = Str s /\ worded s = true.

Definition whole_number (v : value) : Prop := exists n, v = Int n.

(** A row whose text columns hold plain text (or nothing) and whose four
    numeric columns hold integers. *)
Definition clean_row (r : Row value datetime64) : Prop :=
  plain_text (Task r) /\ plain_text (Subtask r) /\ plain_text (Assignee r)
  /\ plain_text (Status r) /\ plain_text (Priority r)
  /\ plain_text (Comments r) /\ plain_text (Dependencies r)
  /\ whole_number (Progress r) /\ whole_number (Time_Spent r)
  /\ whole_number (Budget r) /\ whole_number (Cost r).

(** The eleven columns that are not dates. *)
Definition value_columns : list (Row value datetime64 -> value) :=
  [ @Task _ _; @Subtask _ _; @Assignee _ _; @Status _ _; @Progress _ _;
    @Priority _ _; @Time_Spent _ _; @Comments _ _; @Dependencies _ _;
    @Budget _ _; @Cost _ _ ].

(** *** One pass of the script *)

Definition number_or_blank (v : value) : Prop :=
  numeric_cell v \/ v = Str "".

(** A row whose task and assignee are text or missing, the keys of the
    two groupings in their own order. *)
Definition named (r : Row value datetime64) : Prop :=
  textual (Task r) /\ textual (Assignee r).

(** A row the views can draw: the dependencies are text or missing and
    the four amounts numbers or missing. *)
Definition viewable (r : Row value datetime64) : Prop :=
  textual (Dependencies r)
  /\ numeric_cell (Progress r) /\ numeric_cell (Time_Spent r)
  /\ numeric_cell (Budget r) /\ numeric_cell (Cost r).

(** A row one pass of the script can take: its dates are in the range of
    a timestamp, Progress and Time Spent may still be blank. *)
Definition ready_row (r : Row value datetime64) : Prop :=
  in_timestamp_range (Start_Date r) /\ in_timestamp_range (End_Date r)
  /\ textual (Dependencies r)
  /\ number_or_blank (Progress r) /\ number_or_blank (Time_Spent r)
  /\ numeric_cell (Budget r) /\ numeric_cell (Cost r).

(** What one pass makes of a row: the defaults filled in, both dates at
    midnight, the Dependencies cell no longer missing. *)
Definition settled (r : Row value datetime64) : Row value datetime64 :=
  filled (at_midnight (default_row r)).

(** What the views make of a table. *)
Definition viewed (df : DataFrame datetime64) : DataFrame datetime64 :=
  map midnight (map filled df).

(** A view that runs to its end on the table [df], leaves the table
    [df'], and touches neither the files nor the clock. *)
Definition runs {A} (df df' : DataFrame datetime64) (m : View A) : Prop :=
  forall w, session_df w = df ->
    exists a scr,
      m w = (Ok a, {| session_df := df'; screen := scr;
                      disk := disk w; clock := clock w |}).

(** *** A table read from a file *)

(** Both dates of a row are unset or at the start of a day. *)
Definition whole_days (r : Row value datetime64) : Prop :=
  is_midnight (Start_Date r) = true /\ is_midnight (End_Date r) = true.

(** A file with one date as month/day/year and one as year-month-day. *)
Definition mixed_dates_file : UploadedFile :=
  {| name := "plan.csv";
     records :=
       [ {| Task := "Design"; Subtask := "Approval";
            Start_Date := "08/07/2024"; End_Date := "2024-08-09";
            Assignee := "Charlie"; Status := "Not Started";
            Progress := "0"; Priority := "Medium"; Time_Spent := "0";
            Comments := "late"; Dependencies := "UI/UX Design";
            Budget := "2000"; Cost := "0" |} ] |}.

(** *** Texts that are no date *)

(** The words some version of the date parser takes for a missing date or
    for the current time, in whatever case they are written. *)
Definition parser_words : list string := ["nat"; "nan"; "now"; "today"].

(** A text that no month/day/year parser reads: it is not empty, holds
    no slash, and is none of the [parser_words]. *)
Definition no_date_text (s : string) : Prop :=
  s <> EmptyString
  /\ has_char "/"%char s = false
  /\ ~ In (lowercase s) parser_words.

(** The exceptions of a date conversion: [OutOfBoundsDatetime] is a
    [ValueError]. *)
Definition date_error (cls : string) : Prop :=
  cls = "ValueError" \/ cls = "OutOfBoundsDatetime".

(** * Lemmas and theorems *)

(** ** Sums of numeric columns *)

Lemma sequence_numbers (col : list value) :
  Forall numeric_cell col ->
  sequence (map number col)
  = Ok (map (fun v => match v with Int n => Some n | _ => None end) col).
Proof.
  induction 1 as [| v col Hv _ IH]; [reflexivity |].
  cbn [map sequence]. rewrite IH.
  destruct Hv as [-> | [n ->]]; reflexivity.
Qed.

Lemma or_zero_amount (col : list value) :
  map or_zero
      (map (fun v => match v with Int n => Some n | _ => None end) col)
  = map amount col.
Proof.
  rewrite map_map. apply map_ext. intros [| s | n | t]; reflexivity.
Qed.

Lemma series_sum_numeric (col : list value) :
  Forall numeric_cell col -> series_sum col = Ok (column_sum col).
Proof.
  intros H. unfold series_sum. rewrite (sequence_numbers H).
  cbn [obind]. now rewrite or_zero_amount.
Qed.

Lemma burn_rate_of_rows (df : DataFrame datetime64) :
  df <> [] ->
  Forall numeric_cell (costs df) -> Forall numeric_cell (budgets df) ->
  burn_rate_of df
  = Ok (true_divide (column_sum (costs df)) (column_sum (budgets df))).
Proof.
  intros Hdf Hc Hb. unfold burn_rate_of.
  destruct df as [| r df]; [congruence |].
  fold (costs (r :: df)). fold (budgets (r :: df)).
  now rewrite (series_sum_numeric Hc), (series_sum_numeric Hb).
Qed.

(** ** C1: the burn rate *)





(** ** C2: the delay check *)

Lemma normalize_is_day_start (t : Z) :
  normalize t = ns_per_day * (t / ns_per_day).
Proof.
  unfold normalize.
  pose proof (Z.div_mod t ns_per_day) as H.
  assert (ns_per_day <> 0) as Hd by (unfold ns_per_day; lia).
  specialize (H Hd). lia.
Qed.

Lemma normalize_lt_iff_day_lt (e now : Z) :
  (normalize e <? normalize now) = (toordinal e <? toordinal now).
Proof.
  rewrite !normalize_is_day_start. unfold toordinal.
  assert (0 < ns_per_day) as Hd by (unfold ns_per_day; lia).
  destruct (Z.ltb_spec (e / ns_per_day + epoch_ordinal)
                       (now / ns_per_day + epoch_ordinal)) as [H | H];
    [apply Z.ltb_lt | apply Z.ltb_ge]; nia.
Qed.

Lemma is_delayed_after_normalize (now : Z) (r : Row value datetime64) :
  is_delayed (normalize now) (midnight r) = delayed_on now r.
Proof.
  destruct r as [? ? ? [e |] ? ? ? ? ? ? ? ? ?];
    unfold is_delayed, delayed_on, midnight;
    cbn [End_Date on_End_Date option_map];
    [apply normalize_lt_iff_day_lt | reflexivity].
Qed.

Lemma filter_map_commute {A B} (f : B -> bool) (g : A -> B) (l : list A) :
  filter f (map g l) = map g (filter (fun a => f (g a)) l).
Proof.
  induction l as [| a l IH]; [reflexivity |].
  cbn [map filter]. destruct (f (g a)); cbn [map]; now rewrite IH.
Qed.

(** Normalising an end date that is already at midnight changes nothing:
    so it is with the dates line 329 has just parsed. *)
Lemma midnight_fixed (r : Row value datetime64) :
  is_midnight (End_Date r) = true -> midnight r = r.
Proof.
  destruct r as [? ? ? [e |] ? ? ? ? ? ? ? ? ?];
    unfold midnight, on_End_Date, is_midnight;
    cbn [End_Date option_map Task Subtask Start_Date Assignee Status
         Progress Priority Time_Spent Comments Dependencies Budget Cost];
    [| reflexivity].
  intros H. apply Z.eqb_eq in H. unfold normalize. rewrite H.
  now rewrite Z.sub_0_r.
Qed.

Lemma delayed_filter (now : Z) (df : DataFrame datetime64) :
  filter (is_delayed (normalize now)) (map midnight df)
  = map midnight (delayed_rows now df).
Proof.
  rewrite filter_map_commute. unfold delayed_rows. f_equal.
  apply filter_ext. intros r. apply is_delayed_after_normalize.
Qed.

(** C2, as stated, fails: the check takes no date from its caller. For
    the caller's [today] = 2024-09-10 the task that ended on 2024-08-09 is
    in the delayed set of the specification, but run while the clock
    reads 2024-08-01 the check reports that all tasks are on schedule. *)
Lemma delay_check_reads_wall_clock :
  delayed_rows (datetime 2024 9 10) late_df = late_df
  /\ screen (snd (check_project_delay (at_clock (datetime 2024 8 1) late_df)))
     = [st_success "All tasks are on schedule!"].
Proof. split; reflexivity. Qed.

Lemma check_project_delay_run (w : World (DataFrame datetime64)) :
  check_project_delay w
  = (Ok tt,
     {| session_df := map midnight (session_df w);
        screen :=
          screen w
          ++ delay_report
               (map delay_columns
                    (map midnight (delayed_rows (clock w) (session_df w))));
        disk := disk w;
        clock := clock w |}).
Proof.
  destruct w as [df scr dsk now].
  unfold check_project_delay, bind, datetime_now, the_df, assign_df, set_df.
  cbn [session_df screen disk clock].
  pose proof (delayed_filter now df) as E. unfold midnight in *.
  unfold View, DataFrame, datetime64 in *. rewrite E.
  destruct (map (on_End_Date (option_map normalize)) (delayed_rows now df))
    as [| r rest]; [reflexivity |].
  unfold show. cbn [session_df screen disk clock delay_report].
  rewrite <- app_assoc. reflexivity.
Qed.

(** C2, amended: for every table, delay detection takes the current date
    from the wall clock at the time of the call. It shows exactly the rows
    whose end date is set and falls on a day strictly before the clock's
    day, in table order (their task, subtask, end date and assignee);
    with the clock on 2024-09-10 a row ending 2024-08-09 is delayed and a
    row ending 2024-09-20 is not. *)
Theorem check_project_delay_by_clock :
  (forall w : World (DataFrame datetime64),
     check_project_delay w
     = (Ok tt,
        {| session_df := map midnight (session_df w);
           screen :=
             screen w
             ++ delay_report
                  (map delay_columns
                       (map midnight
                            (delayed_rows (clock w) (session_df w))));
           disk := disk w;
           clock := clock w |}))
  /\ (forall (r : Row value datetime64) (time_of_day : Z),
        0 <= time_of_day < ns_per_day ->
        delayed_on (datetime 2024 9 10 + time_of_day)
                   (on_End_Date (fun _ => Some (datetime 2024 8 9)) r) = true
        /\ delayed_on (datetime 2024 9 10 + time_of_day)
                      (on_End_Date (fun _ => Some (datetime 2024 9 20)) r)
           = false).
Proof.
  split.
  - exact check_project_delay_run.
  - intros r tod Htod. unfold delayed_on. cbn [End_Date on_End_Date].
    unfold toordinal.
    assert ((datetime 2024 9 10 + tod) / ns_per_day = 19976) as ->.
    { assert (datetime 2024 9 10 = 19976 * ns_per_day) as ->
        by (vm_compute; reflexivity).
      rewrite Z.div_add_l by (unfold ns_per_day; lia).
      rewrite Z.div_small by exact Htod. reflexivity. }
    split; vm_compute; reflexivity.
Qed.

Lemma check_project_delay_by_clock_witness :
  0 <= 3600000000000 < ns_per_day
  /\ delayed_on (datetime 2024 9 10 + 3600000000000)
                (on_End_Date (fun _ => Some (datetime 2024 8 9)) late_row)
     = true.
Proof.
  assert (0 <= 3600000000000 < ns_per_day) as H
    by (unfold ns_per_day; lia).
  split; [exact H |].
  exact (proj1 (proj2 check_project_delay_by_clock late_row _ H)).
Defined.

(** ** C3 and C4: the recurrence expander *)

Lemma occurrences_In (selects : Z -> bool) (n : nat) :
  forall d x,
    In x (occurrences selects d n)
    <-> d <= x < d + Z.of_nat n /\ selects x = true.
Proof.
  induction n as [| n IH]; intros d x.
  - cbn [occurrences In]. split; [tauto | intros [H _]; lia].
  - cbn [occurrences]. destruct (selects d) eqn:Hd.
    + cbn [In]. rewrite IH. split.
      * intros [<- | [H1 H2]]; split; try assumption; lia.
      * intros [H1 H2].
        destruct (Z.eq_dec d x) as [-> | Hne]; [now left | right].
        split; [lia | assumption].
    + rewrite IH. split.
      * intros [H1 H2]. split; [lia | assumption].
      * intros [H1 H2]. split; [| assumption].
        destruct (Z.eq_dec d x) as [-> | Hne]; [congruence | lia].
Qed.

Lemma occurrences_sorted (selects : Z -> bool) (n : nat) :
  forall d, StronglySorted Z.lt (occurrences selects d n).
Proof.
  induction n as [| n IH]; intros d; cbn [occurrences]; [constructor |].
  destruct (selects d); [| apply IH].
  constructor; [apply IH |].
  apply Forall_forall. intros x Hx. apply occurrences_In in Hx. lia.
Qed.

Lemma sorted_lt_NoDup (l : list Z) : StronglySorted Z.lt l -> NoDup l.
Proof.
  induction 1 as [| a l _ IH Ha]; constructor; [| exact IH].
  intros Hin. rewrite Forall_forall in Ha. specialize (Ha a Hin). lia.
Qed.

Lemma mondays_between_In (range_start range_end d : Z) :
  In d (mondays_between range_start range_end)
  <-> range_start <= d <= range_end /\ weekday d = 0.
Proof.
  unfold mondays_between. rewrite occurrences_In. unfold WEEKLY_on.
  rewrite Z.eqb_eq. split; intros [H1 H2]; (split; [lia | assumption]).
Qed.

Lemma set_df_twice {F G H} (x : G) (y : H) (w : World F) :
  set_df y (set_df x w) = set_df y w.
Proof. reflexivity. Qed.

Lemma for_each_append_obj (task_name : string) (w : World store)
    (rule : list Z) :
  forall df : DataFrame value,
    for_each rule (append_recurring task_name) (set_df (FrameObj df) w)
    = (Ok tt,
       set_df (FrameObj (df ++ map (recurring_row Ts task_name) rule)%list) w).
Proof.
  induction rule as [| dt rule IH]; intros df.
  - cbn [for_each map]. now rewrite app_nil_r.
  - cbn [for_each map]. unfold bind at 1.
    unfold append_recurring at 1. unfold bind, the_df, assign_df.
    cbn [session_df set_df screen disk clock].
    rewrite set_df_twice, IH. now rewrite <- app_assoc.
Qed.

(** C3, as stated for every weekday [w], fails: the program has one
    weekly pattern, on Monday. The Tuesdays of August 2024 are the 6th,
    13th, 20th and 27th, and no recurrence type at all makes the
    expander generate the rows of those four days. *)
Lemma no_recurrence_type_for_tuesdays :
  map weekday (map (ymd2ord 2024 8) [6; 13; 20; 27]) = [1; 1; 1; 1]
  /\ ~ (exists recurrence_type : string,
          session_df
            (snd (add_recurring_task_advanced "Review" recurrence_type
                    (ymd2ord 2024 8 1) (ymd2ord 2024 8 31) empty_session))
          = FrameObj tuesday_rows).
Proof.
  split; [reflexivity |].
  intros [rt H]. unfold add_recurring_task_advanced in H.
  destruct (String.eqb rt "Weekly on Monday").
  - vm_compute in H. discriminate H.
  - destruct (String.eqb rt "Last Friday of the Month").
    + vm_compute in H. discriminate H.
    + vm_compute in H. discriminate H.
Qed.

(** C3, amended to the weekly pattern the program has: for every range
    (also an empty one), expansion with the pattern 'Weekly on Monday'
    appends exactly one row per date of [range_start, range_end] that is
    a Monday, in ascending order, each with its end date one day after
    the generated date, status 'Not Started' and progress 0, and leaves
    the rows already there as they were; over 2024-08-01 to 2024-08-31
    the dates are 08-05, 08-12, 08-19 and 08-26. *)
Theorem weekly_on_monday_expansion :
  (forall (task_name : string) (range_start range_end : Z)
          (df : DataFrame value) (w : World store),
     add_recurring_task_advanced task_name "Weekly on Monday"
       range_start range_end (set_df (FrameObj df) w)
     = (Raise "RerunException",
        set_df (FrameObj
                  (df ++ map (monday_row task_name)
                             (mondays_between range_start range_end))%list) w)
     /\ (forall d : Z,
           In d (mondays_between range_start range_end)
           <-> range_start <= d <= range_end /\ weekday d = 0)
     /\ NoDup (mondays_between range_start range_end)
     /\ StronglySorted Z.lt (mondays_between range_start range_end))
  /\ (forall (task_name : string) (d : Z),
        Task (monday_row task_name d) = Str task_name
        /\ Start_Date (monday_row task_name d) = Ts (fromordinal d)
        /\ End_Date (monday_row task_name d) = Ts (fromordinal (d + 1))
        /\ Status (monday_row task_name d) = Str "Not Started"
        /\ Progress (monday_row task_name d) = Int 0)
  /\ map ord2ymd (mondays_between (ymd2ord 2024 8 1) (ymd2ord 2024 8 31))
     = [(2024, 8, 5); (2024, 8, 12); (2024, 8, 19); (2024, 8, 26)].
Proof.
  split; [| split].
  - intros task_name range_start range_end df w.
    split; [| split; [| split]].
    + unfold add_recurring_task_advanced. rewrite String.eqb_refl.
      unfold bind at 1. unfold ret at 1. unfold bind at 1.
      unfold rrule. rewrite for_each_append_obj.
      unfold st_experimental_rerun, raise, monday_row, mondays_between.
      now rewrite map_map.
    + intros d. apply mondays_between_In.
    + apply sorted_lt_NoDup, occurrences_sorted.
    + apply occurrences_sorted.
  - intros task_name d. unfold monday_row, recurring_row.
    cbn [Task Start_Date End_Date Status Progress]. repeat split.
    unfold add_days, fromordinal. f_equal. ring.
  - vm_compute. reflexivity.
Qed.



(** ** C5: a file of an unsupported format *)

(** C5: what ingestion does with a file whose name ends in neither '.csv'
    nor '.xlsx'. [load_data] shows the error and returns [None]; its
    caller assigns that [None] to the session's table, whatever rows it
    held, and the next statement of the script fails on it. *)
Theorem unsupported_file_replaces_table (f : UploadedFile) (w : World store) :
  endswith (name f) ".csv" = false ->
  endswith (name f) ".xlsx" = false ->
  upload_step (Some f) w
  = (Ok tt,
     {| session_df := PyNone;
        screen := screen w ++ [st_error unsupported_message];
        disk := disk w; clock := clock w |})
  /\ ingest f w
     = (Raise "TypeError",
        {| session_df := PyNone;
           screen := screen w ++ [st_error unsupported_message];
           disk := disk w; clock := clock w |}).
Proof.
  intros Hcsv Hxlsx.
  assert (upload_step (Some f) w
          = (Ok tt,
             {| session_df := PyNone;
                screen := screen w ++ [st_error unsupported_message];
                disk := disk w; clock := clock w |})) as Hup.
  { unfold upload_step, load_data. rewrite Hcsv, Hxlsx. reflexivity. }
  split; [exact Hup |].
  unfold ingest, bind. rewrite Hup. reflexivity.
Qed.

Lemma unsupported_file_replaces_table_witness :
  endswith (name upper_case_file) ".csv" = false
  /\ endswith (name upper_case_file) ".xlsx" = false
  /\ session_df seeded_session = FrameDt dummy_data
  /\ session_df (snd (upload_step (Some upper_case_file) seeded_session))
     = PyNone.
Proof.
  assert (endswith (name upper_case_file) ".csv" = false) as H1
    by reflexivity.
  assert (endswith (name upper_case_file) ".xlsx" = false) as H2
    by reflexivity.
  split; [exact H1 | split; [exact H2 | split; [reflexivity |]]].
  rewrite (proj1 (unsupported_file_replaces_table
                    upper_case_file seeded_session H1 H2)).
  reflexivity.
Defined.

(** ** C6: export, then ingestion of the exported file *)

Lemma has_char_append (c : ascii) (s t : string) :
  has_char c (s ++ t)%string = has_char c s || has_char c t.
Proof.
  induction s as [| c' s IH]; [reflexivity |].
  cbn [append has_char]. rewrite IH. now rewrite orb_assoc.
Qed.

Lemma split_without_separator (sep : ascii) (s : string) :
  has_char sep s = false -> split sep s = [s].
Proof.
  induction s as [| c s IH]; [reflexivity |].
  cbn [has_char split]. intros H. apply orb_false_elim in H as [Hc Hs].
  rewrite (IH Hs), Hc. reflexivity.
Qed.

Lemma digit_is_not_slash (n : Z) :
  Ascii.eqb (digit (n mod 10)) "/"%char = false.
Proof.
  pose proof (Z.mod_pos_bound n 10 ltac:(lia)) as H.
  assert (n mod 10 = 0 \/ n mod 10 = 1 \/ n mod 10 = 2 \/ n mod 10 = 3
          \/ n mod 10 = 4 \/ n mod 10 = 5 \/ n mod 10 = 6 \/ n mod 10 = 7
          \/ n mod 10 = 8 \/ n mod 10 = 9) as Hd by lia.
  repeat destruct Hd as [-> | Hd]; try rewrite Hd; reflexivity.
Qed.

Lemma zpad_has_no_slash (width : nat) :
  forall n, has_char "/"%char (zpad width n) = false.
Proof.
  induction width as [| width IH]; intros n; [reflexivity |].
  cbn [zpad]. rewrite has_char_append, IH. cbn [has_char orb].
  now rewrite digit_is_not_slash.
Qed.

Lemma isoformat_date_has_no_slash (t : Z) :
  has_char "/"%char (isoformat_date t) = false.
Proof.
  unfold isoformat_date. destruct (ord2ymd (toordinal t)) as [[y m] d].
  rewrite !has_char_append, !zpad_has_no_slash. reflexivity.
Qed.

Lemma isoformat_datetime_has_no_slash (t : Z) :
  has_char "/"%char (isoformat_datetime t) = false.
Proof.
  unfold isoformat_datetime.
  rewrite !has_char_append, isoformat_date_has_no_slash, !zpad_has_no_slash.
  reflexivity.
Qed.

Lemma strptime_needs_slashes (s : string) :
  has_char "/"%char s = false -> strptime_mdY s = None.
Proof.
  intros H. unfold strptime_mdY, strptime_date.
  now rewrite (split_without_separator _ _ H).
Qed.

Lemma unparsed_field_is_NaT (as_int : bool) (s : string) :
  strptime_mdY s = None -> to_datetime_coerce (read_cell as_int s) = NaT.
Proof.
  intros H. unfold read_cell.
  destruct (is_na_text s); [reflexivity |].
  destruct as_int; [destruct (int_literal s) |]; cbn [to_datetime_coerce];
    try reflexivity; exact H.
Qed.

Lemma exported_date_is_NaT (as_int dates_only : bool) (d : datetime64) :
  to_datetime_coerce (read_cell as_int (csv_date_field dates_only d)) = NaT.
Proof.
  destruct d as [t |]; [| now destruct as_int].
  apply unparsed_field_is_NaT, strptime_needs_slashes. cbn [csv_date_field].
  destruct dates_only;
    [apply isoformat_date_has_no_slash | apply isoformat_datetime_has_no_slash].
Qed.

(** C6: what export followed by ingestion does. The export writes the
    table while its date columns are datetimes, so the dates go out as
    year-month-day text; [load_data] reads dates as month/day/year and
    turns what does not parse into NaT. Every row of every re-ingested
    table has both dates unset; for a one-row table with
    2024-08-03 and 2024-08-06 the other eleven fields come back as they
    were and the two dates are lost. *)
Theorem export_then_ingest_loses_dates :
  (forall (w : World (DataFrame datetime64)),
     snd (export_current_view w)
     = {| session_df := session_df w;
          screen := screen w
            ++ [st_success
                  "Current data view downloaded as 'current_project_view.csv'"];
          disk := ("current_project_view.csv", to_csv (session_df w))
                  :: disk w;
          clock := clock w |})
  /\ (forall (df : DataFrame datetime64) (w : World store),
        upload_step (Some (exported_file df)) w
        = (Ok tt, set_df (FrameDt (reingest df)) w))
  /\ (forall df : DataFrame datetime64,
        Forall (fun r => Start_Date r = NaT /\ End_Date r = NaT)
               (reingest df))
  /\ to_csv [design_row]
     = [ {| Task := "Design"; Subtask := "UI/UX Design";
            Start_Date := "2024-08-03"; End_Date := "2024-08-06";
            Assignee := "Bob"; Status := "In Progress"; Progress := "60";
            Priority := "Medium"; Time_Spent := "24";
            Comments := "UI/UX in progress";
            Dependencies := "Requirement Gathering";
            Budget := "8000"; Cost := "4000" |} ]
  /\ reingest [design_row] = [without_dates design_row]
  /\ Start_Date design_row <> NaT.
Proof.
  split; [| split; [| split; [| split; [| split]]]].
  - intros w. reflexivity.
  - intros df w. reflexivity.
  - intros df. unfold reingest, parse_dates, read_csv, to_csv.
    rewrite !map_map. apply Forall_forall. intros r Hr.
    apply in_map_iff in Hr as [r0 [<- _]].
    cbn [map_row Start_Date End_Date]. split; apply exported_date_is_NaT.
  - vm_compute. reflexivity.
  - vm_compute. reflexivity.
  - discriminate.
Qed.

(** ** C7: which views leave the table as it was *)

Lemma keeps_table_ret {A} (a : A) : keeps_table (ret a).
Proof. intros w. reflexivity. Qed.

Lemma keeps_table_lift {A} (o : outcome A) : keeps_table (lift o).
Proof. intros w. destruct o; reflexivity. Qed.

Lemma keeps_table_show (e : event) : keeps_table (show e).
Proof. intros w. reflexivity. Qed.

Lemma keeps_table_the_df : keeps_table the_df.
Proof. intros w. reflexivity. Qed.

Lemma keeps_table_bind {A B} (m : View A) (k : A -> View B) :
  keeps_table m -> (forall a, keeps_table (k a)) -> keeps_table (bind m k).
Proof.
  intros Hm Hk w. unfold bind. specialize (Hm w).
  destruct (m w) as [[a | cls] w']; cbn [snd] in *.
  - now rewrite Hk.
  - exact Hm.
Qed.

Create HintDb table_frame.
#[local] Hint Resolve keeps_table_ret keeps_table_lift keeps_table_show
  keeps_table_the_df : table_frame.

Ltac keeps_table_step :=
  first [ apply keeps_table_bind; [| intro]
        | solve [auto with table_frame] ].

Lemma dashboard_keeps_table : keeps_table create_project_health_dashboard.
Proof. unfold create_project_health_dashboard. repeat keeps_table_step. Qed.

Lemma resource_load_keeps_table : keeps_table create_resource_load_chart.
Proof. unfold create_resource_load_chart. repeat keeps_table_step. Qed.

Lemma burn_down_keeps_table : keeps_table burn_down_chart.
Proof. unfold burn_down_chart. repeat keeps_table_step. Qed.

Lemma progress_keeps_table : keeps_table progress_chart.
Proof. unfold progress_chart. repeat keeps_table_step. Qed.

Lemma gantt_chart_table (w : World (DataFrame datetime64)) :
  session_df (snd (create_gantt_chart_with_dependencies w))
  = map filled (session_df w).
Proof.
  unfold create_gantt_chart_with_dependencies, bind, the_df, assign_df.
  cbn [session_df set_df].
  destruct (shapes_from _ 0 _) as [shapes | cls]; reflexivity.
Qed.

(** C7, as stated, fails: the Gantt chart function assigns to the
    Dependencies column of the table it is given. A row appended by the
    recurrence expander has no dependencies cell; after the chart is
    built the cell holds the empty string. *)
Lemma gantt_chart_assigns_dependencies :
  map (@Dependencies _ _) recurring_df = [NaN]
  /\ map (@Dependencies _ _)
         (session_df
            (snd (create_gantt_chart_with_dependencies
                    (at_clock 0 recurring_df))))
     = [Str ""].
Proof. split; reflexivity. Qed.

(** C7, amended: the health dashboard (burn rate, overall progress,
    budget against actuals), the burn-down series, the progress-over-time
    series and the resource load leave every row and field of the table
    unchanged. Delay detection assigns the End Date column (each date
    moved to midnight) and the Gantt chart assigns the Dependencies
    column (a missing cell becomes the empty string); neither touches
    another field, nor the number or order of the rows. *)
Theorem views_and_the_table :
  keeps_table create_project_health_dashboard
  /\ keeps_table burn_down_chart
  /\ keeps_table progress_chart
  /\ keeps_table create_resource_load_chart
  /\ (forall w, session_df (snd (check_project_delay w))
                = map midnight (session_df w))
  /\ (forall w, session_df (snd (create_gantt_chart_with_dependencies w))
                = map filled (session_df w))
  /\ (forall r, on_End_Date (fun _ => End_Date r) (midnight r) = r)
  /\ (forall r, on_Dependencies (fun _ => Dependencies r) (filled r) = r).
Proof.
  split; [exact dashboard_keeps_table |].
  split; [exact burn_down_keeps_table |].
  split; [exact progress_keeps_table |].
  split; [exact resource_load_keeps_table |].
  split; [intros w; now rewrite check_project_delay_run |].
  split; [exact gantt_chart_table |].
  split; intros r; destruct r; reflexivity.
Qed.

(** ** Grouping by end date *)

Lemma keyed_In {R K} (key : R -> option K) (l : list R) (k : K) (r : R) :
  In (k, r) (keyed key l) <-> In r l /\ key r = Some k.
Proof.
  unfold keyed. rewrite in_flat_map. split.
  - intros [r0 [Hin H]]. destruct (key r0) as [k0 |] eqn:E; [| contradiction].
    destruct H as [H | []]. inversion H; subst. now split.
  - intros [Hin E]. exists r. split; [exact Hin |]. rewrite E. now left.
Qed.

Lemma keyed_filter {R K} (key : R -> option K) (l : list R) :
  keyed key l
  = keyed key (filter (fun r => match key r with
                                | Some _ => true
                                | None => false
                                end) l).
Proof.
  unfold keyed. induction l as [| r l IH]; [reflexivity |].
  cbn [flat_map filter]. destruct (key r) as [k |] eqn:E.
  - cbn [flat_map]. rewrite E. now rewrite IH.
  - exact IH.
Qed.

Lemma sequence_map_Ok {A B} (f : A -> outcome B) (g : A -> B) (l : list A) :
  (forall a, In a l -> f a = Ok (g a)) ->
  sequence (map f l) = Ok (map g l).
Proof.
  induction l as [| a l IH]; intros H; [reflexivity |].
  cbn [map sequence]. rewrite (H a (or_introl eq_refl)).
  rewrite IH by (intros b Hb; apply H; now right). reflexivity.
Qed.

Lemma sequence_In {A} (l : list (outcome A)) (r : list A) :
  sequence l = Ok r -> forall a, In a r -> In (Ok a) l.
Proof.
  revert r. induction l as [| o l IH]; intros r H a Ha.
  - inversion H; subst. contradiction.
  - cbn [sequence] in H. destruct o as [x | cls]; [| discriminate H].
    cbn [obind] in H. destruct (sequence l) as [r' | cls];
      [| discriminate H].
    cbn [obind] in H. inversion H; subst.
    destruct Ha as [-> | Ha]; [now left | right; now apply (IH r')].
Qed.

Section GroupAdd.
Variable merge : Z -> Z -> Z.

Lemma group_add_keys (k a : Z) (gs : list (Z * Z)) :
  forall x, In x (map fst (group_add Z.compare merge k a gs)) ->
            x = k \/ In x (map fst gs).
Proof.
  induction gs as [| [k' a'] gs IH]; intros x; cbn [group_add map In fst].
  - intros [<- | []]. now left.
  - destruct (Z.compare_spec k k') as [-> | Hlt | Hgt]; cbn [map In fst].
    + intros [<- | H]; auto.
    + intros [<- | [<- | H]]; auto.
    + intros [<- | H]; [auto |]. destruct (IH x H); auto.
Qed.

Lemma group_add_sorted (k a : Z) (gs : list (Z * Z)) :
  StronglySorted Z.lt (map fst gs) ->
  StronglySorted Z.lt (map fst (group_add Z.compare merge k a gs)).
Proof.
  induction gs as [| [k' a'] gs IH]; intros Hs; cbn [group_add map fst].
  - repeat constructor.
  - cbn [map fst] in Hs. inversion Hs as [| ? ? Hs' Hall]; subst.
    destruct (Z.compare_spec k k') as [-> | Hlt | Hgt]; cbn [map fst].
    + exact Hs.
    + constructor; [exact Hs |]. constructor; [exact Hlt |].
      apply Forall_forall. intros x Hx. rewrite Forall_forall in Hall.
      specialize (Hall x Hx). lia.
    + constructor; [now apply IH |].
      apply Forall_forall. intros x Hx.
      destruct (group_add_keys _ _ _ _ Hx) as [-> | Hin]; [lia |].
      rewrite Forall_forall in Hall. now apply Hall.
Qed.

Lemma groupby_sorted_from (kvs gs : list (Z * Z)) :
  StronglySorted Z.lt (map fst gs) ->
  StronglySorted Z.lt
    (map fst (fold_left (fun gs ka =>
                group_add Z.compare merge (fst ka) (snd ka) gs) kvs gs)).
Proof.
  revert gs. induction kvs as [| [k a] kvs IH]; intros gs Hs; [exact Hs |].
  cbn [fold_left fst snd]. apply IH. now apply group_add_sorted.
Qed.

Lemma groupby_keys_from (kvs gs : list (Z * Z)) :
  forall x,
    In x (map fst (fold_left (fun gs ka =>
                     group_add Z.compare merge (fst ka) (snd ka) gs)
                     kvs gs)) ->
    In x (map fst kvs) \/ In x (map fst gs).
Proof.
  revert gs. induction kvs as [| [k a] kvs IH]; intros gs x Hx;
    [now right |].
  cbn [fold_left fst snd] in Hx. cbn [map fst In].
  destruct (IH _ _ Hx) as [H | H]; [tauto |].
  destruct (group_add_keys _ _ _ _ H); subst; tauto.
Qed.
End GroupAdd.

Lemma group_add_nonneg (k a : Z) (gs : list (Z * Z)) :
  0 <= a -> Forall (fun kv => 0 <= snd kv) gs ->
  Forall (fun kv => 0 <= snd kv) (group_add Z.compare Z.add k a gs).
Proof.
  intros Ha. induction gs as [| [k' a'] gs IH]; intros Hall;
    cbn [group_add].
  - repeat constructor. exact Ha.
  - inversion Hall as [| ? ? H1 H2]; subst. cbn [snd] in H1.
    destruct (k ?= k').
    + constructor; [cbn [snd]; lia | exact H2].
    + constructor; [exact Ha | exact Hall].
    + constructor; [exact H1 | now apply IH].
Qed.

Lemma groupby_nonneg_from (kvs gs : list (Z * Z)) :
  Forall (fun kv => 0 <= snd kv) kvs ->
  Forall (fun kv => 0 <= snd kv) gs ->
  Forall (fun kv => 0 <= snd kv)
    (fold_left (fun gs ka => group_add Z.compare Z.add (fst ka) (snd ka) gs)
               kvs gs).
Proof.
  revert gs. induction kvs as [| [k a] kvs IH]; intros gs Hk Hg; [exact Hg |].
  inversion Hk as [| ? ? H1 H2]; subst. cbn [fold_left fst snd].
  apply IH; [exact H2 |]. now apply group_add_nonneg.
Qed.

(** A running total of amounts that are not negative never goes down. *)
Lemma cumsum_from_nondecreasing (s : list (Z * Z)) :
  Forall (fun kv => 0 <= snd kv) s ->
  forall acc,
    StronglySorted Z.le (map snd (cumsum_from acc s))
    /\ Forall (fun x => acc <= x) (map snd (cumsum_from acc s)).
Proof.
  induction 1 as [| [k v] s Hv _ IH]; intros acc; cbn [cumsum_from map snd].
  - split; constructor.
  - cbn [snd] in Hv. destruct (IH (acc + v)) as [Hs Hb]. split.
    + constructor; [exact Hs | exact Hb].
    + constructor; [lia |].
      eapply Forall_impl; [| exact Hb]. cbn beta. intros x Hx. lia.
Qed.

Lemma cumsum_from_keys {K} (s : list (K * Z)) :
  forall acc, map fst (cumsum_from acc s) = map fst s.
Proof.
  induction s as [| [k v] s IH]; intros acc; [reflexivity |].
  cbn [cumsum_from map fst]. now rewrite IH.
Qed.

(** ** C8: the burn-down series *)

Lemma burn_down_df_eq (df : DataFrame datetime64) :
  burn_down_df df
  = obind (groupby_date_sum end_key progress_of df)
          (fun s => Ok (cumsum s)).
Proof. reflexivity. Qed.

Lemma completion_df_eq (df : DataFrame datetime64) :
  completion_df df = groupby_date_sum end_key progress_of df.
Proof. reflexivity. Qed.

Lemma date_sums_nonnegative (df : DataFrame datetime64) :
  Forall nonnegative_progress df ->
  exists s,
    groupby_date_sum end_key progress_of df = Ok s
    /\ Forall (fun kv => 0 <= snd kv) s
    /\ StronglySorted Z.lt (map fst s).
Proof.
  intros Hdf. rewrite Forall_forall in Hdf.
  unfold groupby_date_sum.
  rewrite (sequence_map_Ok _
             (fun kr => (fst kr, amount (progress_of (snd kr))))).
  - cbn [obind]. eexists. split; [reflexivity |]. unfold groupby. split.
    + apply groupby_nonneg_from; [| constructor].
      apply Forall_forall. intros [k v] Hin.
      apply in_map_iff in Hin as [[k0 r] [E Hin]].
      apply keyed_In in Hin as [Hin _]. cbn [fst snd] in E.
      inversion E; subst. cbn [snd]. unfold progress_of.
      destruct (Hdf r Hin) as [-> | [n [-> Hn]]]; cbn [amount]; lia.
    + apply groupby_sorted_from. constructor.
  - intros [k r] Hin. apply keyed_In in Hin as [Hin _]. cbn [fst snd].
    unfold progress_of.
    destruct (Hdf r Hin) as [-> | [n [-> Hn]]]; reflexivity.
Qed.

(** C8, as stated for every table, fails: nothing keeps a negative
    progress out of the table, and with 50 on 2024-08-02 and -20 on
    2024-08-06 the burn-down series goes from 50 down to 30. *)
Lemma burn_down_can_decrease :
  burn_down_df regress_df
  = Ok [(datetime 2024 8 2, 50); (datetime 2024 8 6, 30)]
  /\ 30 < 50.
Proof. split; [vm_compute; reflexivity | lia]. Qed.

(** C8, amended: for every table whose progress cells are missing or
    whole numbers that are not negative, within the range where the sums
    of the code are exact, the burn-down series (rows grouped by end date,
    progress summed per date, dates ascending, then the running total) is
    computed and is monotonically non-decreasing, over strictly ascending
    dates. *)
Theorem burn_down_nondecreasing (df : DataFrame datetime64) :
  Forall nonnegative_progress df ->
  exact_range (map progress_of df) ->
  exists s,
    burn_down_df df = Ok s
    /\ StronglySorted Z.le (map snd s)
    /\ StronglySorted Z.lt (map fst s).
Proof.
  intros Hdf _. destruct (date_sums_nonnegative Hdf) as [s [Hs [Hpos Hkeys]]].
  exists (cumsum s). rewrite burn_down_df_eq, Hs. cbn [obind]. split; [reflexivity |]. split.
  - apply (cumsum_from_nondecreasing Hpos).
  - unfold cumsum. now rewrite cumsum_from_keys.
Qed.

Lemma seed_progress_nonnegative : Forall nonnegative_progress dummy_data.
Proof.
  repeat (constructor;
          [right; eexists; split; [reflexivity | lia] |]).
  constructor.
Qed.

Lemma seed_progress_exact : exact_range (map progress_of dummy_data).
Proof. vm_compute. discriminate. Qed.

Lemma burn_down_nondecreasing_witness :
  Forall nonnegative_progress dummy_data
  /\ exact_range (map progress_of dummy_data)
  /\ exists s,
       burn_down_df dummy_data = Ok s
       /\ StronglySorted Z.le (map snd s)
       /\ StronglySorted Z.lt (map fst s).
Proof.
  split; [exact seed_progress_nonnegative |].
  split; [exact seed_progress_exact |].
  exact (burn_down_nondecreasing seed_progress_nonnegative
           seed_progress_exact).
Defined.

(** ** C10: rows without an end date *)

Lemma date_sum_skips_unset (df : DataFrame datetime64) :
  groupby_date_sum end_key progress_of df
  = groupby_date_sum end_key progress_of (filter end_date_set df).
Proof.
  unfold groupby_date_sum.
  change end_date_set
    with (fun r : Row value datetime64 =>
            match end_key r with Some _ => true | None => false end).
  do 3 f_equal. exact (keyed_filter end_key df).
Qed.

Lemma date_sum_points (df : DataFrame datetime64) (s : list (Z * Z)) :
  groupby_date_sum end_key progress_of df = Ok s ->
  forall d, In d (map fst s) -> exists r, In r df /\ End_Date r = Some d.
Proof.
  unfold groupby_date_sum. intros H d Hd.
  destruct (sequence _) as [kvs | cls] eqn:Hseq; [| discriminate H].
  cbn [obind] in H. inversion H; subst. clear H.
  unfold groupby in Hd.
  destruct (groupby_keys_from _ _ _ _ Hd) as [Hin | []].
  apply in_map_iff in Hin as [[k v] [E Hin]]. cbn [fst] in E. subst k.
  apply (sequence_In _ Hseq) in Hin.
  apply in_map_iff in Hin as [[k r] [E Hin]]. cbn [fst snd] in E.
  destruct (number (progress_of r)) as [n | cls]; [| discriminate E].
  cbn [obind] in E. inversion E; subst.
  apply keyed_In in Hin as [Hin Hk]. now exists r.
Qed.

(** C10: for every table, the rows whose end date is unset are left out
    of the burn-down series and of the progress-over-time series: each
    series is the one computed from the table without those rows, and
    every point of a series carries the end date of some row, so none
    stands for the unset date. *)
Theorem unset_end_dates_left_out (df : DataFrame datetime64) :
  burn_down_df df = burn_down_df (filter end_date_set df)
  /\ completion_df df = completion_df (filter end_date_set df)
  /\ dated_by df (burn_down_df df)
  /\ dated_by df (completion_df df).
Proof.
  rewrite (burn_down_df_eq df), (burn_down_df_eq (filter end_date_set df)).
  rewrite (completion_df_eq df), (completion_df_eq (filter end_date_set df)).
  rewrite <- (date_sum_skips_unset df).
  split; [reflexivity | split; [reflexivity |]].
  destruct (groupby_date_sum end_key progress_of df) as [s | cls] eqn:Hs;
    cbn [obind dated_by]; [| split; exact I].
  split; apply Forall_forall; intros d Hd.
  - unfold cumsum in Hd. rewrite cumsum_from_keys in Hd.
    exact (date_sum_points df Hs d Hd).
  - exact (date_sum_points df Hs d Hd).
Qed.

(** ** C9: the default values at ingestion *)

Lemma int_literal_not_na (s : string) (n : Z) :
  int_literal s = Some n -> is_na_text s = false.
Proof.
  intros H. destruct (is_na_text s) eqn:E; [| reflexivity].
  unfold is_na_text in E. apply existsb_exists in E as [x [Hin Ex]].
  apply String.eqb_eq in Ex. subst x. exfalso.
  unfold na_values in Hin. cbn [In] in Hin.
  repeat (destruct Hin as [<- | Hin]; [vm_compute in H; discriminate H |]).
  exact Hin.
Qed.

Lemma Forall2_map_right {A B} (P : A -> B -> Prop) (f : A -> B) (l : list A) :
  (forall a, In a l -> P a (f a)) -> Forall2 P l (map f l).
Proof.
  induction l as [| a l IH]; intros H; cbn [map]; constructor.
  - apply H. now left.
  - apply IH. intros b Hb. apply H. now right.
Qed.









(** * Further properties: the calendar, and dates as text *)

Ltac split_tests :=
  repeat match goal with
  | |- context [Z.eqb ?x ?y] => destruct (Z.eqb_spec x y)
  | |- context [Z.ltb ?x ?y] => destruct (Z.ltb_spec x y)
  end.

Ltac eval_tables :=
  repeat match goal with
  | |- context [DAYS_IN_MONTH ?x] =>
      let v := eval vm_compute in (DAYS_IN_MONTH x) in
      change (DAYS_IN_MONTH x) with v
  | |- context [DAYS_BEFORE_MONTH ?x] =>
      let v := eval vm_compute in (DAYS_BEFORE_MONTH x) in
      change (DAYS_BEFORE_MONTH x) with v
  end.

Lemma days_before_year_parts (Y n400 n100 n4 n1 : Z) :
  Y = 400 * n400 + 100 * n100 + 4 * n4 + n1 + 1 ->
  0 <= n100 <= 3 -> 0 <= n4 <= 24 -> 0 <= n1 <= 3 ->
  days_before_year Y
  = 146097 * n400 + 36524 * n100 + 1461 * n4 + 365 * n1.
Proof.
  intros ->. intros. unfold days_before_year. Z.div_mod_to_equations. lia.
Qed.

Lemma is_leap_parts (Y n400 n100 n4 n1 : Z) :
  Y = 400 * n400 + 100 * n100 + 4 * n4 + n1 + 1 ->
  0 <= n100 <= 3 -> 0 <= n4 <= 24 -> 0 <= n1 <= 3 ->
  is_leap Y = (n1 =? 3) && (negb (n4 =? 24) || (n100 =? 3)).
Proof.
  intros ->. intros. unfold is_leap.
  split_tests; cbn [andb orb negb]; try reflexivity;
    exfalso; Z.div_mod_to_equations; lia.
Qed.

(** [date.fromordinal] gives a real date, and the date it gives has the
    ordinal it was made from. *)
Lemma ord2ymd_inverse (n : Z) :
  let '(y, m, d) := ord2ymd n in
  ymd2ord y m d = n /\ 1 <= m <= 12 /\ 1 <= d <= days_in_month y m.
Proof.
  unfold ord2ymd, DI400Y, DI100Y, DI4Y.
  rewrite Z.shiftr_div_pow2 by lia. change (2 ^ 5) with 32.
  pose proof (Z.div_mod (n - 1) 146097 ltac:(lia)) as H400.
  pose proof (Z.mod_pos_bound (n - 1) 146097 ltac:(lia)) as B400.
  set (n400 := (n - 1) / 146097) in *. set (a := (n - 1) mod 146097) in *.
  pose proof (Z.div_mod a 36524 ltac:(lia)) as H100.
  pose proof (Z.mod_pos_bound a 36524 ltac:(lia)) as B100.
  set (n100 := a / 36524) in *. set (b := a mod 36524) in *.
  pose proof (Z.div_mod b 1461 ltac:(lia)) as H4.
  pose proof (Z.mod_pos_bound b 1461 ltac:(lia)) as B4.
  set (n4 := b / 1461) in *. set (c := b mod 1461) in *.
  pose proof (Z.div_mod c 365 ltac:(lia)) as H1.
  pose proof (Z.mod_pos_bound c 365 ltac:(lia)) as B1.
  set (n1 := c / 365) in *. set (e := c mod 365) in *.
  clearbody n400 a n100 b n4 c n1 e.
  assert (0 <= n100 <= 4) by lia.
  assert (0 <= n4 <= 24) by lia.
  assert (0 <= n1 <= 4) by lia.
  destruct ((n1 =? 4) || (n100 =? 4)) eqn:Elast.
  - (* the last day of a four-year or of a four-century cycle *)
    assert (e = 0) by (apply orb_true_iff in Elast as [E | E];
                       apply Z.eqb_eq in E; lia).
    unfold ymd2ord, days_before_month, days_in_month.
    cbn [DAYS_BEFORE_MONTH DAYS_IN_MONTH].
    change (12 =? 2) with false. change (2 <? 12) with true. cbn [andb].
    split; [| lia].
    apply orb_true_iff in Elast as [E | E]; apply Z.eqb_eq in E.
    + assert (n4 <= 23) by lia. assert (n100 <= 3) by lia.
      rewrite (@days_before_year_parts _ n400 n100 n4 3) by lia.
      rewrite (@is_leap_parts _ n400 n100 n4 3) by lia.
      replace (3 =? 3) with true by reflexivity.
      destruct (Z.eqb_spec n4 24); [lia |]. cbn [negb orb andb]. lia.
    + assert (n4 = 0 /\ n1 = 0) as [-> ->] by lia.
      rewrite (@days_before_year_parts _ n400 3 24 3) by lia.
      rewrite (@is_leap_parts _ n400 3 24 3) by lia.
      replace ((3 =? 3) && (negb (24 =? 24) || (3 =? 3))) with true
        by reflexivity.
      lia.
  - apply orb_false_iff in Elast as [E1 E100].
    apply Z.eqb_neq in E1. apply Z.eqb_neq in E100.
    set (leapyear := (n1 =? 3) && (negb (n4 =? 24) || (n100 =? 3))).
    set (Y := n400 * 400 + 1 + n100 * 100 + n4 * 4 + n1).
    assert (days_before_year Y
            = 146097 * n400 + 36524 * n100 + 1461 * n4 + 365 * n1) as HY
      by (apply (@days_before_year_parts Y n400 n100 n4 n1); unfold Y; lia).
    assert (is_leap Y = leapyear) as HL
      by (apply (@is_leap_parts Y n400 n100 n4 n1); unfold Y; lia).
    pose proof (Z.div_mod (e + 50) 32 ltac:(lia)) as Hm.
    pose proof (Z.mod_pos_bound (e + 50) 32 ltac:(lia)) as Bm.
    set (m0 := (e + 50) / 32) in *. set (rm := (e + 50) mod 32) in *.
    clearbody m0 rm.
    assert (m0 = 1 \/ m0 = 2 \/ m0 = 3 \/ m0 = 4 \/ m0 = 5 \/ m0 = 6
            \/ m0 = 7 \/ m0 = 8 \/ m0 = 9 \/ m0 = 10 \/ m0 = 11 \/ m0 = 12)
      as Hcases by lia.
    clearbody leapyear Y.
    repeat destruct Hcases as [-> | Hcases]; try subst m0;
      cbv zeta; eval_tables; destruct leapyear; split_tests;
      cbn [andb orb negb]; cbv beta iota;
      unfold ymd2ord, days_before_month, days_in_month;
      rewrite ?HY, ?HL; eval_tables; split_tests; cbn [andb orb negb] in *;
      lia.
Qed.

Lemma month_tables_bounds (y m : Z) :
  1 <= m <= 12 ->
  0 <= days_before_month y m <= 335 /\ days_in_month y m <= 31.
Proof.
  intros Hm. unfold days_before_month, days_in_month.
  assert (m = 1 \/ m = 2 \/ m = 3 \/ m = 4 \/ m = 5 \/ m = 6 \/ m = 7
          \/ m = 8 \/ m = 9 \/ m = 10 \/ m = 11 \/ m = 12) as Hcases by lia.
  repeat destruct Hcases as [-> | Hcases]; try subst m;
    destruct (is_leap y); cbn; lia.
Qed.

(** The year of a day that a nanosecond timestamp can hold has four
    digits. *)
Lemma year_of_timestamp_day (n y m d : Z) :
  ymd2ord 1677 9 22 <= n <= toordinal int64_max ->
  ymd2ord y m d = n -> 1 <= m <= 12 -> 1 <= d <= days_in_month y m ->
  1677 <= y <= 2262.
Proof.
  intros Hn Hy Hm Hd. destruct (month_tables_bounds y Hm) as [Hb Hi].
  unfold ymd2ord in Hy.
  assert (ymd2ord 1677 9 22 = 612412) as E1 by reflexivity.
  assert (toordinal int64_max = 825914) as E2 by reflexivity.
  rewrite E1, E2 in Hn. unfold days_before_year in Hy.
  Z.div_mod_to_equations. lia.
Qed.

Lemma digit_val_digit (k : Z) :
  0 <= k < 10 -> digit_val (digit k) = Some k.
Proof.
  intros Hk.
  assert (k = 0 \/ k = 1 \/ k = 2 \/ k = 3 \/ k = 4 \/ k = 5 \/ k = 6
          \/ k = 7 \/ k = 8 \/ k = 9) as Hcases by lia.
  repeat destruct Hcases as [-> | Hcases]; try subst k; reflexivity.
Qed.

Lemma digits_acc_append (s t : string) :
  forall acc,
    digits_acc acc (s ++ t)%string
    = match digits_acc acc s with
      | Some a => digits_acc a t
      | None => None
      end.
Proof.
  induction s as [| c s IH]; intros acc; [reflexivity |].
  cbn [append digits_acc]. destruct (digit_val c); [apply IH | reflexivity].
Qed.

Lemma digits_acc_zpad (width : nat) :
  forall acc n,
    0 <= n < 10 ^ Z.of_nat width ->
    digits_acc acc (zpad width n) = Some (acc * 10 ^ Z.of_nat width + n).
Proof.
  induction width as [| width IH]; intros acc n Hn.
  - cbn in Hn. cbn [zpad digits_acc]. f_equal. cbn. lia.
  - rewrite Nat2Z.inj_succ, Z.pow_succ_r in * by lia.
    cbn [zpad]. rewrite digits_acc_append.
    pose proof (Z.div_mod n 10 ltac:(lia)) as Hdm.
    pose proof (Z.mod_pos_bound n 10 ltac:(lia)) as Hmod.
    rewrite IH by (split; [apply Z.div_pos; lia |
                           apply Z.div_lt_upper_bound; lia]).
    cbn [digits_acc]. rewrite digit_val_digit by exact Hmod.
    f_equal. lia.
Qed.

Lemma length_of_append (s t : string) :
  String.length (s ++ t) = (String.length s + String.length t)%nat.
Proof.
  induction s as [| c s IH]; [reflexivity |].
  cbn [append String.length]. now rewrite IH.
Qed.

Lemma zpad_length (width : nat) :
  forall n, String.length (zpad width n) = width.
Proof.
  induction width as [| width IH]; intros n; [reflexivity |].
  cbn [zpad]. rewrite length_of_append, IH. cbn. lia.
Qed.

Lemma digits_zpad (width : nat) (n : Z) :
  0 <= n < 10 ^ Z.of_nat (S width) ->
  digits (zpad (S width) n) = Some n.
Proof.
  intros Hn. unfold digits.
  pose proof (zpad_length (S width) n) as Hlen.
  destruct (zpad (S width) n) eqn:E; [discriminate Hlen |].
  rewrite <- E, digits_acc_zpad by exact Hn. f_equal; try lia.
Qed.

Lemma split_at_separator (sep : ascii) (a b : string) :
  has_char sep a = false ->
  split sep (a ++ String sep b) = a :: split sep b.
Proof.
  induction a as [| c a IH]; intros Ha.
  - cbn [append split]. rewrite Ascii.eqb_refl.
    destruct (split sep b); reflexivity.
  - cbn [has_char] in Ha. apply orb_false_elim in Ha as [Hc Ha].
    cbn [append split]. rewrite (IH Ha), Hc. reflexivity.
Qed.

Lemma day_digits_zpad (d : Z) :
  day_digits (zpad 2 d) = one_or_two_digits (zpad 2 d).
Proof.
  cbn [zpad String.append].
  pose proof (Z.mod_pos_bound (d / 10) 10 ltac:(lia)) as Ha.
  remember ((d / 10) mod 10) as a eqn:Ea. clear Ea.
  assert (a = 0 \/ a = 1 \/ a = 2 \/ a = 3 \/ a = 4 \/ a = 5 \/ a = 6
          \/ a = 7 \/ a = 8 \/ a = 9) as Hcases by lia.
  repeat destruct Hcases as [-> | Hcases]; try subst a; reflexivity.
Qed.

Lemma strptime_date_of_fields (y m d : Z) :
  1 <= y < 10000 -> 1 <= m <= 12 -> 1 <= d <= days_in_month y m ->
  strptime_date (zpad 2 m ++ "/" ++ zpad 2 d ++ "/" ++ zpad 4 y)
  = Some (y, m, d).
Proof.
  intros Hy Hm Hd. destruct (month_tables_bounds y Hm) as [_ Hi].
  unfold strptime_date.
  change ("/" ++ zpad 2 d ++ "/" ++ zpad 4 y)%string
    with (String "/" (zpad 2 d ++ String "/" (zpad 4 y))).
  rewrite split_at_separator by apply zpad_has_no_slash.
  rewrite split_at_separator by apply zpad_has_no_slash.
  rewrite split_without_separator by apply zpad_has_no_slash.
  rewrite day_digits_zpad.
  unfold one_or_two_digits. rewrite !zpad_length.
  change (2 <=? 2)%nat with true. change (4 =? 4)%nat with true. cbv iota.
  rewrite !digits_zpad by (cbn; lia).
  cbn [andb].
  destruct (Z.leb_spec 1 m); [| lia]. destruct (Z.leb_spec m 12); [| lia].
  destruct (Z.leb_spec 1 d); [| lia].
  destruct (Z.leb_spec d (days_in_month y m)); [| lia].
  destruct (Z.leb_spec 1 y); [| lia].
  reflexivity.
Qed.

Lemma strptime_of_fields (y m d : Z) :
  1 <= y < 10000 -> 1 <= m <= 12 -> 1 <= d <= days_in_month y m ->
  int64_min < datetime y m d <= int64_max ->
  strptime_mdY (zpad 2 m ++ "/" ++ zpad 2 d ++ "/" ++ zpad 4 y)
  = Some (datetime y m d).
Proof.
  intros Hy Hm Hd Hr. unfold strptime_mdY.
  rewrite (strptime_date_of_fields Hy Hm Hd). unfold in_bounds.
  destruct (Z.ltb_spec int64_min (datetime y m d)); [| lia].
  destruct (Z.leb_spec (datetime y m d) int64_max); [| lia].
  reflexivity.
Qed.

Lemma fromordinal_toordinal (t : Z) : fromordinal (toordinal t) = normalize t.
Proof.
  unfold fromordinal, toordinal. rewrite normalize_is_day_start. lia.
Qed.

Lemma toordinal_in_range (t : Z) :
  first_midnight <= t <= int64_max ->
  ymd2ord 1677 9 22 <= toordinal t <= toordinal int64_max.
Proof.
  intros [Hlo Hhi]. unfold toordinal.
  assert (0 < ns_per_day) as Hd by (unfold ns_per_day; lia).
  assert (first_midnight / ns_per_day + epoch_ordinal = ymd2ord 1677 9 22)
    as <- by reflexivity.
  pose proof (Z.div_le_mono _ _ ns_per_day Hd Hlo).
  pose proof (Z.div_le_mono _ _ ns_per_day Hd Hhi). lia.
Qed.

(** A date written by line 284 or 285 is read back by line 328 or 329 as
    the same day, at midnight. *)
Lemma strptime_strftime (t : Z) :
  first_midnight <= t <= int64_max ->
  strptime_mdY (strftime_mdY t) = Some (normalize t).
Proof.
  intros Ht. pose proof (toordinal_in_range Ht) as Hn.
  unfold strftime_mdY. pose proof (ord2ymd_inverse (toordinal t)) as Hinv.
  destruct (ord2ymd (toordinal t)) as [[y m] d].
  destruct Hinv as [Hy [Hm Hd]].
  pose proof (@year_of_timestamp_day _ _ _ _ Hn Hy Hm Hd) as Hyear.
  assert (datetime y m d = normalize t) as Hdt.
  { unfold datetime. rewrite Hy. apply fromordinal_toordinal. }
  rewrite <- Hdt. apply strptime_of_fields; try lia.
  rewrite Hdt. rewrite normalize_is_day_start.
  assert (0 < ns_per_day) as HD by (unfold ns_per_day; lia).
  assert (first_midnight = ns_per_day * (first_midnight / ns_per_day)) as Hf
    by reflexivity.
  pose proof (Z.div_le_mono _ _ ns_per_day HD (proj1 Ht)) as Hq.
  pose proof (Z.mul_div_le t ns_per_day HD).
  assert (int64_min < first_midnight) by reflexivity.
  split; [| lia]. nia.
Qed.

Lemma nat_string_is_no_date (s : string) :
  is_nat_string s = true -> strptime_date s = None.
Proof.
  intros H. unfold is_nat_string in H.
  apply existsb_exists in H as [x [Hin Ex]].
  apply String.eqb_eq in Ex. subst x.
  unfold nat_strings in Hin. cbn [In] in Hin.
  repeat (destruct Hin as [<- | Hin]; [reflexivity |]).
  contradiction Hin.
Qed.

(** What the lenient parser takes for a date, the strict one does too. *)
Lemma strict_of_parsed (s : string) (t : Z) :
  strptime_mdY s = Some t -> to_datetime_strict (Str s) = Ok (Some t).
Proof.
  unfold strptime_mdY. cbn [to_datetime_strict]. intros H.
  destruct (is_nat_string s) eqn:En.
  - rewrite (nat_string_is_no_date _ En) in H. discriminate H.
  - destruct (strptime_date s) as [[[y m] d] |]; [| discriminate H].
    cbv zeta in *. destruct (in_bounds (datetime y m d));
      [now inversion H | discriminate H].
Qed.

Lemma date_text_parses (d : datetime64) :
  in_timestamp_range d ->
  to_datetime_strict (date_text d) = Ok (option_map normalize d).
Proof.
  destruct d as [t |]; intros Ht; [| reflexivity].
  cbn [date_text option_map]. apply strict_of_parsed.
  exact (strptime_strftime Ht).
Qed.

Lemma start_texts_parse (df : DataFrame datetime64) :
  Forall (fun r => in_timestamp_range (Start_Date r)) df ->
  sequence (map (fun r => to_datetime_strict (Start_Date r))
                (dates_as_text df))
  = Ok (map (fun r => option_map normalize (Start_Date r)) df).
Proof.
  intros Hdf. rewrite Forall_forall in Hdf. unfold dates_as_text.
  rewrite map_map. apply sequence_map_Ok. intros r Hr.
  cbn [map_row Start_Date]. apply date_text_parses, (Hdf r Hr).
Qed.

Lemma end_texts_parse (df : DataFrame datetime64) :
  Forall (fun r => in_timestamp_range (End_Date r)) df ->
  sequence (map (fun r => to_datetime_strict (End_Date r))
                (dates_as_text df))
  = Ok (map (fun r => option_map normalize (End_Date r)) df).
Proof.
  intros Hdf. rewrite Forall_forall in Hdf. unfold dates_as_text.
  rewrite map_map. apply sequence_map_Ok. intros r Hr.
  cbn [map_row End_Date]. apply date_text_parses, (Hdf r Hr).
Qed.

Lemma set_dates_at_midnight (df : DataFrame datetime64) :
  set_dates (dates_as_text df)
            (map (fun r => option_map normalize (Start_Date r)) df)
            (map (fun r => option_map normalize (End_Date r)) df)
  = map at_midnight df.
Proof.
  unfold dates_as_text.
  induction df as [| r df IH]; [reflexivity |].
  cbn [map set_dates]. rewrite IH.
  apply (f_equal (fun x => x :: map at_midnight df)).
  destruct r; reflexivity.
Qed.

(** X1. The pass of the dates through text (lines 280-285, then lines
    328-329, the editor returning the table as shown): for every table
    whose dates are unset or lie in the range of a timestamp from
    1677-09-22 on, the dates parsed back are the dates written, each at
    midnight; no other field changes and the conversion does not raise. *)
Theorem dates_survive_the_text_pass (df : DataFrame datetime64) :
  Forall (fun r => in_timestamp_range (Start_Date r)
                   /\ in_timestamp_range (End_Date r)) df ->
  dates_from_text (dates_as_text df) = Ok (map at_midnight df).
Proof.
  intros Hdf. unfold dates_from_text.
  rewrite start_texts_parse
    by (eapply Forall_impl; [| exact Hdf]; intros r Hr; apply Hr).
  rewrite end_texts_parse
    by (eapply Forall_impl; [| exact Hdf]; intros r Hr; apply Hr).
  cbn [obind]. f_equal. apply set_dates_at_midnight.
Qed.

Lemma seed_dates_in_range :
  Forall (fun r => in_timestamp_range (Start_Date r)
                   /\ in_timestamp_range (End_Date r)) dummy_data.
Proof.
  repeat (constructor; [split; vm_compute; split; discriminate |]).
  constructor.
Qed.

Lemma dates_survive_the_text_pass_witness :
  Forall (fun r => in_timestamp_range (Start_Date r)
                   /\ in_timestamp_range (End_Date r)) dummy_data
  /\ dates_from_text (dates_as_text dummy_data) = Ok (map at_midnight dummy_data).
Proof.
  split; [exact seed_dates_in_range |].
  exact (dates_survive_the_text_pass seed_dates_in_range).
Defined.

Lemma sequence_raises_class {A B} (f : A -> outcome B) (l : list A)
    (c : string) :
  sequence (map f l) = Raise c -> exists a, In a l /\ f a = Raise c.
Proof.
  induction l as [| a l IH]; [discriminate |].
  cbn [map sequence]. destruct (f a) as [x | c'] eqn:Ea.
  - cbn [obind]. destruct (sequence (map f l)) as [xs | c'']; [discriminate |].
    cbn [obind]. intros H. inversion H; subst.
    destruct (IH eq_refl) as [b [Hb Hfb]]. exists b. split; [now right | exact Hfb].
  - cbn [obind]. intros H. inversion H; subst. exists a. split; [now left | exact Ea].
Qed.

Lemma sequence_raises_some {A B} (f : A -> outcome B) (l : list A) :
  (exists a c, In a l /\ f a = Raise c) ->
  exists c, sequence (map f l) = Raise c.
Proof.
  induction l as [| a l IH]; intros [b [c [Hin Hb]]]; [contradiction |].
  cbn [map sequence]. destruct (f a) as [x | c'] eqn:Ea.
  - cbn [obind]. destruct Hin as [-> | Hin]; [congruence |].
    destruct IH as [c'' E]; [now exists b, c |].
    exists c''. now rewrite E.
  - now exists c'.
Qed.

Lemma strict_raises_date_error (v : value) (c : string) :
  to_datetime_strict v = Raise c -> date_error c.
Proof.
  unfold date_error.
  destruct v as [| s | n | t]; cbn [to_datetime_strict]; try discriminate.
  - destruct (is_nat_string s); [discriminate |].
    destruct (strptime_date s) as [[[y m] d] |].
    + cbv zeta. destruct (in_bounds (datetime y m d)); [discriminate |].
      intros H. inversion H. now right.
    + intros H. inversion H. now left.
  - intros H. inversion H. now left.
Qed.

Lemma lowercase_nat_string (s : string) :
  is_nat_string s = true -> In (lowercase s) parser_words.
Proof.
  intros H. unfold is_nat_string in H.
  apply existsb_exists in H as [x [Hin Ex]].
  apply String.eqb_eq in Ex. subst x.
  unfold nat_strings in Hin. cbn [In] in Hin.
  repeat (destruct Hin as [<- | Hin];
          [vm_compute; tauto |]).
  contradiction Hin.
Qed.

Lemma no_date_text_raises (s : string) :
  no_date_text s -> to_datetime_strict (Str s) = Raise "ValueError".
Proof.
  intros (_ & Hslash & Hword). cbn [to_datetime_strict].
  destruct (is_nat_string s) eqn:En.
  - contradiction Hword. now apply lowercase_nat_string.
  - unfold strptime_date. now rewrite (split_without_separator _ _ Hslash).
Qed.

(** X2. A date text that is not month/day/year stops the script at lines
    328-329: if some row's Start Date or End Date holds a text that is
    not empty, has no slash and is none of the parser's words for a
    missing date or the current time (a year-month-day date, say), the
    conversion raises ValueError, or OutOfBoundsDatetime when an earlier
    cell holds a date outside the range of a timestamp; no chart is
    drawn. [load_data] takes the same text for an unset date. *)
Theorem unparsed_date_text_raises (df : DataFrame value)
    (r : Row value value) (s : string) :
  In r df ->
  Start_Date r = Str s \/ End_Date r = Str s ->
  no_date_text s ->
  (exists cls, dates_from_text df = Raise cls /\ date_error cls)
  /\ to_datetime_coerce (Str s) = NaT.
Proof.
  intros Hin Hcell Hs. split.
  - pose proof (no_date_text_raises Hs) as Hbad.
    unfold dates_from_text.
    destruct (sequence (map (fun r => to_datetime_strict (Start_Date r)) df))
      as [starts | c] eqn:Estart.
    + cbn [obind].
      destruct (sequence (map (fun r => to_datetime_strict (End_Date r)) df))
        as [ends | c] eqn:Eend.
      * exfalso. destruct Hcell as [Hc | Hc].
        -- destruct (@sequence_raises_some _ _
                       (fun r => to_datetime_strict (Start_Date r)) df)
             as [c E]; [| congruence].
           exists r, "ValueError". split; [exact Hin | now rewrite Hc].
        -- destruct (@sequence_raises_some _ _
                       (fun r => to_datetime_strict (End_Date r)) df)
             as [c E]; [| congruence].
           exists r, "ValueError". split; [exact Hin | now rewrite Hc].
      * exists c. split; [reflexivity |].
        destruct (sequence_raises_class
                    (fun r => to_datetime_strict (End_Date r)) df Eend)
          as [a [_ Ha]].
        exact (strict_raises_date_error _ Ha).
    + exists c. split; [reflexivity |].
      destruct (sequence_raises_class
                  (fun r => to_datetime_strict (Start_Date r)) df Estart)
        as [a [_ Ha]].
      exact (strict_raises_date_error _ Ha).
  - cbn [to_datetime_coerce]. apply strptime_needs_slashes. apply Hs.
Qed.

Lemma iso_date_is_no_date_text : no_date_text "2024-08-09".
Proof.
  split; [discriminate |]. split; [reflexivity |].
  vm_compute. intros H.
  repeat (destruct H as [H | H]; [discriminate H |]). exact H.
Qed.

Lemma unparsed_date_text_raises_witness :
  In iso_typed_row iso_typed_df
  /\ (Start_Date iso_typed_row = Str "2024-08-09"
      \/ End_Date iso_typed_row = Str "2024-08-09")
  /\ no_date_text "2024-08-09"
  /\ exists cls, dates_from_text iso_typed_df = Raise cls /\ date_error cls.
Proof.
  assert (In iso_typed_row iso_typed_df) as H1 by (now left).
  assert (Start_Date iso_typed_row = Str "2024-08-09"
          \/ End_Date iso_typed_row = Str "2024-08-09") as H2
    by (right; reflexivity).
  split; [exact H1 | split; [exact H2 |]].
  split; [exact iso_date_is_no_date_text |].
  exact (proj1 (@unparsed_date_text_raises _ _ _ H1 H2
                  iso_date_is_no_date_text)).
Defined.

(** ** The calendar both ways *)

Lemma year_step (y : Z) :
  days_before_year (y + 1)
  = days_before_year y + 365 + (if is_leap y then 1 else 0).
Proof.
  unfold days_before_year, is_leap.
  split_tests; cbn [andb orb negb]; Z.div_mod_to_equations; lia.
Qed.

Lemma days_before_year_mono (y y' : Z) :
  y <= y' -> days_before_year y <= days_before_year y'.
Proof.
  intros H. unfold days_before_year. Z.div_mod_to_equations. lia.
Qed.

Lemma day_of_year_bounds (y m d : Z) :
  valid_date y m d ->
  1 <= days_before_month y m + d <= 365 + (if is_leap y then 1 else 0).
Proof.
  intros [Hm Hd]. unfold days_before_month, days_in_month in *.
  assert (m = 1 \/ m = 2 \/ m = 3 \/ m = 4 \/ m = 5 \/ m = 6 \/ m = 7
          \/ m = 8 \/ m = 9 \/ m = 10 \/ m = 11 \/ m = 12) as Hcases by lia.
  set (leap := is_leap y) in *. clearbody leap.
  repeat destruct Hcases as [-> | Hcases]; try subst m;
    destruct leap; cbn [DAYS_BEFORE_MONTH DAYS_IN_MONTH andb Z.eqb Pos.eqb Z.ltb Z.compare Pos.compare Pos.compare_cont] in *; lia.
Qed.

Lemma same_year_same_date (y m d m' d' : Z) :
  valid_date y m d -> valid_date y m' d' ->
  days_before_month y m + d = days_before_month y m' + d' ->
  m = m' /\ d = d'.
Proof.
  intros [Hm Hd] [Hm' Hd']. unfold days_before_month, days_in_month in *.
  assert (m = 1 \/ m = 2 \/ m = 3 \/ m = 4 \/ m = 5 \/ m = 6 \/ m = 7
          \/ m = 8 \/ m = 9 \/ m = 10 \/ m = 11 \/ m = 12) as Hcases by lia.
  assert (m' = 1 \/ m' = 2 \/ m' = 3 \/ m' = 4 \/ m' = 5 \/ m' = 6 \/ m' = 7
          \/ m' = 8 \/ m' = 9 \/ m' = 10 \/ m' = 11 \/ m' = 12) as Hcases' by lia.
  set (leap := is_leap y) in *. clearbody leap.
  destruct leap;
    repeat destruct Hcases as [-> | Hcases]; try subst m;
    repeat destruct Hcases' as [-> | Hcases']; try subst m';
    cbn [DAYS_BEFORE_MONTH DAYS_IN_MONTH andb Z.eqb Pos.eqb Z.ltb Z.compare Pos.compare Pos.compare_cont] in *; lia.
Qed.

Lemma ymd2ord_injective (y m d y' m' d' : Z) :
  valid_date y m d -> valid_date y' m' d' ->
  ymd2ord y m d = ymd2ord y' m' d' ->
  y = y' /\ m = m' /\ d = d'.
Proof.
  intros Hv Hv' Heq. unfold ymd2ord in Heq.
  pose proof (@day_of_year_bounds _ _ _ Hv) as Hb.
  pose proof (@day_of_year_bounds _ _ _ Hv') as Hb'.
  assert (y = y') as <-.
  { destruct (Z.lt_trichotomy y y') as [Hlt | [E | Hgt]]; [| exact E |].
    - pose proof (year_step y). pose proof (@days_before_year_mono (y + 1) y' ltac:(lia)). lia.
    - pose proof (year_step y'). pose proof (@days_before_year_mono (y' + 1) y ltac:(lia)). lia. }
  split; [reflexivity |]. apply (@same_year_same_date _ _ _ _ _ Hv Hv'). lia.
Qed.

Lemma ord2ymd_ymd2ord (y m d : Z) :
  valid_date y m d -> ord2ymd (ymd2ord y m d) = (y, m, d).
Proof.
  intros Hv. pose proof (ord2ymd_inverse (ymd2ord y m d)) as Hinv.
  destruct (ord2ymd (ymd2ord y m d)) as [[y' m'] d'].
  destruct Hinv as [Heq Hv'].
  destruct (@ymd2ord_injective y' m' d' y m d Hv' Hv Heq) as [-> [-> ->]].
  reflexivity.
Qed.

(** ** Further properties: the recurrence expander *)

Lemma days_before_month_drift (y y' m : Z) :
  -1 <= days_before_month y' m - days_before_month y m <= 1.
Proof.
  unfold days_before_month.
  destruct ((2 <? m) && is_leap y), ((2 <? m) && is_leap y'); lia.
Qed.

(** Seven days on, a day is in another month exactly when fewer than
    seven days of its month are left. *)
Lemma next_week_in_another_month (d : Z) :
  month_of (d + 7) <> month_of d <-> month_length d < day_of_month d + 7.
Proof.
  unfold month_of, month_length, day_of_month.
  pose proof (ord2ymd_inverse d) as Hd.
  pose proof (ord2ymd_inverse (d + 7)) as Hd7.
  destruct (ord2ymd d) as [[y m] dd]. destruct (ord2ymd (d + 7)) as [[y' m'] dd'].
  cbn [fst snd]. destruct Hd as [Ed Vd]. destruct Hd7 as [Ed7 Vd7].
  split.
  - intros Hne. destruct (Z.lt_ge_cases (days_in_month y m) (dd + 7))
      as [Hlt | Hge]; [exact Hlt | exfalso].
    assert (valid_date y m (dd + 7)) as Hv by (unfold valid_date; lia).
    assert (ymd2ord y m (dd + 7) = ymd2ord y' m' dd') as Heq
      by (unfold ymd2ord in *; lia).
    destruct (@ymd2ord_injective _ _ _ _ _ _ Hv Vd7 Heq) as [_ [Hm _]].
    congruence.
  - intros Hlt Hsame. subst m'.
    pose proof (@day_of_year_bounds _ _ _ Vd) as Hb.
    pose proof (@day_of_year_bounds _ _ _ Vd7) as Hb7.
    pose proof (days_before_month_drift y y' m) as Hdrift.
    pose proof (@month_tables_bounds y m (proj1 Vd)) as [_ Hlen].
    pose proof (@month_tables_bounds y' m (proj1 Vd)) as [_ Hlen'].
    unfold ymd2ord in *. destruct Vd as [Vm Vdd]. destruct Vd7 as [_ Vdd'].
    destruct (Z.lt_trichotomy y y') as [Hy | [Hy | Hy]].
    + pose proof (year_step y).
      pose proof (@days_before_year_mono (y + 1) y' ltac:(lia)).
      destruct (is_leap y); lia.
    + subst y'. lia.
    + pose proof (year_step y').
      pose proof (@days_before_year_mono (y' + 1) y ltac:(lia)).
      destruct (is_leap y'); lia.
Qed.

Lemma last_fridays_between_In (range_start range_end d : Z) :
  In d (last_fridays_between range_start range_end)
  <-> range_start <= d <= range_end
      /\ weekday d = 4 /\ month_length d < day_of_month d + 7.
Proof.
  unfold last_fridays_between. rewrite occurrences_In. unfold MONTHLY_last, FR.
  rewrite andb_true_iff, Z.eqb_eq, negb_true_iff, Z.eqb_neq.
  rewrite next_week_in_another_month.
  split; intros [H1 H2]; (split; [lia | exact H2]).
Qed.

Lemma same_month_distance (d1 d2 : Z) :
  year_month d1 = year_month d2 ->
  d2 - d1 = day_of_month d2 - day_of_month d1
  /\ month_length d1 = month_length d2.
Proof.
  unfold year_month, day_of_month, month_length.
  pose proof (ord2ymd_inverse d1) as H1. pose proof (ord2ymd_inverse d2) as H2.
  destruct (ord2ymd d1) as [[y1 m1] dd1]. destruct (ord2ymd d2) as [[y2 m2] dd2].
  cbn [fst snd]. intros E. inversion E; subst.
  destruct H1 as [E1 _]. destruct H2 as [E2 _]. unfold ymd2ord in *.
  split; [lia | reflexivity].
Qed.

Lemma day_of_month_bounds (d : Z) : 1 <= day_of_month d <= month_length d.
Proof.
  unfold day_of_month, month_length. pose proof (ord2ymd_inverse d) as H.
  destruct (ord2ymd d) as [[y m] dd]. cbn [snd]. tauto.
Qed.

Lemma weekday_same_apart (a b : Z) :
  weekday a = weekday b -> a < b -> a + 7 <= b.
Proof.
  unfold weekday. intros Hw Hlt. Z.div_mod_to_equations. lia.
Qed.

Lemma for_each_append_rows (task_name : string) (w : World store)
    (df : DataFrame value) (rule : list Z) :
  for_each (map fromordinal rule) (append_recurring task_name)
           (set_df (FrameObj df) w)
  = (Ok tt,
     set_df (FrameObj (df ++ map (friday_row task_name) rule)) w).
Proof.
  rewrite for_each_append_obj. unfold friday_row. now rewrite map_map.
Qed.

(** X3. The pattern 'Last Friday of the Month': for every range, the
    expander appends, after the rows already there, exactly one row per
    date of [range_start, range_end] that is a Friday with fewer than
    seven days of its month left, in ascending order; no two of the dates
    fall in the same month of the same year, and each row ends the day
    after it starts, with status 'Not Started' and progress 0. *)
Theorem last_friday_expansion :
  (forall (task_name : string) (range_start range_end : Z)
          (df : DataFrame value) (w : World store),
     add_recurring_task_advanced task_name "Last Friday of the Month"
       range_start range_end (set_df (FrameObj df) w)
     = (Raise "RerunException",
        set_df (FrameObj
                  (df ++ map (friday_row task_name)
                             (last_fridays_between range_start range_end))) w)
     /\ (forall d : Z,
           In d (last_fridays_between range_start range_end)
           <-> range_start <= d <= range_end
               /\ weekday d = 4 /\ month_length d < day_of_month d + 7)
     /\ StronglySorted Z.lt (last_fridays_between range_start range_end)
     /\ (forall d1 d2 : Z,
           In d1 (last_fridays_between range_start range_end) ->
           In d2 (last_fridays_between range_start range_end) ->
           year_month d1 = year_month d2 -> d1 = d2))
  /\ (forall (task_name : string) (d : Z),
        Task (friday_row task_name d) = Str task_name
        /\ Start_Date (friday_row task_name d) = Ts (fromordinal d)
        /\ End_Date (friday_row task_name d) = Ts (fromordinal (d + 1))
        /\ Status (friday_row task_name d) = Str "Not Started"
        /\ Progress (friday_row task_name d) = Int 0).
Proof.
  split.
  - intros task_name range_start range_end df w.
    split; [| split; [| split]].
    + unfold add_recurring_task_advanced.
      change (String.eqb "Last Friday of the Month" "Weekly on Monday")
        with false.
      rewrite String.eqb_refl.
      unfold bind at 1. unfold ret at 1. unfold bind at 1.
      unfold rrule. fold (last_fridays_between range_start range_end).
      rewrite for_each_append_rows. reflexivity.
    + intros d. apply last_fridays_between_In.
    + apply occurrences_sorted.
    + intros d1 d2 H1 H2 Hsame.
      apply last_fridays_between_In in H1 as [_ [W1 L1]].
      apply last_fridays_between_In in H2 as [_ [W2 L2]].
      destruct (same_month_distance d1 d2 Hsame) as [Hdist Hlen].
      pose proof (day_of_month_bounds d1). pose proof (day_of_month_bounds d2).
      destruct (Z.lt_trichotomy d1 d2) as [Hlt | [E | Hgt]]; [| exact E |].
      * pose proof (@weekday_same_apart d1 d2 ltac:(congruence) Hlt). lia.
      * pose proof (@weekday_same_apart d2 d1 ltac:(congruence) Hgt). lia.
  - intros task_name d. unfold friday_row, recurring_row.
    cbn [Task Start_Date End_Date Status Progress]. repeat split.
    unfold add_days, fromordinal. f_equal. ring.
Qed.

(** X4. An empty range: with either known pattern and [end_date] before
    [start_date] the rule yields no date, so nothing is appended, nothing
    is raised but the rerun, and the world is as it was, whatever the
    session holds. *)
Theorem empty_range_appends_nothing (task_name recurrence_type : string)
    (start_date end_date : Z) (w : World store) :
  In recurrence_type recurrence_options ->
  end_date < start_date ->
  add_recurring_task_advanced task_name recurrence_type start_date end_date w
  = (Raise "RerunException", w).
Proof.
  intros Hin Hlt.
  assert (Z.to_nat (end_date - start_date + 1) = 0%nat) as Hn by lia.
  unfold add_recurring_task_advanced, rrule. rewrite Hn.
  destruct Hin as [<- | [<- | []]].
  - rewrite String.eqb_refl. reflexivity.
  - change (String.eqb "Last Friday of the Month" "Weekly on Monday")
      with false.
    rewrite String.eqb_refl. reflexivity.
Qed.

Lemma empty_range_appends_nothing_witness :
  In "Weekly on Monday" recurrence_options
  /\ ymd2ord 2024 8 31 < ymd2ord 2024 9 1
  /\ add_recurring_task_advanced "Standup" "Weekly on Monday"
       (ymd2ord 2024 9 1) (ymd2ord 2024 8 31) seeded_session
     = (Raise "RerunException", seeded_session).
Proof.
  assert (In "Weekly on Monday" recurrence_options) as H1 by (now left).
  assert (ymd2ord 2024 8 31 < ymd2ord 2024 9 1) as H2 by reflexivity.
  split; [exact H1 | split; [exact H2 |]].
  exact (@empty_range_appends_nothing "Standup" _ _ _ seeded_session H1 H2).
Defined.

Lemma occurrences_no_skips (selects : Z -> bool) (n : nat) :
  forall d,
    no_skips selects (occurrences selects d n)
    /\ (forall a, hd_error (occurrences selects d n) = Some a ->
                  forall x, d <= x < a -> selects x = false).
Proof.
  induction n as [| n IH]; intros d; cbn [occurrences].
  - split; [exact I | discriminate].
  - destruct (IH (d + 1)) as [Hskips Hfirst].
    destruct (selects d) eqn:Hd.
    + split.
      * destruct (occurrences selects (d + 1) n) as [| b rest] eqn:E;
          [exact I |].
        cbn [no_skips]. split; [| exact Hskips].
        intros x Hx. apply (Hfirst b eq_refl). lia.
      * intros a Ha x Hx. cbn [hd_error] in Ha. inversion Ha; subst. lia.
    + split; [exact Hskips |].
      intros a Ha x Hx. destruct (Z.eq_dec x d) as [-> | Hne]; [exact Hd |].
      apply (Hfirst a Ha). lia.
Qed.

Lemma weekday_next_week (d : Z) : weekday (d + 7) = weekday d.
Proof. unfold weekday. Z.div_mod_to_equations. lia. Qed.

Lemma weekly_gaps (l : list Z) :
  no_skips (WEEKLY_on 0) l -> Forall (fun d => weekday d = 0) l ->
  StronglySorted Z.lt l -> Forall (fun g => g = 7) (gaps l).
Proof.
  induction l as [| a [| b rest] IH]; intros Hskips Hall Hsorted;
    [constructor | constructor |].
  cbn [gaps]. cbn [no_skips] in Hskips. destruct Hskips as [Hgap Hskips].
  inversion Hall as [| ? ? Wa Hall']; subst.
  inversion Hsorted as [| ? ? Hsorted' Hlt]; subst.
  constructor; [| now apply IH].
  inversion Hall' as [| ? ? Wb _]; subst.
  inversion Hlt as [| ? ? Hab _]; subst.
  pose proof (@weekday_same_apart a b ltac:(congruence) Hab) as Hge.
  destruct (Z.eq_dec (a + 7) b) as [<- | Hne]; [lia | exfalso].
  assert (WEEKLY_on 0 (a + 7) = false) as Hno by (apply Hgap; lia).
  unfold WEEKLY_on in Hno. rewrite weekday_next_week, Wa in Hno.
  discriminate Hno.
Qed.

(** X5. The pattern 'Weekly on Monday' leaves no week out: the generated
    dates are exactly seven days apart, the first falls within the first
    seven days of the range, and every range of at least seven days gets
    a task. *)
Theorem weekly_tasks_are_a_week_apart (range_start range_end : Z) :
  Forall (fun g => g = 7) (gaps (mondays_between range_start range_end))
  /\ (forall first,
        hd_error (mondays_between range_start range_end) = Some first ->
        range_start <= first < range_start + 7)
  /\ (range_start + 6 <= range_end ->
      mondays_between range_start range_end <> []).
Proof.
  split; [| split].
  - apply weekly_gaps.
    + apply occurrences_no_skips.
    + apply Forall_forall. intros d Hd.
      now apply mondays_between_In in Hd.
    + apply occurrences_sorted.
  - intros first Hfirst.
    assert (In first (mondays_between range_start range_end)) as Hin.
    { destruct (mondays_between range_start range_end); [discriminate |].
      cbn [hd_error] in Hfirst. inversion Hfirst. now left. }
    apply mondays_between_In in Hin as [Hrange Hw].
    split; [lia |].
    destruct (Z.lt_ge_cases first (range_start + 7)) as [H | H]; [exact H |].
    exfalso.
    destruct (occurrences_no_skips (WEEKLY_on 0)
                (Z.to_nat (range_end - range_start + 1)) range_start)
      as [_ Hbefore].
    assert (WEEKLY_on 0 (first - 7) = false) as Hno
      by (apply (Hbefore first Hfirst); lia).
    unfold WEEKLY_on in Hno.
    replace (weekday (first - 7)) with (weekday first) in Hno
      by (rewrite <- (weekday_next_week (first - 7)); f_equal; lia).
    rewrite Hw in Hno. discriminate Hno.
  - intros Hlong Hempty.
    set (monday := range_start + (6 - weekday (range_start + 6))).
    assert (weekday monday = 0) as Hw
      by (unfold monday, weekday; Z.div_mod_to_equations; lia).
    assert (range_start <= monday <= range_end) as Hr
      by (unfold monday, weekday; Z.div_mod_to_equations; lia).
    assert (In monday (mondays_between range_start range_end)) as Hin
      by (apply mondays_between_In; split; assumption).
    rewrite Hempty in Hin. contradiction.
Qed.

(** ** Further properties: the Gantt chart *)

Lemma row_shapes_raises_AttributeError (df : DataFrame datetime64) (i : Z)
    (row : Row value datetime64) (c : string) :
  row_shapes df i row = Raise c -> c = "AttributeError".
Proof.
  unfold row_shapes. destruct (truthy (Dependencies row)); [| discriminate].
  destruct (Dependencies row); try discriminate;
    intros H; inversion H; reflexivity.
Qed.

Lemma shapes_from_raises (df : DataFrame datetime64)
    (rows : DataFrame datetime64) :
  forall i,
    (exists r n, In r rows /\ Dependencies r = Int n /\ n <> 0) ->
    shapes_from df i rows = Raise "AttributeError".
Proof.
  induction rows as [| row rows IH]; intros i [r [n [Hin [Hd Hn]]]];
    [contradiction |].
  cbn [shapes_from].
  destruct (row_shapes df i row) as [here | c] eqn:Ehere.
  - cbn [obind]. destruct Hin as [-> | Hin].
    + unfold row_shapes in Ehere. rewrite Hd in Ehere. cbn [truthy] in Ehere.
      destruct (Z.eqb_spec n 0); [contradiction | discriminate Ehere].
    + rewrite IH; [reflexivity | now exists r, n].
  - cbn [obind]. f_equal. now apply row_shapes_raises_AttributeError in Ehere.
Qed.

(** X6. A Dependencies cell that holds a number other than 0 (a column of
    task numbers read from a file, say) makes the Gantt chart function
    raise AttributeError, since a number has no [split]; the missing cells
    of the column have been filled by then and stay filled. *)
Theorem gantt_chart_numeric_dependency (w : World (DataFrame datetime64))
    (r : Row value datetime64) (n : Z) :
  In r (session_df w) -> Dependencies r = Int n -> n <> 0 ->
  create_gantt_chart_with_dependencies w
  = (Raise "AttributeError", set_df (map filled (session_df w)) w).
Proof.
  intros Hin Hd Hn.
  unfold create_gantt_chart_with_dependencies, bind, the_df, assign_df.
  cbn [session_df set_df]. fold filled.
  rewrite shapes_from_raises; [reflexivity |].
  exists (filled r), n. split; [now apply in_map | split; [| exact Hn]].
  unfold filled. cbn [Dependencies on_Dependencies]. now rewrite Hd.
Qed.

Lemma gantt_chart_numeric_dependency_witness :
  In (on_Dependencies (fun _ => Int 1)
        (seed_row "2" "UI/UX Design" (datetime 2024 8 3) (datetime 2024 8 6)
           "Bob" "In Progress" 60 "Medium" 24 "" "" 8000 4000))
     (session_df (at_clock 0 numbered_deps_df))
  /\ fst (create_gantt_chart_with_dependencies (at_clock 0 numbered_deps_df))
     = Raise "AttributeError".
Proof.
  assert (In (on_Dependencies (fun _ => Int 1)
                (seed_row "2" "UI/UX Design" (datetime 2024 8 3)
                   (datetime 2024 8 6) "Bob" "In Progress" 60 "Medium" 24
                   "" "" 8000 4000))
             (session_df (at_clock 0 numbered_deps_df))) as H
    by (right; now left).
  split; [exact H |].
  rewrite (@gantt_chart_numeric_dependency (at_clock 0 numbered_deps_df) _ 1 H
             eq_refl ltac:(discriminate)).
  reflexivity.
Defined.

Lemma value_eqb_Str (v : value) (s : string) :
  value_eqb v (Str s) = true -> v = Str s.
Proof.
  destruct v as [| t | n | t]; cbn [value_eqb]; try discriminate.
  intros H. apply String.eqb_eq in H. now subst.
Qed.

Lemma row_shapes_textual (df : DataFrame datetime64) (i : Z)
    (row : Row value datetime64) (deps : string) :
  Dependencies row = Str deps ->
  exists here,
    row_shapes df i row = Ok here
    /\ Forall (fun line =>
         let '(x0, y0, x1, y1) := line in
         y0 = i /\ y1 = i /\ x1 = Start_Date row
         /\ exists piece dep_task,
              In piece (split ","%char deps) /\ In dep_task df
              /\ Task dep_task = Str (strip piece)
              /\ x0 = End_Date dep_task) here.
Proof.
  intros Hd. unfold row_shapes. rewrite Hd. cbn [truthy].
  destruct (negb (deps =? "")%string).
  - eexists. split; [reflexivity |].
    apply Forall_forall. intros [[[x0 y0] x1] y1] Hin.
    apply in_flat_map in Hin as [piece [Hpiece Hin]].
    destruct (filter _ df) as [| dep_task rest] eqn:Ef; [contradiction |].
    destruct Hin as [Hin | []]. inversion Hin; subst.
    assert (In dep_task (filter (fun r => value_eqb (Task r) (Str (strip piece)))
                                df)) as Hf by (rewrite Ef; now left).
    apply filter_In in Hf as [Hdf Heq].
    repeat split. exists piece, dep_task.
    repeat split; try assumption. now apply value_eqb_Str.
  - exists []. split; [reflexivity | constructor].
Qed.

Lemma shapes_from_textual (df : DataFrame datetime64)
    (rows : DataFrame datetime64) :
  forall pre,
    df = pre ++ rows ->
    Forall (fun r => exists deps, Dependencies r = Str deps) rows ->
    exists shapes,
      shapes_from df (Z.of_nat (List.length pre)) rows = Ok shapes
      /\ Forall (draws df) shapes.
Proof.
  induction rows as [| row rows IH]; intros pre Hdf Hall.
  - exists []. split; [reflexivity | constructor].
  - apply Forall_cons_iff in Hall as [[deps Hd] Hall'].
    destruct (row_shapes_textual df (Z.of_nat (List.length pre)) row Hd)
      as [here [Ehere Hhere]].
    destruct (IH (pre ++ [row])) as [later [Elater Hlater]];
      [now rewrite <- app_assoc | exact Hall' |].
    rewrite length_app in Elater. cbn [List.length] in Elater.
    replace (Z.of_nat (List.length pre + 1)) with (Z.of_nat (List.length pre) + 1)
      in Elater by lia.
    exists (here ++ later). cbn [shapes_from]. rewrite Ehere. cbn [obind].
    rewrite Elater. cbn [obind]. split; [reflexivity |].
    apply Forall_app. split; [| exact Hlater].
    eapply Forall_impl; [| exact Hhere].
    intros [[[x0 y0] x1] y1] [-> [-> [-> Hdep]]]. unfold draws.
    split; [reflexivity | split; [lia |]].
    exists row, deps. rewrite Nat2Z.id. split; [| split; [exact Hd | split]].
    + rewrite Hdf. rewrite nth_error_app2 by lia.
      now rewrite Nat.sub_diag.
    + reflexivity.
    + exact Hdep.
Qed.

Lemma gantt_chart_textual (w : World (DataFrame datetime64)) :
  Forall (fun r => textual (Dependencies r)) (session_df w) ->
  exists shapes,
    create_gantt_chart_with_dependencies w
    = (Ok (Timeline "Gantt Chart with Dependencies"
                    (map filled (session_df w)) shapes),
       set_df (map filled (session_df w)) w)
    /\ Forall (draws (map filled (session_df w))) shapes.
Proof.
  intros Hall.
  destruct (@shapes_from_textual (map filled (session_df w))
              (map filled (session_df w)) [] eq_refl)
    as [shapes [Eshapes Hdraws]].
  { apply Forall_forall. intros r' Hr'.
    apply in_map_iff in Hr' as [r [<- Hr]].
    rewrite Forall_forall in Hall.
    unfold filled. cbn [Dependencies on_Dependencies].
    destruct (Hall r Hr) as [-> | [s ->]]; eexists; reflexivity. }
  exists shapes. split; [| exact Hdraws].
  unfold create_gantt_chart_with_dependencies, bind, the_df, assign_df.
  cbn [session_df set_df].
  cbn [List.length Z.of_nat] in Eshapes. unfold filled in *.
  unfold DataFrame, datetime64 in *. rewrite Eshapes. reflexivity.
Qed.

(** X7. When every Dependencies cell holds text or is missing, the Gantt
    chart function returns its figure over the table with that column
    filled, and each dependency line it draws is horizontal, at the index
    of a row, from the end date of a row whose Task is a name listed in
    that row's dependencies to the start date of that row. The seed data
    list subtasks, not tasks, and get no line at all. *)
Theorem gantt_chart_lines (w : World (DataFrame datetime64)) :
  Forall (fun r => textual (Dependencies r)) (session_df w) ->
  (exists shapes,
     create_gantt_chart_with_dependencies w
     = (Ok (Timeline "Gantt Chart with Dependencies"
                     (map filled (session_df w)) shapes),
        set_df (map filled (session_df w)) w)
     /\ Forall (draws (map filled (session_df w))) shapes)
  /\ fst (create_gantt_chart_with_dependencies (at_clock 0 dummy_data))
     = Ok (Timeline "Gantt Chart with Dependencies" dummy_data []).
Proof.
  intros Hall. split; [| reflexivity]. now apply gantt_chart_textual.
Qed.

Lemma seed_dependencies_textual :
  Forall (fun r => textual (Dependencies r)) dummy_data.
Proof.
  repeat (constructor; [right; eexists; reflexivity |]). constructor.
Qed.

Lemma gantt_chart_lines_witness :
  Forall (fun r => textual (Dependencies r))
         (session_df (at_clock 0 dummy_data))
  /\ exists shapes,
       create_gantt_chart_with_dependencies (at_clock 0 dummy_data)
       = (Ok (Timeline "Gantt Chart with Dependencies"
                       (map filled dummy_data) shapes),
          set_df (map filled dummy_data) (at_clock 0 dummy_data))
       /\ Forall (draws (map filled dummy_data)) shapes.
Proof.
  split; [exact seed_dependencies_textual |].
  exact (proj1 (@gantt_chart_lines (at_clock 0 dummy_data)
                  seed_dependencies_textual)).
Defined.

(** ** Further properties: what the two series add up *)

Lemma total_where_cons (p : Z -> bool) (k v : Z) (kvs : list (Z * Z)) :
  total_where p ((k, v) :: kvs)
  = (if p k then v else 0) + total_where p kvs.
Proof.
  unfold total_where. cbn [filter fst]. destruct (p k); reflexivity.
Qed.

Lemma total_where_group_add (p : Z -> bool) (k a : Z) (gs : list (Z * Z)) :
  total_where p (group_add Z.compare Z.add k a gs)
  = total_where p gs + (if p k then a else 0).
Proof.
  induction gs as [| [k' a'] gs IH]; cbn [group_add].
  - rewrite total_where_cons. unfold total_where. cbn. lia.
  - destruct (Z.compare_spec k k') as [-> | Hlt | Hgt].
    + rewrite !total_where_cons. destruct (p k'); lia.
    + rewrite !total_where_cons. destruct (p k), (p k'); lia.
    + rewrite !total_where_cons, IH. lia.
Qed.

Lemma total_where_groupby_from (p : Z -> bool) (kvs : list (Z * Z)) :
  forall gs,
    total_where p
      (fold_left (fun gs ka => group_add Z.compare Z.add (fst ka) (snd ka) gs)
                 kvs gs)
    = total_where p gs + total_where p kvs.
Proof.
  induction kvs as [| [k a] kvs IH]; intros gs; cbn [fold_left fst snd].
  - unfold total_where at 3. cbn. lia.
  - rewrite IH, total_where_group_add, total_where_cons. lia.
Qed.

(** Grouping moves no amount from one key to another. *)
Lemma total_where_groupby (p : Z -> bool) (kvs : list (Z * Z)) :
  total_where p (groupby Z.compare Z.add kvs) = total_where p kvs.
Proof.
  unfold groupby. rewrite total_where_groupby_from.
  unfold total_where at 1. cbn. lia.
Qed.

Lemma group_add_keeps_keys (k a : Z) (gs : list (Z * Z)) :
  forall x, x = k \/ In x (map fst gs) ->
            In x (map fst (group_add Z.compare Z.add k a gs)).
Proof.
  induction gs as [| [k' a'] gs IH]; intros x Hx; cbn [group_add].
  - destruct Hx as [-> | []]. now left.
  - cbn [map fst In] in Hx.
    destruct (Z.compare_spec k k') as [-> | Hlt | Hgt]; cbn [map fst In].
    + destruct Hx as [-> | [-> | H]]; auto.
    + destruct Hx as [-> | [-> | H]]; auto.
    + destruct Hx as [-> | [-> | H]]; auto.
Qed.

Lemma groupby_keeps_keys_from (kvs : list (Z * Z)) :
  forall gs x,
    In x (map fst kvs) \/ In x (map fst gs) ->
    In x (map fst (fold_left (fun gs ka =>
                     group_add Z.compare Z.add (fst ka) (snd ka) gs)
                     kvs gs)).
Proof.
  induction kvs as [| [k a] kvs IH]; intros gs x Hx; cbn [fold_left fst snd].
  - destruct Hx as [[] | H]. exact H.
  - apply IH. cbn [map fst In] in Hx.
    destruct Hx as [[-> | H] | H]; [right | now left | right];
      apply group_add_keeps_keys; auto.
Qed.

Lemma groupby_keys (kvs : list (Z * Z)) (x : Z) :
  In x (map fst (groupby Z.compare Z.add kvs)) <-> In x (map fst kvs).
Proof.
  unfold groupby. split.
  - intros H. destruct (groupby_keys_from _ _ _ _ H) as [H' | []]. exact H'.
  - intros H. apply groupby_keeps_keys_from. now left.
Qed.

Lemma total_where_none (p : Z -> bool) (gs : list (Z * Z)) :
  (forall x, In x (map fst gs) -> p x = false) -> total_where p gs = 0.
Proof.
  induction gs as [| [k v] gs IH]; intros H; [reflexivity |].
  rewrite total_where_cons, (H k (or_introl eq_refl)), IH; [reflexivity |].
  intros x Hx. apply H. now right.
Qed.

(** In a list with ascending keys, the value at a key is all there is at
    that key. *)
Lemma sorted_value_at_key (gs : list (Z * Z)) :
  StronglySorted Z.lt (map fst gs) ->
  forall k v, In (k, v) gs <->
              In k (map fst gs) /\ v = total_where (Z.eqb k) gs.
Proof.
  induction gs as [| [k0 v0] gs IH]; intros Hs k v.
  - cbn [In map]. tauto.
  - cbn [map fst] in Hs. inversion Hs as [| ? ? Hs' Hall]; subst.
    rewrite Forall_forall in Hall.
    rewrite total_where_cons. cbn [In map fst]. rewrite (IH Hs').
    destruct (Z.eqb_spec k k0) as [-> | Hne].
    + assert (total_where (Z.eqb k0) gs = 0) as Hz.
      { apply total_where_none. intros x Hx. specialize (Hall x Hx).
        apply Z.eqb_neq. lia. }
      rewrite Hz. split.
      * intros [H | [Hin _]]; [inversion H; subst; split; [now left | lia] |].
        specialize (Hall k0 Hin). lia.
      * intros [_ ->]. left. f_equal. lia.
    + split.
      * intros [H | [Hin ->]]; [inversion H; congruence |].
        split; [now right | lia].
      * intros [[H | Hin] ->]; [congruence |]. right. split; [exact Hin | lia].
Qed.

(** The running total at a key is the sum of everything up to that key. *)
Lemma cumsum_value_at_key (gs : list (Z * Z)) :
  StronglySorted Z.lt (map fst gs) ->
  forall acc k v,
    In (k, v) (cumsum_from acc gs)
    <-> In k (map fst gs)
        /\ v = acc + total_where (fun x => x <=? k) gs.
Proof.
  induction gs as [| [k0 v0] gs IH]; intros Hs acc k v.
  - cbn [cumsum_from In map]. tauto.
  - cbn [map fst] in Hs. inversion Hs as [| ? ? Hs' Hall]; subst.
    rewrite Forall_forall in Hall.
    cbn [cumsum_from In map fst]. rewrite (IH Hs'), total_where_cons.
    split.
    + intros [H | [Hin ->]].
      * inversion H; subst. split; [now left |].
        rewrite Z.leb_refl.
        rewrite total_where_none; [lia |].
        intros x Hx. specialize (Hall x Hx). apply Z.leb_gt. lia.
      * split; [now right |]. specialize (Hall k Hin).
        destruct (Z.leb_spec k0 k); lia.
    + intros [[<- | Hin] ->].
      * left. f_equal. rewrite Z.leb_refl.
        rewrite total_where_none; [lia |].
        intros x Hx. specialize (Hall x Hx). apply Z.leb_gt. lia.
      * right. split; [exact Hin |]. specialize (Hall k Hin).
        destruct (Z.leb_spec k0 k); lia.
Qed.

Lemma dated_progress_total (p : Z -> bool) (df : DataFrame datetime64) :
  total_where p (dated_progress df) = progress_sum (filter (ending p) df).
Proof.
  unfold dated_progress, keyed, progress_sum, ending, end_key, progress_of.
  induction df as [| r df IH]; [reflexivity |].
  cbn [flat_map filter]. destruct (End_Date r) as [e |] eqn:E.
  - cbn [app map]. rewrite total_where_cons. cbn [fst snd].
    destruct (p e); cbn [map total fold_right]; rewrite IH;
      unfold total; cbn [fold_right]; lia.
  - exact IH.
Qed.

Lemma dated_progress_keys (df : DataFrame datetime64) (d : Z) :
  In d (map fst (dated_progress df))
  <-> exists r, In r df /\ End_Date r = Some d.
Proof.
  unfold dated_progress. rewrite map_map. cbn [fst]. split.
  - intros H. apply in_map_iff in H as [[k r] [<- Hin]].
    apply keyed_In in Hin. now exists r.
  - intros [r [Hin E]]. apply in_map_iff. exists (d, r).
    split; [reflexivity |]. now apply keyed_In.
Qed.

Lemma date_sum_numeric (df : DataFrame datetime64) :
  Forall (fun r => numeric_cell (Progress r)) df ->
  groupby_date_sum end_key progress_of df
  = Ok (groupby Z.compare Z.add (dated_progress df)).
Proof.
  intros Hdf. rewrite Forall_forall in Hdf. unfold groupby_date_sum.
  rewrite (sequence_map_Ok _
             (fun kr => (fst kr, amount (progress_of (snd kr))))).
  - reflexivity.
  - intros [k r] Hin. apply keyed_In in Hin as [Hin _]. cbn [fst snd].
    unfold progress_of. destruct (Hdf r Hin) as [-> | [n ->]]; reflexivity.
Qed.

(** X8. The progress-over-time series: over a Progress column of whole
    numbers and missing cells, within the range where the sums of the code
    are exact, it has one point per end date that occurs in the table,
    dates strictly ascending, and the value at a date is the sum of the
    progress of the rows that end on that date. *)
Theorem completion_series_values (df : DataFrame datetime64) :
  Forall (fun r => numeric_cell (Progress r)) df ->
  exact_range (map progress_of df) ->
  exists s,
    completion_df df = Ok s
    /\ StronglySorted Z.lt (map fst s)
    /\ forall d v,
         In (d, v) s
         <-> (exists r, In r df /\ End_Date r = Some d)
             /\ v = progress_sum (filter (ending (Z.eqb d)) df).
Proof.
  intros Hdf _. exists (groupby Z.compare Z.add (dated_progress df)).
  rewrite completion_df_eq, (date_sum_numeric Hdf).
  assert (StronglySorted Z.lt
            (map fst (groupby Z.compare Z.add (dated_progress df)))) as Hs
    by (apply groupby_sorted_from; constructor).
  split; [reflexivity | split; [exact Hs |]].
  intros d v. rewrite (@sorted_value_at_key _ Hs).
  rewrite groupby_keys, dated_progress_keys, total_where_groupby.
  now rewrite dated_progress_total.
Qed.

Lemma seed_progress_numeric :
  Forall (fun r => numeric_cell (Progress r)) dummy_data.
Proof.
  repeat (constructor; [right; eexists; reflexivity |]). constructor.
Qed.

Lemma completion_series_values_witness :
  Forall (fun r => numeric_cell (Progress r)) dummy_data
  /\ exact_range (map progress_of dummy_data)
  /\ exists s,
       completion_df dummy_data = Ok s
       /\ StronglySorted Z.lt (map fst s)
       /\ forall d v,
            In (d, v) s
            <-> (exists r, In r dummy_data /\ End_Date r = Some d)
                /\ v = progress_sum (filter (ending (Z.eqb d)) dummy_data).
Proof.
  split; [exact seed_progress_numeric |].
  split; [exact seed_progress_exact |].
  exact (completion_series_values seed_progress_numeric seed_progress_exact).
Defined.

(** X9. The burn-down series: over a Progress column of whole numbers
    and missing cells, within the range where the sums of the code are
    exact, it has the same dates as the progress-over-time series, and
    the value at a date is the sum of the progress of all the rows that
    end on or before that date. *)
Theorem burn_down_series_values (df : DataFrame datetime64) :
  Forall (fun r => numeric_cell (Progress r)) df ->
  exact_range (map progress_of df) ->
  exists s,
    burn_down_df df = Ok s
    /\ StronglySorted Z.lt (map fst s)
    /\ forall d v,
         In (d, v) s
         <-> (exists r, In r df /\ End_Date r = Some d)
             /\ v = progress_sum (filter (ending (fun e => e <=? d)) df).
Proof.
  intros Hdf _.
  exists (cumsum (groupby Z.compare Z.add (dated_progress df))).
  rewrite burn_down_df_eq, (date_sum_numeric Hdf). cbn [obind].
  assert (StronglySorted Z.lt
            (map fst (groupby Z.compare Z.add (dated_progress df)))) as Hs
    by (apply groupby_sorted_from; constructor).
  split; [reflexivity | split].
  - unfold cumsum. now rewrite cumsum_from_keys.
  - intros d v. unfold cumsum. rewrite (@cumsum_value_at_key _ Hs).
    rewrite groupby_keys, dated_progress_keys, total_where_groupby.
    rewrite dated_progress_total. cbn [Z.add]. reflexivity.
Qed.

Lemma burn_down_series_values_witness :
  Forall (fun r => numeric_cell (Progress r)) dummy_data
  /\ exact_range (map progress_of dummy_data)
  /\ exists s,
       burn_down_df dummy_data = Ok s
       /\ StronglySorted Z.lt (map fst s)
       /\ forall d v,
            In (d, v) s
            <-> (exists r, In r dummy_data /\ End_Date r = Some d)
                /\ v = progress_sum
                         (filter (ending (fun e => e <=? d)) dummy_data).
Proof.
  split; [exact seed_progress_numeric |].
  split; [exact seed_progress_exact |].
  exact (burn_down_series_values seed_progress_numeric seed_progress_exact).
Defined.

(** ** Further properties: sums by task and by assignee *)

Lemma ascii_compare_trans (a b c : ascii) :
  Ascii.compare a b = Lt -> Ascii.compare b c = Lt -> Ascii.compare a c = Lt.
Proof.
  unfold Ascii.compare. rewrite !N.compare_lt_iff. lia.
Qed.

Lemma string_compare_refl (s : string) : String.compare s s = Eq.
Proof.
  induction s as [| c s IH]; [reflexivity |].
  cbn [String.compare]. unfold Ascii.compare. now rewrite N.compare_refl.
Qed.

Lemma string_compare_trans (s : string) :
  forall t u,
    String.compare s t = Lt -> String.compare t u = Lt ->
    String.compare s u = Lt.
Proof.
  induction s as [| a s IH]; intros [| b t] [| c u]; cbn [String.compare];
    try discriminate; try reflexivity.
  destruct (Ascii.compare a b) eqn:Eab; try discriminate;
    destruct (Ascii.compare b c) eqn:Ebc; try discriminate.
  - apply Ascii.compare_eq_iff in Eab. apply Ascii.compare_eq_iff in Ebc.
    subst. unfold Ascii.compare. rewrite N.compare_refl. apply IH.
  - apply Ascii.compare_eq_iff in Eab. subst. now rewrite Ebc.
  - apply Ascii.compare_eq_iff in Ebc. subst. now rewrite Eab.
  - now rewrite (ascii_compare_trans _ _ _ Eab Ebc).
Qed.

Lemma key_compare_eq (a b : value) : key_compare a b = Eq -> a = b.
Proof.
  destruct a, b; cbn [key_compare]; try discriminate; intros H.
  - reflexivity.
  - f_equal. now apply String.compare_eq_iff.
  - f_equal. now apply Z.compare_eq.
  - f_equal. now apply Z.compare_eq.
Qed.

Lemma key_compare_refl (a : value) : key_compare a a = Eq.
Proof.
  destruct a; cbn [key_compare];
    [reflexivity | apply string_compare_refl
     | apply Z.compare_refl | apply Z.compare_refl].
Qed.

Lemma key_compare_flip (a b : value) :
  key_compare a b = Gt -> key_compare b a = Lt.
Proof.
  destruct a, b; cbn [key_compare]; try discriminate; try reflexivity;
    intros H.
  - rewrite String.compare_antisym, H. reflexivity.
  - rewrite Z.compare_antisym, H. reflexivity.
  - rewrite Z.compare_antisym, H. reflexivity.
Qed.

Lemma key_lt_trans (a b c : value) : key_lt a b -> key_lt b c -> key_lt a c.
Proof.
  unfold key_lt.
  destruct a, b, c; cbn [key_compare]; try discriminate; try reflexivity.
  - apply string_compare_trans.
  - rewrite !Z.compare_lt_iff. lia.
  - rewrite !Z.compare_lt_iff. lia.
Qed.

Lemma group_add_firsts (k : value) (a : Z * Z) (gs : list (value * (Z * Z))) :
  firsts (group_add key_compare pair_add k a gs)
  = group_add key_compare Z.add k (fst a) (firsts gs).
Proof.
  unfold firsts. induction gs as [| [k' a'] gs IH]; [reflexivity |].
  cbn [group_add map fst snd]. destruct (key_compare k k'); cbn [map fst snd].
  - reflexivity.
  - reflexivity.
  - now rewrite IH.
Qed.

Lemma group_add_seconds (k : value) (a : Z * Z) (gs : list (value * (Z * Z))) :
  seconds (group_add key_compare pair_add k a gs)
  = group_add key_compare Z.add k (snd a) (seconds gs).
Proof.
  unfold seconds. induction gs as [| [k' a'] gs IH]; [reflexivity |].
  cbn [group_add map fst snd]. destruct (key_compare k k'); cbn [map fst snd].
  - reflexivity.
  - reflexivity.
  - now rewrite IH.
Qed.

Lemma groupby_firsts (kvs : list (value * (Z * Z))) :
  firsts (groupby key_compare pair_add kvs)
  = groupby key_compare Z.add (firsts kvs).
Proof.
  unfold groupby.
  assert (forall gs,
            firsts (fold_left (fun gs ka =>
                      group_add key_compare pair_add (fst ka) (snd ka) gs)
                    kvs gs)
            = fold_left (fun gs ka =>
                 group_add key_compare Z.add (fst ka) (snd ka) gs)
                (firsts kvs) (firsts gs)) as H.
  { induction kvs as [| [k a] kvs IH]; intros gs; [reflexivity |].
    cbn [fold_left]. rewrite IH. cbn [fst snd]. rewrite group_add_firsts.
    reflexivity. }
  apply H.
Qed.

Lemma groupby_seconds (kvs : list (value * (Z * Z))) :
  seconds (groupby key_compare pair_add kvs)
  = groupby key_compare Z.add (seconds kvs).
Proof.
  unfold groupby.
  assert (forall gs,
            seconds (fold_left (fun gs ka =>
                      group_add key_compare pair_add (fst ka) (snd ka) gs)
                    kvs gs)
            = fold_left (fun gs ka =>
                 group_add key_compare Z.add (fst ka) (snd ka) gs)
                (seconds kvs) (seconds gs)) as H.
  { induction kvs as [| [k a] kvs IH]; intros gs; [reflexivity |].
    cbn [fold_left]. rewrite IH. cbn [fst snd]. rewrite group_add_seconds.
    reflexivity. }
  apply H.
Qed.

Lemma total_where_cons_key {K} (p : K -> bool) (k : K) (v : Z)
    (kvs : list (K * Z)) :
  total_where p ((k, v) :: kvs)
  = (if p k then v else 0) + total_where p kvs.
Proof.
  unfold total_where. cbn [filter fst]. destruct (p k); reflexivity.
Qed.

Lemma same_key_eq (a b : value) : same_key a b = true <-> a = b.
Proof.
  unfold same_key. split.
  - destruct (key_compare a b) eqn:E; try discriminate.
    intros _. now apply key_compare_eq.
  - intros ->. now rewrite key_compare_refl.
Qed.

Lemma key_total_group_add (x k : value) (a : Z) (gs : list (value * Z)) :
  total_where (fun y => same_key y x) (group_add key_compare Z.add k a gs)
  = total_where (fun y => same_key y x) gs
    + (if same_key k x then a else 0).
Proof.
  induction gs as [| [k' a'] gs IH]; cbn [group_add].
  - rewrite total_where_cons_key. unfold total_where. cbn. lia.
  - destruct (key_compare k k') eqn:E.
    + apply key_compare_eq in E. subst k'.
      rewrite !total_where_cons_key. destruct (same_key k x); lia.
    + rewrite !total_where_cons_key.
      destruct (same_key k x), (same_key k' x); lia.
    + rewrite !total_where_cons_key, IH. lia.
Qed.

Lemma key_total_groupby (x : value) (kvs : list (value * Z)) :
  total_where (fun y => same_key y x) (groupby key_compare Z.add kvs)
  = total_where (fun y => same_key y x) kvs.
Proof.
  unfold groupby.
  assert (forall gs,
            total_where (fun y => same_key y x)
              (fold_left (fun gs ka =>
                 group_add key_compare Z.add (fst ka) (snd ka) gs) kvs gs)
            = total_where (fun y => same_key y x) gs
              + total_where (fun y => same_key y x) kvs) as H.
  { induction kvs as [| [k a] kvs IH]; intros gs; cbn [fold_left fst snd].
    - unfold total_where at 3. cbn. lia.
    - rewrite IH, key_total_group_add, total_where_cons_key. lia. }
  rewrite H. unfold total_where at 1. cbn. lia.
Qed.

Lemma key_group_add_keys (k : value) (a : Z) (gs : list (value * Z)) :
  forall x, In x (map fst (group_add key_compare Z.add k a gs))
            <-> x = k \/ In x (map fst gs).
Proof.
  induction gs as [| [k' a'] gs IH]; intros x; cbn [group_add map fst In].
  - intuition.
  - destruct (key_compare k k') eqn:E; cbn [map fst In].
    + apply key_compare_eq in E. subst k'. intuition.
    + intuition.
    + rewrite IH. intuition.
Qed.

Lemma key_groupby_keys (kvs : list (value * Z)) (x : value) :
  In x (map fst (groupby key_compare Z.add kvs)) <-> In x (map fst kvs).
Proof.
  unfold groupby.
  assert (forall gs,
            In x (map fst (fold_left (fun gs ka =>
                    group_add key_compare Z.add (fst ka) (snd ka) gs) kvs gs))
            <-> In x (map fst kvs) \/ In x (map fst gs)) as H.
  { induction kvs as [| [k a] kvs IH]; intros gs; cbn [fold_left fst snd].
    - cbn [map In]. intuition.
    - rewrite IH, key_group_add_keys. cbn [map fst In]. intuition. }
  rewrite H. cbn [map In]. intuition.
Qed.

Lemma key_group_add_sorted (k : value) (a : Z) (gs : list (value * Z)) :
  StronglySorted key_lt (map fst gs) ->
  StronglySorted key_lt (map fst (group_add key_compare Z.add k a gs)).
Proof.
  induction gs as [| [k' a'] gs IH]; intros Hs; cbn [group_add map fst].
  - repeat constructor.
  - cbn [map fst] in Hs. inversion Hs as [| ? ? Hs' Hall]; subst.
    destruct (key_compare k k') eqn:E; cbn [map fst].
    + exact Hs.
    + constructor; [exact Hs |]. constructor; [exact E |].
      eapply Forall_impl; [| exact Hall]. intros x Hx.
      exact (key_lt_trans E Hx).
    + constructor; [now apply IH |].
      apply Forall_forall. intros x Hx.
      apply key_group_add_keys in Hx as [-> | Hin].
      * now apply key_compare_flip.
      * rewrite Forall_forall in Hall. now apply Hall.
Qed.

Lemma key_groupby_sorted (kvs : list (value * Z)) :
  StronglySorted key_lt (map fst (groupby key_compare Z.add kvs)).
Proof.
  unfold groupby.
  assert (forall gs, StronglySorted key_lt (map fst gs) ->
            StronglySorted key_lt
              (map fst (fold_left (fun gs ka =>
                 group_add key_compare Z.add (fst ka) (snd ka) gs) kvs gs)))
    as H.
  { induction kvs as [| [k a] kvs IH]; intros gs Hs; [exact Hs |].
    cbn [fold_left fst snd]. apply IH. now apply key_group_add_sorted. }
  apply H. constructor.
Qed.

Lemma key_sorted_value (gs : list (value * Z)) :
  StronglySorted key_lt (map fst gs) ->
  forall k v, In (k, v) gs <->
              In k (map fst gs)
              /\ v = total_where (fun y => same_key y k) gs.
Proof.
  induction gs as [| [k0 v0] gs IH]; intros Hs k v.
  - cbn [In map]. tauto.
  - cbn [map fst] in Hs. inversion Hs as [| ? ? Hs' Hall]; subst.
    rewrite Forall_forall in Hall.
    assert (forall x, In x (map fst gs) -> same_key x k0 = false) as Hnone.
    { intros x Hx. specialize (Hall x Hx). unfold key_lt in Hall.
      destruct (same_key x k0) eqn:E; [| reflexivity].
      apply same_key_eq in E. subst x.
      rewrite key_compare_refl in Hall. discriminate Hall. }
    rewrite total_where_cons_key. cbn [In map fst]. rewrite (IH Hs').
    destruct (same_key k0 k) eqn:E.
    + apply same_key_eq in E. subst k0.
      assert (total_where (fun y => same_key y k) gs = 0) as Hz.
      { clear - Hnone. induction gs as [| [k1 v1] gs IH]; [reflexivity |].
        rewrite total_where_cons_key, (Hnone k1 (or_introl eq_refl)), IH;
          [reflexivity |].
        intros x Hx. apply Hnone. now right. }
      rewrite Hz. split.
      * intros [H | [Hin _]]; [inversion H; subst; split; [now left | lia] |].
        specialize (Hnone k Hin). rewrite (proj2 (same_key_eq k k) eq_refl) in Hnone.
        discriminate Hnone.
      * intros [_ ->]. left. f_equal. lia.
    + assert (k0 <> k) as Hne
        by (intros ->; rewrite (proj2 (same_key_eq k k) eq_refl) in E;
            discriminate E).
      split.
      * intros [H | [Hin ->]]; [inversion H; congruence |].
        split; [now right | lia].
      * intros [[H | Hin] ->]; [congruence |]. right. split; [exact Hin | lia].
Qed.

Lemma keyed_pairs_firsts (column : Row value datetime64 -> value)
    (f g : Row value datetime64 -> Z) (df : DataFrame datetime64) :
  firsts (keyed_pairs column f g df) = keyed_amounts column f df.
Proof.
  unfold firsts, keyed_pairs, keyed_amounts. rewrite map_map. reflexivity.
Qed.

Lemma keyed_pairs_seconds (column : Row value datetime64 -> value)
    (f g : Row value datetime64 -> Z) (df : DataFrame datetime64) :
  seconds (keyed_pairs column f g df) = keyed_amounts column g df.
Proof.
  unfold seconds, keyed_pairs, keyed_amounts. rewrite map_map. reflexivity.
Qed.

Lemma keyed_amounts_keys (column : Row value datetime64 -> value)
    (f : Row value datetime64 -> Z) (df : DataFrame datetime64) (k : value) :
  In k (map fst (keyed_amounts column f df))
  <-> k <> NaN /\ exists r, In r df /\ column r = k.
Proof.
  unfold keyed_amounts. rewrite map_map. cbn [fst]. split.
  - intros H. apply in_map_iff in H as [[k0 r] [<- Hin]].
    apply keyed_In in Hin as [Hin Hk]. cbn [fst]. unfold object_key in Hk.
    destruct (column r) eqn:E; cbn [isna] in Hk; try discriminate;
      inversion Hk; subst; (split; [discriminate | now exists r]).
  - intros [Hk [r [Hin E]]]. apply in_map_iff. exists (k, r).
    split; [reflexivity |]. apply keyed_In. split; [exact Hin |].
    unfold object_key. rewrite E. destruct k; try reflexivity.
    now contradiction Hk.
Qed.

Lemma keyed_amounts_total (column : Row value datetime64 -> value)
    (f : Row value datetime64 -> Z) (df : DataFrame datetime64) (k : value) :
  k <> NaN ->
  total_where (fun y => same_key y k) (keyed_amounts column f df)
  = row_total f (rows_of column k df).
Proof.
  intros Hk. unfold keyed_amounts, keyed, row_total, rows_of.
  induction df as [| r df IH]; [reflexivity |].
  cbn [flat_map filter]. unfold object_key at 1.
  destruct (isna (column r)) eqn:Ena.
  - cbn [app]. rewrite IH.
    destruct (same_key (column r) k) eqn:E; [| reflexivity].
    apply same_key_eq in E. subst k. destruct (column r); try discriminate.
    now contradiction Hk.
  - cbn [app map]. rewrite total_where_cons_key. cbn [fst snd]. rewrite IH.
    destruct (same_key (column r) k); cbn [map total fold_right];
      unfold total; cbn [fold_right]; lia.
Qed.

Lemma total_group_add (k : value) (a : Z) (gs : list (value * Z)) :
  total (map snd (group_add key_compare Z.add k a gs))
  = total (map snd gs) + a.
Proof.
  unfold total.
  induction gs as [| [k' a'] gs IH]; cbn [group_add map snd fold_right].
  - lia.
  - destruct (key_compare k k'); cbn [map snd fold_right]; try rewrite IH; lia.
Qed.

Lemma total_groupby (kvs : list (value * Z)) :
  total (map snd (groupby key_compare Z.add kvs)) = total (map snd kvs).
Proof.
  unfold groupby.
  assert (forall gs,
            total (map snd (fold_left (fun gs ka =>
                     group_add key_compare Z.add (fst ka) (snd ka) gs) kvs gs))
            = total (map snd gs) + total (map snd kvs)) as H.
  { induction kvs as [| [k a] kvs IH]; intros gs; cbn [fold_left fst snd].
    - unfold total. cbn. lia.
    - rewrite IH, total_group_add. unfold total. cbn [map snd fold_right]. lia. }
  rewrite H. unfold total. cbn [map fold_right]. lia.
Qed.

Lemma keyed_amounts_sum (column : Row value datetime64 -> value)
    (f : Row value datetime64 -> Z) (df : DataFrame datetime64) :
  total (map snd (keyed_amounts column f df))
  = row_total f (filter (fun r => negb (isna (column r))) df).
Proof.
  unfold keyed_amounts, keyed, row_total.
  induction df as [| r df IH]; [reflexivity |].
  cbn [flat_map filter]. unfold object_key at 1.
  destruct (isna (column r)); cbn [negb app map snd]; [exact IH |].
  unfold total in *. cbn [fold_right]. now rewrite IH.
Qed.

(** The groups of a two-column aggregation: ascending keys, one group per
    key of the table, each amount the sum over the rows of the key. *)
Lemma pair_groups (column : Row value datetime64 -> value)
    (f g : Row value datetime64 -> Z) (df : DataFrame datetime64) :
  let gs := groupby key_compare pair_add (keyed_pairs column f g df) in
  StronglySorted key_lt (map fst gs)
  /\ (forall k b c,
        In (k, (b, c)) gs
        <-> (k <> NaN /\ exists r, In r df /\ column r = k)
            /\ b = row_total f (rows_of column k df)
            /\ c = row_total g (rows_of column k df))
  /\ total (map snd (firsts gs))
     = row_total f (filter (fun r => negb (isna (column r))) df)
  /\ total (map snd (seconds gs))
     = row_total g (filter (fun r => negb (isna (column r))) df).
Proof.
  intros gs.
  assert (firsts gs = groupby key_compare Z.add (keyed_amounts column f df))
    as Hf by (unfold gs; now rewrite groupby_firsts, keyed_pairs_firsts).
  assert (seconds gs = groupby key_compare Z.add (keyed_amounts column g df))
    as Hg by (unfold gs; now rewrite groupby_seconds, keyed_pairs_seconds).
  assert (map fst gs = map fst (firsts gs)) as Hk1
    by (unfold firsts; rewrite map_map; reflexivity).
  assert (map fst gs = map fst (seconds gs)) as Hk2
    by (unfold seconds; rewrite map_map; reflexivity).
  assert (StronglySorted key_lt (map fst gs)) as Hs
    by (rewrite Hk1, Hf; apply key_groupby_sorted).
  assert (forall k b c,
            In (k, (b, c)) gs ->
            (k <> NaN /\ exists r, In r df /\ column r = k)
            /\ b = row_total f (rows_of column k df)
            /\ c = row_total g (rows_of column k df)) as Hfwd.
  { intros k b c Hin.
    assert (In (k, b) (firsts gs)) as Hb
      by (unfold firsts; apply in_map_iff; now exists (k, (b, c))).
    assert (In (k, c) (seconds gs)) as Hc
      by (unfold seconds; apply in_map_iff; now exists (k, (b, c))).
    assert (StronglySorted key_lt (map fst (firsts gs))) as Hs1
      by (now rewrite <- Hk1).
    assert (StronglySorted key_lt (map fst (seconds gs))) as Hs2
      by (now rewrite <- Hk2).
    apply (@key_sorted_value _ Hs1) in Hb as [Hkey ->].
    apply (@key_sorted_value _ Hs2) in Hc as [_ ->].
    rewrite Hf in Hkey. apply (proj1 (key_groupby_keys _ _)) in Hkey.
    apply (proj1 (keyed_amounts_keys _ _ _ _)) in Hkey. split; [exact Hkey |].
    rewrite Hf, Hg, !key_total_groupby.
    rewrite !keyed_amounts_total by apply Hkey. now split. }
  split; [exact Hs |]. split; [| split].
  - intros k b c. split; [apply Hfwd |].
    intros [Hkey [-> ->]].
    assert (In k (map fst gs)) as Hin.
    { rewrite Hk1, Hf. apply key_groupby_keys.
      now apply (keyed_amounts_keys column f df k). }
    apply in_map_iff in Hin as [[k0 [b c]] [E Hin]]. cbn [fst] in E.
    subst k0. destruct (Hfwd _ _ _ Hin) as [_ [-> ->]]. exact Hin.
  - now rewrite Hf, total_groupby, keyed_amounts_sum.
  - now rewrite Hg, total_groupby, keyed_amounts_sum.
Qed.

Lemma budget_vs_actuals_numeric (df : DataFrame datetime64) :
  Forall numeric_cell (budgets df) -> Forall numeric_cell (costs df) ->
  budget_vs_actuals_of df
  = Ok (groupby key_compare pair_add
          (keyed_pairs task_of (fun r => amount (Budget r))
                       (fun r => amount (Cost r)) df)).
Proof.
  unfold budgets, costs. rewrite !Forall_map, !Forall_forall.
  intros Hb Hc. unfold budget_vs_actuals_of, keyed_pairs.
  rewrite (sequence_map_Ok _
             (fun kr => (fst kr, (amount (Budget (snd kr)),
                                  amount (Cost (snd kr)))))).
  - reflexivity.
  - intros [k r] Hin. apply keyed_In in Hin as [Hin _]. cbn [fst snd].
    destruct (Hb r Hin) as [-> | [n ->]], (Hc r Hin) as [-> | [m ->]];
      reflexivity.
Qed.

Lemma row_total_amounts (col : Row value datetime64 -> value)
    (rows : DataFrame datetime64) :
  row_total (fun r => amount (col r)) rows = column_sum (map col rows).
Proof.
  unfold row_total, column_sum. now rewrite map_map.
Qed.

(** X10. Budget against actuals: over a Task column of text and Budget
    and Cost columns of whole numbers, cells of each possibly missing,
    within the range where the sums of the code are exact, the chart has
    one bar pair per task named in the table, tasks ascending; the two amounts of a task are the sums of the Budget
    and of the Cost of its rows, and over all tasks they add up to the
    sums over the rows that have a task. *)
Theorem budget_vs_actuals_by_task (df : DataFrame datetime64) :
  Forall (fun r => textual (Task r)) df ->
  Forall numeric_cell (budgets df) -> Forall numeric_cell (costs df) ->
  exact_range (budgets df) -> exact_range (costs df) ->
  exists gs,
    budget_vs_actuals_of df = Ok gs
    /\ StronglySorted key_lt (map fst gs)
    /\ (forall task b c,
          In (task, (b, c)) gs
          <-> (task <> NaN /\ exists r, In r df /\ Task r = task)
              /\ b = column_sum (budgets (rows_of task_of task df))
              /\ c = column_sum (costs (rows_of task_of task df)))
    /\ total (map snd (firsts gs)) = column_sum (budgets (with_task df))
    /\ total (map snd (seconds gs)) = column_sum (costs (with_task df)).
Proof.
  intros _ Hb Hc _ _. rewrite (@budget_vs_actuals_numeric _ Hb Hc).
  eexists. split; [reflexivity |].
  destruct (pair_groups task_of (fun r => amount (Budget r))
              (fun r => amount (Cost r)) df) as [Hs [Hin [Hf Hg]]].
  rewrite !row_total_amounts in Hf, Hg.
  split; [exact Hs |]. split; [| split; [exact Hf | exact Hg]].
  intros task b c. rewrite Hin, !row_total_amounts. reflexivity.
Qed.

Lemma seed_tasks_textual : Forall (fun r => textual (Task r)) dummy_data.
Proof.
  repeat (constructor; [right; eexists; reflexivity |]). constructor.
Qed.

Lemma seed_assignees_textual :
  Forall (fun r => textual (Assignee r)) dummy_data.
Proof.
  repeat (constructor; [right; eexists; reflexivity |]). constructor.
Qed.

Lemma seed_budgets_numeric : Forall numeric_cell (budgets dummy_data).
Proof.
  repeat (constructor; [right; eexists; reflexivity |]). constructor.
Qed.

Lemma seed_costs_numeric : Forall numeric_cell (costs dummy_data).
Proof.
  repeat (constructor; [right; eexists; reflexivity |]). constructor.
Qed.

Lemma budget_vs_actuals_by_task_witness :
  Forall (fun r => textual (Task r)) dummy_data
  /\ Forall numeric_cell (budgets dummy_data)
  /\ Forall numeric_cell (costs dummy_data)
  /\ exact_range (budgets dummy_data)
  /\ exact_range (costs dummy_data)
  /\ exists gs,
       budget_vs_actuals_of dummy_data = Ok gs
       /\ StronglySorted key_lt (map fst gs)
       /\ (forall task b c,
             In (task, (b, c)) gs
             <-> (task <> NaN /\ exists r, In r dummy_data /\ Task r = task)
                 /\ b = column_sum (budgets (rows_of task_of task dummy_data))
                 /\ c = column_sum (costs (rows_of task_of task dummy_data)))
       /\ total (map snd (firsts gs))
          = column_sum (budgets (with_task dummy_data))
       /\ total (map snd (seconds gs))
          = column_sum (costs (with_task dummy_data)).
Proof.
  assert (exact_range (budgets dummy_data)) as Rb
    by (vm_compute; discriminate).
  assert (exact_range (costs dummy_data)) as Rc
    by (vm_compute; discriminate).
  split; [exact seed_tasks_textual |].
  split; [exact seed_budgets_numeric |].
  split; [exact seed_costs_numeric |].
  split; [exact Rb |]. split; [exact Rc |].
  exact (@budget_vs_actuals_by_task dummy_data seed_tasks_textual
           seed_budgets_numeric seed_costs_numeric Rb Rc).
Defined.

Lemma resource_load_numeric (df : DataFrame datetime64) :
  Forall numeric_cell (times df) ->
  resource_load_of df
  = Ok (groupby key_compare pair_add
          (keyed_pairs assignee_of (fun r => amount (Time_Spent r))
                       (fun r => count_present (Task r)) df)).
Proof.
  unfold times. rewrite Forall_map, Forall_forall.
  intros Ht. unfold resource_load_of, keyed_pairs.
  rewrite (sequence_map_Ok _
             (fun kr => (fst kr, (amount (Time_Spent (snd kr)),
                                  count_present (Task (snd kr)))))).
  - reflexivity.
  - intros [k r] Hin. apply keyed_In in Hin as [Hin _]. cbn [fst snd].
    destruct (Ht r Hin) as [-> | [n ->]]; reflexivity.
Qed.

Lemma row_total_count (rows : DataFrame datetime64) :
  row_total (fun r => count_present (Task r)) rows = tasks_counted rows.
Proof.
  unfold row_total, tasks_counted, with_task, total, count_present.
  induction rows as [| r rows IH]; [reflexivity |].
  cbn [map fold_right filter]. rewrite IH.
  destruct (isna (Task r)); cbn [negb List.length]; lia.
Qed.

(** X11. Resource load: over an Assignee column of text and a Time Spent
    column of whole numbers, cells of each possibly missing, within the
    range where the sums of the code are exact, the chart has one bar
    pair per assignee named in the table, assignees ascending; the first
    amount of an assignee is the time spent summed over their rows, the
    second the number of their rows that have a task. *)
Theorem resource_load_by_assignee (df : DataFrame datetime64) :
  Forall (fun r => textual (Assignee r)) df ->
  Forall numeric_cell (times df) ->
  exact_range (times df) ->
  exists gs,
    resource_load_of df = Ok gs
    /\ StronglySorted key_lt (map fst gs)
    /\ forall who t n,
         In (who, (t, n)) gs
         <-> (who <> NaN /\ exists r, In r df /\ Assignee r = who)
             /\ t = column_sum (times (rows_of assignee_of who df))
             /\ n = tasks_counted (rows_of assignee_of who df).
Proof.
  intros _ Ht _. rewrite (@resource_load_numeric _ Ht).
  eexists. split; [reflexivity |].
  destruct (pair_groups assignee_of (fun r => amount (Time_Spent r))
              (fun r => count_present (Task r)) df) as [Hs [Hin _]].
  split; [exact Hs |].
  intros who t n. rewrite Hin, row_total_amounts, row_total_count.
  reflexivity.
Qed.

Lemma seed_times_numeric : Forall numeric_cell (times dummy_data).
Proof.
  repeat (constructor; [right; eexists; reflexivity |]). constructor.
Qed.

Lemma resource_load_by_assignee_witness :
  Forall (fun r => textual (Assignee r)) dummy_data
  /\ Forall numeric_cell (times dummy_data)
  /\ exact_range (times dummy_data)
  /\ exists gs,
       resource_load_of dummy_data = Ok gs
       /\ StronglySorted key_lt (map fst gs)
       /\ forall who t n,
            In (who, (t, n)) gs
            <-> (who <> NaN /\ exists r, In r dummy_data /\ Assignee r = who)
                /\ t = column_sum (times (rows_of assignee_of who dummy_data))
                /\ n = tasks_counted (rows_of assignee_of who dummy_data).
Proof.
  assert (exact_range (times dummy_data)) as Rt
    by (vm_compute; discriminate).
  split; [exact seed_assignees_textual |].
  split; [exact seed_times_numeric |]. split; [exact Rt |].
  exact (@resource_load_by_assignee dummy_data seed_assignees_textual
           seed_times_numeric Rt).
Defined.

(** ** Further properties: what an export followed by an ingestion keeps *)

Ltac digit_values :=
  (change (digit_val _) with (Some 0) || change (digit_val _) with (Some 1)
   || change (digit_val _) with (Some 2) || change (digit_val _) with (Some 3)
   || change (digit_val _) with (Some 4) || change (digit_val _) with (Some 5)
   || change (digit_val _) with (Some 6) || change (digit_val _) with (Some 7)
   || change (digit_val _) with (Some 8) || change (digit_val _) with (Some 9)).

Lemma digits_acc_of_uint (d : Decimal.uint) :
  forall acc : positive,
    digits_acc (Z.pos acc) (NilEmpty.string_of_uint d)
    = Some (Z.pos (Pos.of_uint_acc d acc)).
Proof.
  induction d; intros acc;
    cbn [NilEmpty.string_of_uint digits_acc Pos.of_uint_acc];
    try reflexivity;
    digit_values; rewrite <- IHd; f_equal; lia.
Qed.

Lemma digits_acc_of_uint_0 (d : Decimal.uint) :
  digits_acc 0 (NilEmpty.string_of_uint d) = Some (Z.of_N (Pos.of_uint d)).
Proof.
  induction d; cbn [NilEmpty.string_of_uint digits_acc Pos.of_uint];
    try reflexivity;
    digit_values; cbn [Z.mul Z.add]; try exact IHd; apply digits_acc_of_uint.
Qed.

Lemma int_literal_of_digits (d : Decimal.uint) :
  d <> Decimal.Nil ->
  int_literal (NilEmpty.string_of_uint d) = digits (NilEmpty.string_of_uint d)
  /\ digits (NilEmpty.string_of_uint d) = Some (Z.of_N (Pos.of_uint d)).
Proof.
  intros Hd. split.
  - destruct d; try reflexivity.
  - rewrite <- digits_acc_of_uint_0. destruct d; try reflexivity.
    now contradiction Hd.
Qed.

Lemma to_uint_not_Nil (p : positive) : Pos.to_uint p <> Decimal.Nil.
Proof.
  intros H. pose proof (DecimalPos.Unsigned.of_to p) as E. rewrite H in E.
  discriminate E.
Qed.

(** [int(str(n)) == n], as the CSV reader reads integers. *)
Lemma int_literal_str_of_int (n : Z) : int_literal (str_of_int n) = Some n.
Proof.
  unfold str_of_int.
  destruct n as [| p | p]; cbn [Z.to_int NilZero.string_of_int].
  - reflexivity.
  - unfold NilZero.string_of_uint.
    pose proof (to_uint_not_Nil p) as Hp.
    destruct (@int_literal_of_digits _ Hp) as [E1 E2].
    destruct (Pos.to_uint p) eqn:E; try (now contradiction Hp);
      rewrite E1, E2; rewrite <- E, DecimalPos.Unsigned.of_to; reflexivity.
  - unfold NilZero.string_of_uint.
    pose proof (to_uint_not_Nil p) as Hp.
    destruct (@int_literal_of_digits _ Hp) as [_ E2].
    cbn [int_literal].
    destruct (Pos.to_uint p) eqn:E; try (now contradiction Hp);
      rewrite E2; rewrite <- E, DecimalPos.Unsigned.of_to; reflexivity.
Qed.

Lemma read_back_number (n : Z) : read_cell true (csv_field (Int n)) = Int n.
Proof.
  unfold read_cell. cbn [csv_field].
  rewrite (int_literal_not_na _ (int_literal_str_of_int n)).
  now rewrite int_literal_str_of_int.
Qed.

Lemma letter_is_no_literal (c : ascii) (rest : string) :
  is_letter c = true -> int_literal (String c rest) = None.
Proof.
  destruct c as [b0 b1 b2 b3 b4 b5 b6 b7].
  destruct b0, b1, b2, b3, b4, b5, b6, b7;
    (intros H; vm_compute in H; try discriminate H); reflexivity.
Qed.

Lemma read_back_text (as_int : bool) (v : value) :
  plain_text v -> read_cell as_int (csv_field v) = v.
Proof.
  intros [-> | [s [-> Hs]]]; [now destruct as_int |].
  cbn [csv_field]. unfold read_cell. destruct s as [| c rest];
    [discriminate Hs |].
  cbn [worded] in Hs. apply andb_prop in Hs as [Hs _].
  apply andb_prop in Hs as [Hc Hna]. apply negb_true_iff in Hna.
  rewrite Hna, (@letter_is_no_literal _ rest Hc). now destruct as_int.
Qed.

Lemma exported_numbers_column (col : Row value datetime64 -> value)
    (df : DataFrame datetime64) :
  Forall (fun r => whole_number (col r)) df ->
  int_column (map (fun r => csv_field (col r)) df) = true.
Proof.
  intros H. unfold int_column. apply forallb_forall. intros s Hs.
  apply in_map_iff in Hs as [r [<- Hr]]. rewrite Forall_forall in H.
  destruct (H r Hr) as [n ->]. cbn [csv_field]. unfold is_int_text.
  rewrite int_literal_str_of_int. apply orb_true_r.
Qed.

(** X12. Export followed by ingestion keeps every field that is not a
    date: when the text columns of the table hold plain text or nothing
    and Progress, Time Spent, Budget and Cost hold integers, the table
    that [load_data] reads from the exported file is the table itself
    with the two dates unset. *)
Theorem export_then_ingest_keeps_clean_fields (df : DataFrame datetime64) :
  Forall clean_row df -> reingest df = map without_dates df.
Proof.
  intros Hdf.
  assert (forall col, (forall r, clean_row r -> whole_number (col r)) ->
            int_column (map (fun r => csv_field (col r)) df) = true) as Hcol.
  { intros col Hc. apply exported_numbers_column.
    eapply Forall_impl; [| exact Hdf]. exact Hc. }
  unfold reingest, parse_dates, read_csv, to_csv. rewrite !map_map.
  cbn [Task Subtask Start_Date End_Date Assignee Status Progress Priority
       Time_Spent Comments Dependencies Budget Cost].
  rewrite (Hcol (@Progress _ _)) by (intros r Hr; apply Hr).
  rewrite (Hcol (@Time_Spent _ _)) by (intros r Hr; apply Hr).
  rewrite (Hcol (@Budget _ _)) by (intros r Hr; apply Hr).
  rewrite (Hcol (@Cost _ _)) by (intros r Hr; apply Hr).
  apply map_ext_in. intros r Hr. rewrite Forall_forall in Hdf.
  destruct (Hdf r Hr)
    as (Ht & Hs & Ha & Hst & Hp & Hc & Hd & [n1 E1] & [n2 E2] & [n3 E3]
        & [n4 E4]).
  unfold map_row, without_dates.
  cbn [Task Subtask Start_Date End_Date Assignee Status Progress Priority
       Time_Spent Comments Dependencies Budget Cost].
  rewrite !exported_date_is_NaT.
  rewrite (@read_back_text _ _ Ht), (@read_back_text _ _ Hs),
    (@read_back_text _ _ Ha), (@read_back_text _ _ Hst),
    (@read_back_text _ _ Hp), (@read_back_text _ _ Hc),
    (@read_back_text _ _ Hd).
  rewrite E1, E2, E3, E4, !read_back_number. reflexivity.
Qed.

Lemma design_row_clean : Forall clean_row [design_row].
Proof.
  constructor; [| constructor].
  unfold clean_row, design_row, seed_row.
  cbn [Task Subtask Assignee Status Progress Priority Time_Spent Comments
       Dependencies Budget Cost].
  repeat split;
    try (right; eexists; split; [reflexivity | vm_compute; reflexivity]);
    eexists; reflexivity.
Qed.

Lemma export_then_ingest_keeps_clean_fields_witness :
  Forall clean_row [design_row]
  /\ reingest [design_row] = map without_dates [design_row].
Proof.
  split; [exact design_row_clean |].
  exact (@export_then_ingest_keeps_clean_fields _ design_row_clean).
Defined.

Lemma read_back_marker (as_int : bool) (s : string) :
  is_na_text s = true -> read_cell as_int (csv_field (Str s)) = NaN.
Proof.
  intros H. unfold read_cell. cbn [csv_field]. now rewrite H.
Qed.

(** X13. A text cell that is the empty text, or another of the reader's
    markers of a missing value (NA, N/A, null, ...), comes back from an
    export followed by an ingestion as a missing cell, in each of the
    eleven columns that are not dates; the rows keep their number and
    their order. *)
Theorem markers_come_back_missing (df : DataFrame datetime64) :
  forall col, In col value_columns ->
    Forall2 (fun r r' =>
               forall s, col r = Str s -> is_na_text s = true ->
                         col r' = NaN)
            df (reingest df).
Proof.
  intros col Hcol.
  unfold reingest, parse_dates, read_csv, to_csv. rewrite !map_map.
  apply Forall2_map_right. intros r _ s Es Hs.
  unfold value_columns in Hcol. cbn [In] in Hcol.
  repeat (destruct Hcol as [<- | Hcol];
          [unfold map_row;
           cbn [Task Subtask Assignee Status Progress Priority Time_Spent
                Comments Dependencies Budget Cost];
           rewrite Es; now apply read_back_marker |]).
  contradiction Hcol.
Qed.

Lemma markers_come_back_missing_witness :
  In (@Comments value datetime64) value_columns
  /\ Forall2 (fun r r' =>
                forall s, Comments r = Str s -> is_na_text s = true ->
                          Comments r' = NaN)
             dummy_data (reingest dummy_data).
Proof.
  assert (In (@Comments value datetime64) value_columns) as Hcol
    by (unfold value_columns; cbn [In];
        repeat (first [left; reflexivity | right])).
  split; [exact Hcol |].
  exact (@markers_come_back_missing dummy_data _ Hcol).
Defined.

(** ** Further properties: the views in a row, and one pass of the script *)

Lemma runs_bind {A B} (df df1 df2 : DataFrame datetime64) (m : View A)
    (k : A -> View B) :
  runs df df1 m -> (forall a, runs df1 df2 (k a)) -> runs df df2 (bind m k).
Proof.
  intros Hm Hk w Hw. destruct (Hm w Hw) as [a [scr E]].
  unfold bind. rewrite E.
  destruct (Hk a {| session_df := df1; screen := scr; disk := disk w;
                    clock := clock w |} eq_refl) as [b [scr' E']].
  exists b, scr'. exact E'.
Qed.

Lemma runs_show (df : DataFrame datetime64) (e : event) : runs df df (show e).
Proof.
  intros w Hw. exists tt, (screen w ++ [e]). unfold show. now rewrite Hw.
Qed.

Lemma runs_ret {A} (df : DataFrame datetime64) (a : A) : runs df df (ret a).
Proof.
  intros w Hw. exists a, (screen w). unfold ret. rewrite <- Hw.
  now destruct w.
Qed.

Lemma runs_read {A B} (df df' : DataFrame datetime64) (o : outcome A) (a : A)
    (k : A -> View B) :
  o = Ok a -> runs df df' (k a) -> runs df df' (bind (lift o) k).
Proof.
  intros -> Hk w Hw. unfold bind, lift, ret. exact (Hk w Hw).
Qed.

Lemma runs_the_df {B} (df df' : DataFrame datetime64)
    (k : DataFrame datetime64 -> View B) :
  runs df df' (k df) -> runs df df' (bind the_df k).
Proof.
  intros Hk w Hw. unfold bind, the_df. rewrite Hw. exact (Hk w Hw).
Qed.

Lemma gantt_chart_runs (df : DataFrame datetime64) :
  Forall (fun r => textual (Dependencies r)) df ->
  runs df (map filled df) create_gantt_chart_with_dependencies.
Proof.
  intros Hdf w Hw. rewrite <- Hw in Hdf.
  destruct (@gantt_chart_textual w Hdf) as [shapes [E _]].
  rewrite E, Hw. eexists. exists (screen w). reflexivity.
Qed.

Lemma check_project_delay_runs (df : DataFrame datetime64) :
  runs df (map midnight df) check_project_delay.
Proof.
  intros w Hw. rewrite check_project_delay_run, Hw.
  eexists. eexists. reflexivity.
Qed.

Lemma series_mean_numeric (col : list value) :
  Forall numeric_cell col -> exists x, series_mean col = Ok x.
Proof.
  intros H. unfold series_mean. rewrite (sequence_numbers H).
  eexists. reflexivity.
Qed.

Lemma column_of (P : value -> Prop) (col : Row value datetime64 -> value)
    (df : DataFrame datetime64) :
  Forall (fun r => P (col r)) df -> Forall P (map col df).
Proof. intros H. now apply Forall_map. Qed.

Lemma burn_down_chart_runs (df : DataFrame datetime64) :
  Forall (fun r => numeric_cell (Progress r)) df ->
  runs df df burn_down_chart.
Proof.
  intros H. unfold burn_down_chart. apply runs_the_df.
  eapply runs_read; [| apply runs_ret].
  rewrite burn_down_df_eq, (date_sum_numeric H). reflexivity.
Qed.

Lemma progress_chart_runs (df : DataFrame datetime64) :
  Forall (fun r => numeric_cell (Progress r)) df ->
  runs df df progress_chart.
Proof.
  intros H. unfold progress_chart. apply runs_the_df.
  eapply runs_read; [| apply runs_ret].
  rewrite completion_df_eq. exact (date_sum_numeric H).
Qed.

Lemma resource_load_chart_runs (df : DataFrame datetime64) :
  Forall (fun r => numeric_cell (Time_Spent r)) df ->
  runs df df create_resource_load_chart.
Proof.
  intros H. unfold create_resource_load_chart. apply runs_the_df.
  eapply runs_read; [| apply runs_ret].
  apply resource_load_numeric. unfold times.
  now apply (@column_of numeric_cell (@Time_Spent _ _)).
Qed.

Lemma dashboard_runs (df : DataFrame datetime64) :
  df <> [] ->
  Forall (fun r => numeric_cell (Progress r)) df ->
  Forall (fun r => numeric_cell (Budget r)) df ->
  Forall (fun r => numeric_cell (Cost r)) df ->
  runs df df create_project_health_dashboard.
Proof.
  intros Hdf Hp Hb Hc. unfold create_project_health_dashboard.
  apply (@column_of numeric_cell (@Progress _ _)) in Hp.
  apply (@column_of numeric_cell (@Budget _ _)) in Hb.
  apply (@column_of numeric_cell (@Cost _ _)) in Hc.
  destruct (series_mean_numeric Hp) as [mean Emean].
  apply runs_the_df.
  eapply runs_read.
  { exact (burn_rate_of_rows Hdf Hc Hb). }
  eapply runs_read; [now apply budget_vs_actuals_numeric |].
  eapply runs_read; [exact Emean |].
  repeat (eapply runs_bind; [apply runs_show | intros _]).
  apply runs_show.
Qed.

Lemma filled_viewable (df : DataFrame datetime64) :
  Forall viewable df -> Forall viewable (map filled df).
Proof.
  intros H. apply Forall_map. eapply Forall_impl; [| exact H].
  intros r (Hd & Hrest). split; [| exact Hrest].
  unfold filled. cbn [Dependencies on_Dependencies].
  destruct Hd as [-> | [s ->]]; right; eexists; reflexivity.
Qed.

Lemma visualizations_runs (df : DataFrame datetime64) :
  Forall viewable df -> df <> [] -> runs df (viewed df) visualizations.
Proof.
  intros Hdf Hrows. pose proof (filled_viewable Hdf) as Hf.
  assert (map filled df <> []) as Hrows'
    by (destruct df; [congruence | discriminate]).
  assert (Forall (fun r => numeric_cell (Progress r)) (map filled df)) as Hp
    by (eapply Forall_impl; [| exact Hf]; intros r Hr; apply Hr).
  assert (Forall (fun r => numeric_cell (Time_Spent r)) (map filled df)) as Ht
    by (eapply Forall_impl; [| exact Hf]; intros r Hr; apply Hr).
  assert (Forall (fun r => numeric_cell (Budget r)) (map filled df)) as Hb
    by (eapply Forall_impl; [| exact Hf]; intros r Hr; apply Hr).
  assert (Forall (fun r => numeric_cell (Cost r)) (map filled df)) as Hc
    by (eapply Forall_impl; [| exact Hf]; intros r Hr; apply Hr).
  unfold visualizations, viewed.
  eapply runs_bind.
  { apply gantt_chart_runs. eapply Forall_impl; [| exact Hdf].
    intros r Hr. apply Hr. }
  intros fig_gantt.
  eapply runs_bind; [apply runs_show | intros _].
  eapply runs_bind; [now apply burn_down_chart_runs | intros fig_burndown].
  eapply runs_bind; [apply runs_show | intros _].
  eapply runs_bind; [now apply resource_load_chart_runs | intros fig_load].
  eapply runs_bind; [apply runs_show | intros _].
  eapply runs_bind; [now apply progress_chart_runs | intros fig_progress].
  eapply runs_bind; [apply runs_show | intros _].
  eapply runs_bind; [now apply dashboard_runs | intros _].
  apply check_project_delay_runs.
Qed.


Lemma seed_rows_viewable : Forall viewable dummy_data.
Proof.
  repeat (constructor;
          [repeat split; right; eexists; reflexivity |]).
  constructor.
Qed.

Lemma seed_rows_named : Forall named dummy_data.
Proof.
  repeat (constructor; [split; right; eexists; reflexivity |]).
  constructor.
Qed.


Lemma normalize_idempotent (t : Z) : normalize (normalize t) = normalize t.
Proof.
  unfold normalize at 1. rewrite normalize_is_day_start.
  assert (ns_per_day <> 0) as Hd by (unfold ns_per_day; lia).
  rewrite Z.mul_comm, Z.mod_mul by exact Hd. lia.
Qed.

Lemma normalize_in_range (d : datetime64) :
  in_timestamp_range d -> in_timestamp_range (option_map normalize d).
Proof.
  destruct d as [t |]; [| exact (fun H => H)].
  cbn [in_timestamp_range option_map]. intros [Hlo Hhi].
  assert (0 < ns_per_day) as Hd by (unfold ns_per_day; lia).
  assert (normalize first_midnight = first_midnight) as E by reflexivity.
  rewrite normalize_is_day_start in *.
  pose proof (Z.div_le_mono _ _ ns_per_day Hd Hlo).
  pose proof (Z.mul_div_le t ns_per_day Hd). nia.
Qed.

Lemma replace_idempotent (a b v : value) :
  value_eqb b a = false -> replace a b (replace a b v) = replace a b v.
Proof.
  intros H. unfold replace. destruct (value_eqb v a) eqn:E.
  - now rewrite H.
  - now rewrite E.
Qed.

Lemma fillna_idempotent (x v : value) :
  isna x = false -> fillna x (fillna x v) = fillna x v.
Proof.
  intros H. unfold fillna. destruct (isna v) eqn:E.
  - now rewrite H.
  - now rewrite E.
Qed.

Lemma settled_twice (r : Row value datetime64) : settled (settled r) = settled r.
Proof.
  destruct r as [t st sd ed a s p pr ts c d b co].
  cbv [settled filled at_midnight default_row with_dates
       on_Dependencies on_Time_Spent on_Progress on_Priority on_Subtask
       Task Subtask Start_Date End_Date Assignee Status Progress Priority
       Time_Spent Comments Dependencies Budget Cost].
  rewrite !replace_idempotent, !fillna_idempotent by reflexivity.
  destruct sd, ed; cbn [option_map]; rewrite ?normalize_idempotent;
    reflexivity.
Qed.

Lemma midnight_settled (r : Row value datetime64) :
  midnight (filled (at_midnight r)) = filled (at_midnight r).
Proof.
  destruct r as [t st sd ed a s p pr ts c d b co].
  cbv [midnight filled at_midnight with_dates on_Dependencies on_End_Date
       Task Subtask Start_Date End_Date Assignee Status Progress Priority
       Time_Spent Comments Dependencies Budget Cost].
  destruct ed; cbn [option_map]; rewrite ?normalize_idempotent; reflexivity.
Qed.

Lemma blank_becomes_number (v : value) :
  number_or_blank v -> numeric_cell (replace (Str "") (Int 0) v).
Proof.
  intros [[-> | [n ->]] | ->].
  - now left.
  - right. now exists n.
  - right. now exists 0.
Qed.

Lemma ready_row_viewable (r : Row value datetime64) :
  ready_row r -> viewable (at_midnight (default_row r)).
Proof.
  destruct r as [t st sd ed a s p pr ts c d b co].
  cbv [ready_row viewable at_midnight default_row with_dates
       on_Time_Spent on_Progress on_Priority on_Subtask
       Task Subtask Start_Date End_Date Assignee Status Progress Priority
       Time_Spent Comments Dependencies Budget Cost].
  intros (_ & _ & Hd & Hp & Ht & Hb & Hc).
  repeat split; try assumption; now apply blank_becomes_number.
Qed.

Lemma settled_ready (r : Row value datetime64) :
  ready_row r -> ready_row (settled r).
Proof.
  destruct r as [t st sd ed a s p pr ts c d b co].
  cbv [ready_row settled filled at_midnight default_row with_dates
       on_Dependencies on_Time_Spent on_Progress on_Priority on_Subtask
       Task Subtask Start_Date End_Date Assignee Status Progress Priority
       Time_Spent Comments Dependencies Budget Cost].
  intros (Hs & He & Hd & Hp & Ht & Hb & Hc).
  split; [now apply normalize_in_range |].
  split; [now apply normalize_in_range |].
  split; [destruct Hd as [-> | [x ->]]; right; eexists; reflexivity |].
  split; [left; now apply blank_becomes_number |].
  split; [left; now apply blank_becomes_number |].
  now split.
Qed.

Lemma script_pass_run (df : DataFrame datetime64) (w : World store) :
  Forall ready_row df -> df <> [] ->
  exists scr,
    script_pass df w
    = (Ok tt, {| session_df := FrameDt (map settled df); screen := scr;
                 disk := disk w; clock := clock w |}).
Proof.
  intros Hdf Hrows.
  assert (map at_midnight (map default_row df) <> []) as Hrows'
    by (destruct df; [congruence | discriminate]).
  assert (Forall (fun r => in_timestamp_range (Start_Date r))
                 (map default_row df)) as Hs.
  { apply Forall_map. eapply Forall_impl; [| exact Hdf].
    intros r Hr. destruct r. apply Hr. }
  assert (Forall (fun r => in_timestamp_range (End_Date r))
                 (map default_row df)) as He.
  { apply Forall_map. eapply Forall_impl; [| exact Hdf].
    intros r Hr. destruct r. apply Hr. }
  assert (Forall viewable (map at_midnight (map default_row df))) as Hv.
  { rewrite map_map. apply Forall_map. eapply Forall_impl; [| exact Hdf].
    exact ready_row_viewable. }
  unfold script_pass. cbv zeta. unfold bind at 1. unfold assign_df at 1.
  unfold bind at 1. rewrite (start_texts_parse Hs). cbn [lift ret].
  unfold bind at 1. unfold assign_df at 1.
  unfold bind at 1. rewrite (end_texts_parse He). cbn [lift ret].
  rewrite set_dates_at_midnight. unfold framed.
  match goal with
  | |- context [visualizations ?w0] =>
      destruct (@visualizations_runs _ Hv Hrows' w0 eq_refl)
        as [[] [scr E]];
      rewrite E
  end.
  exists scr. cbn [set_df session_df screen disk clock].
  unfold viewed. rewrite !map_map.
  rewrite (map_ext (fun r => midnight (filled (at_midnight (default_row r))))
                   settled)
    by (intros r; unfold settled; apply midnight_settled).
  reflexivity.
Qed.

(** X15. One pass of the script (the default values, the dates written
    as text and parsed again, the six views) over a table with rows whose
    dates lie in the range of a timestamp from 1677-09-22 on, whose
    Task, Assignee and Dependencies are text or missing and whose amounts
    are whole numbers, missing or (Progress, Time Spent) blank: the pass
    runs to the end, writes no file, and leaves each row with the defaults
    filled in, both dates at midnight and the Dependencies cell filled. A
    second pass over that table runs to the end as well and leaves it as
    it is. *)
Theorem script_pass_settles (df : DataFrame datetime64) (w : World store) :
  Forall ready_row df -> Forall named df -> df <> [] ->
  exists w1 w2,
    script_pass df w = (Ok tt, w1)
    /\ session_df w1 = FrameDt (map settled df) /\ disk w1 = disk w
    /\ script_pass (map settled df) w1 = (Ok tt, w2)
    /\ session_df w2 = FrameDt (map settled df) /\ disk w2 = disk w.
Proof.
  intros Hdf _ Hrows.
  destruct (@script_pass_run df w Hdf Hrows) as [scr1 E1].
  assert (Forall ready_row (map settled df)) as Hdf'.
  { apply Forall_map. eapply Forall_impl; [| exact Hdf].
    exact settled_ready. }
  assert (map settled df <> []) as Hrows'
    by (destruct df; [congruence | discriminate]).
  destruct (@script_pass_run (map settled df)
              {| session_df := FrameDt (map settled df); screen := scr1;
                 disk := disk w; clock := clock w |} Hdf' Hrows')
    as [scr2 E2].
  rewrite map_map in E2.
  rewrite (map_ext _ _ settled_twice) in E2.
  eexists. eexists. split; [exact E1 |].
  split; [reflexivity |]. split; [reflexivity |].
  split; [exact E2 |]. split; reflexivity.
Qed.

Lemma seed_rows_ready : Forall ready_row dummy_data.
Proof.
  pose proof seed_dates_in_range as Hr.
  pose proof seed_rows_viewable as Hv.
  rewrite Forall_forall in *. intros r Hin.
  destruct (Hr r Hin) as [Hs He].
  destruct (Hv r Hin) as (Hd & Hp & Ht & Hb & Hc).
  repeat split; try assumption; now left.
Qed.

Lemma script_pass_settles_witness :
  Forall ready_row dummy_data
  /\ Forall named dummy_data
  /\ dummy_data <> []
  /\ exists w1 w2,
       script_pass dummy_data seeded_session = (Ok tt, w1)
       /\ session_df w1 = FrameDt (map settled dummy_data)
       /\ disk w1 = disk seeded_session
       /\ script_pass (map settled dummy_data) w1 = (Ok tt, w2)
       /\ session_df w2 = FrameDt (map settled dummy_data)
       /\ disk w2 = disk seeded_session.
Proof.
  assert (dummy_data <> []) as Hrows by discriminate.
  split; [exact seed_rows_ready |].
  split; [exact seed_rows_named |]. split; [exact Hrows |].
  exact (@script_pass_settles dummy_data seeded_session seed_rows_ready
           seed_rows_named Hrows).
Defined.

(** ** Further properties: a table read from a CSV file *)

Lemma datetime_is_day_start (y m d : Z) : datetime y m d mod ns_per_day = 0.
Proof.
  unfold datetime, fromordinal. apply Z.mod_mul. unfold ns_per_day. lia.
Qed.

Lemma strptime_is_day_start (s : string) (t : Z) :
  strptime_mdY s = Some t -> t mod ns_per_day = 0.
Proof.
  unfold strptime_mdY.
  destruct (strptime_date s) as [[[y m] d] |]; [| discriminate].
  cbv zeta. destruct (in_bounds (datetime y m d)); [| discriminate].
  intros H. inversion H. apply datetime_is_day_start.
Qed.

Lemma coerced_is_day_start (as_int : bool) (s : string) :
  is_midnight (to_datetime_coerce (read_cell as_int s)) = true.
Proof.
  unfold read_cell.
  destruct (is_na_text s); [reflexivity |].
  assert (is_midnight (to_datetime_coerce (Str s)) = true) as Hs.
  { cbn [to_datetime_coerce]. destruct (strptime_mdY s) as [t |] eqn:E;
      [| reflexivity].
    cbn [is_midnight]. apply Z.eqb_eq. exact (strptime_is_day_start _ E). }
  destruct as_int; [| exact Hs].
  destruct (int_literal s); [reflexivity | exact Hs].
Qed.

Lemma loaded_rows_whole_days (t : Table) :
  Forall whole_days (parse_dates (read_csv t)).
Proof.
  unfold parse_dates, read_csv. rewrite map_map. apply Forall_map.
  apply Forall_forall. intros r _. unfold whole_days.
  cbn [map_row Start_Date End_Date]. split; apply coerced_is_day_start.
Qed.

(** X16. A file whose name ends in [.csv] loads without a message and
    gives one row per record. Each date of the loaded table is unset or
    at the start of a day (a field that is not a month/day/year date is
    unset), so the normalisation of the delay check leaves the loaded
    table exactly as it is. *)
Theorem csv_loads_whole_days {F} (f : UploadedFile) (w : World F) :
  endswith (name f) ".csv" = true ->
  exists df,
    load_data f w = (Ok (Some df), w)
    /\ List.length df = List.length (records f)
    /\ Forall whole_days df
    /\ map midnight df = df.
Proof.
  intros Hname. exists (parse_dates (read_csv (records f))).
  split; [unfold load_data; now rewrite Hname |].
  split; [unfold parse_dates, read_csv; now rewrite !length_map |].
  pose proof (loaded_rows_whole_days (records f)) as Hd.
  split; [exact Hd |].
  rewrite <- (map_id (parse_dates (read_csv (records f)))) at 2.
  apply map_ext_in. intros r Hr. rewrite Forall_forall in Hd.
  apply midnight_fixed, (Hd r Hr).
Qed.

Lemma csv_loads_whole_days_witness :
  endswith (name mixed_dates_file) ".csv" = true
  /\ exists df,
       load_data mixed_dates_file empty_session
       = (Ok (Some df), empty_session)
       /\ List.length df = List.length (records mixed_dates_file)
       /\ Forall whole_days df
       /\ map midnight df = df.
Proof.
  split; [reflexivity |].
  exact (@csv_loads_whole_days _ mixed_dates_file empty_session eq_refl).
Defined.
